(** * Trading journal: trade lifecycle and portfolio accounting

    A shallow embedding of the accounting core of the trading-journal
    dashboard ([src/types.ts], [src/utils/helpers.ts], the event handlers of
    [src/App.tsx]) and the properties of it that the specification states.

    Conventions of the embedding.
    - A JavaScript [number] is an IEEE-754 binary64 value: it is Rocq's
      primitive [float], whose [+ - * /], [=?] and [<?] are the operations the
      JavaScript engine performs ([===] on numbers is [=?]: NaN differs from
      itself and the two zeros are equal).
    - A TypeScript string enum is an inductive type, except [TradeAccount]:
      an account name reaches the ledger through an unchecked cast of the AI
      service's answer, so it is a [string] with four distinguished values.
    - An optional field ([account?], [currentPrice?]) is an [option].
    - React state is threaded explicitly: a handler is a function from the
      state before the event to the state after it. *)

From Stdlib Require Import Floats List String Ascii Bool Arith ZArith Lia.
From Stdlib Require Import Uint63 Decimal DecimalString DecimalNat FinFun.
Import ListNotations.

Local Open Scope string_scope.
Local Open Scope list_scope.

#[local] Set Warnings "-inexact-float".

(** ** JavaScript numbers *)

Module Js.

Definition number := float.

(** [ToBoolean] on a number: [+0], [-0] and NaN are falsy. *)
Definition truthy (x : number) : bool :=
  negb (PrimFloat.is_zero x || PrimFloat.is_nan x).

(** [x || d] on numbers. *)
Definition or_else (x d : number) : number :=
  if truthy x then x else d.

(** [s || d] on strings: the empty string is falsy. *)
Definition or_else_string (s d : string) : string :=
  if String.eqb s "" then d else s.

(** An array length, or a count of array elements, read as a number: the
    conversion is exact below [2 ^ 53], which no array length reaches. *)
Definition of_nat (n : nat) : number :=
  PrimFloat.of_uint63 (Uint63.of_Z (Z.of_nat n)).

(** *** The host functions the handlers call

    They are the engine's and the browser's, not the repository's; they are
    written out after ECMA-262 and the HTML standard.  A [string] holds the
    UTF-8 encoding of the text, one [ascii] a byte.  Lengths are taken of
    decimal digits only, where a byte is a character. *)

(** [Number.prototype.toString] on a non-negative integer. *)
Definition toString (n : nat) : string :=
  NilEmpty.string_of_uint (Nat.to_uint n).

(** The first [n] characters of [rest ++ fill ++ fill ++ ...]. *)
Fixpoint filler (fill rest : string) (n : nat) : string :=
  match n with
  | O => ""
  | S n' =>
      match rest with
      | String c r => String c (filler fill r n')
      | EmptyString =>
          match fill with
          | String c r => String c (filler fill r n')
          | EmptyString => ""
          end
      end
  end.

(** [String.prototype.padStart]: a string that is long enough is returned
    as it is, never cut. *)
Definition padStart (s : string) (maxLength : nat) (fillString : string) : string :=
  if (maxLength <=? String.length s)%nat then s
  else if String.eqb fillString "" then s
  else filler fillString fillString (maxLength - String.length s) ++ s.

Definition upper (c : ascii) : ascii :=
  let n := nat_of_ascii c in
  if ((97 <=? n) && (n <=? 122))%nat then ascii_of_nat (n - 32) else c.

(** [String.prototype.toUpperCase], on the letters of ASCII: the bytes of
    any other character are kept. *)
Fixpoint toUpperCase (s : string) : string :=
  match s with
  | EmptyString => EmptyString
  | String c r => String (upper c) (toUpperCase r)
  end.

(** The UTF-8 encoding of a code point. *)
Definition utf8 (codePoint : N) : string :=
  let continuation (n : N) := ascii_of_N (128 + n mod 64)%N in
  if (codePoint <? 128)%N then String (ascii_of_N codePoint) ""
  else if (codePoint <? 2048)%N then
    String (ascii_of_N (192 + codePoint / 64)%N)
      (String (continuation codePoint) "")
  else if (codePoint <? 65536)%N then
    String (ascii_of_N (224 + codePoint / 4096)%N)
      (String (continuation (codePoint / 64)%N)
         (String (continuation codePoint) ""))
  else
    String (ascii_of_N (240 + codePoint / 262144)%N)
      (String (continuation (codePoint / 4096)%N)
         (String (continuation (codePoint / 64)%N)
            (String (continuation codePoint) ""))).

(** The code points of [WhiteSpace] and [LineTerminator]: TAB, LF, VT, FF,
    CR, the space separators of Unicode (U+0020, U+00A0, U+1680, U+2000 to
    U+200A, U+202F, U+205F, U+3000), the separators U+2028 and U+2029, and
    U+FEFF. *)
Definition whiteSpaceCodePoints : list N :=
  [0x9; 0xA; 0xB; 0xC; 0xD; 0x20; 0xA0; 0x1680;
   0x2000; 0x2001; 0x2002; 0x2003; 0x2004; 0x2005; 0x2006; 0x2007;
   0x2008; 0x2009; 0x200A; 0x2028; 0x2029; 0x202F; 0x205F; 0x3000;
   0xFEFF]%N.

(** Are the bytes [bytes] one white-space character? *)
Definition is_white_space (bytes : string) : bool :=
  existsb (fun codePoint => String.eqb bytes (utf8 codePoint)) whiteSpaceCodePoints.

(** [String.prototype.trimStart]: a white-space character takes one, two or
    three bytes. *)
Fixpoint trimStart (s : string) : string :=
  match s with
  | String c1 r1 =>
      if is_white_space (String c1 "") then trimStart r1
      else
        match r1 with
        | String c2 r2 =>
            if is_white_space (String c1 (String c2 "")) then trimStart r2
            else
              match r2 with
              | String c3 r3 =>
                  if is_white_space (String c1 (String c2 (String c3 "")))
                  then trimStart r3
                  else s
              | EmptyString => s
              end
        | EmptyString => s
        end
  | EmptyString => EmptyString
  end.

(** [String.prototype.trimEnd]: what is kept of [String c r] is [c] and
    what is kept of [r], unless that is one white-space character. *)
Fixpoint trimEnd (s : string) : string :=
  match s with
  | EmptyString => EmptyString
  | String c r =>
      let kept := String c (trimEnd r) in
      if is_white_space kept then EmptyString else kept
  end.

(** [String.prototype.trim]. *)
Definition trim (s : string) : string := trimEnd (trimStart s).

Definition digit_of (c : ascii) : option Z :=
  let n := nat_of_ascii c in
  if ((48 <=? n) && (n <=? 57))%nat then Some (Z.of_nat (n - 48)) else None.

(** The longest run of decimal digits at the head of [s]: how many there
    are, their value after [acc], and what follows. *)
Fixpoint decimalDigits (s : string) (count : nat) (acc : Z) : nat * Z * string :=
  match s with
  | String c r =>
      match digit_of c with
      | Some d => decimalDigits r (S count) (10 * acc + d)
      | None => (count, acc, s)
      end
  | EmptyString => (count, acc, s)
  end.

(** [ExponentPart], when one is at the head of [s]: its value. *)
Definition exponentPart (s : string) : Z :=
  match s with
  | String c r =>
      if Ascii.eqb c "e" || Ascii.eqb c "E" then
        let '(negative, r') :=
          match r with
          | String "-" r' => (true, r')
          | String "+" r' => (false, r')
          | _ => (false, r)
          end in
        let '(count, value, _) := decimalDigits r' 0 0 in
        match count with
        | O => 0%Z
        | S _ => if negative then (- value)%Z else value
        end
      else 0%Z
  | EmptyString => 0%Z
  end.

(** The binary64 value nearest to [m * 10 ^ e] (ties to even), for
    [0 < m]: a quotient is taken with 80 more bits than the divisor needs
    and a sticky last bit, so that the one rounding is the right one. *)
Definition round_decimal (negative : bool) (m e : Z) : number :=
  let signed (v : Z) := if negative then (- v)%Z else v in
  if (0 <=? e)%Z then
    SF2Prim (binary_normalize prec emax (signed (m * 10 ^ e)%Z) 0 negative)
  else
    let d := (10 ^ (- e))%Z in
    let s := (Z.log2 d + 80)%Z in
    let n := Z.shiftl m s in
    let q := (n / d)%Z in
    let sticky := if (n mod d =? 0)%Z then 0%Z else 1%Z in
    SF2Prim (binary_normalize prec emax (signed (2 * q + sticky)%Z) (- s - 1) negative).

(** [StrUnsignedDecimalLiteral] at the head of [s], after the sign. *)
Definition unsignedDecimalLiteral (negative : bool) (s : string) : number :=
  if String.prefix "Infinity" s then
    (if negative then PrimFloat.neg_infinity else PrimFloat.infinity)
  else
    let '(intCount, intValue, r1) := decimalDigits s 0 0 in
    let '(fracCount, mantissa, r2) :=
      match r1 with
      | String "." r => decimalDigits r 0 intValue
      | _ => (O, intValue, r1)
      end in
    match intCount + fracCount with
    | O => PrimFloat.nan
    | S _ =>
        if (mantissa =? 0)%Z then (if negative then PrimFloat.neg_zero else PrimFloat.zero)
        else round_decimal negative mantissa (exponentPart r2 - Z.of_nat fracCount)
    end.

(** [parseFloat] on a string: the value of the longest prefix of the
    trimmed string that is a [StrDecimalLiteral], NaN when there is none. *)
Definition parseFloat (s : string) : number :=
  match trimStart s with
  | String "-" r => unsignedDecimalLiteral true r
  | String "+" r => unsignedDecimalLiteral false r
  | r => unsignedDecimalLiteral false r
  end.

(** *** The number field of a form

    HTML's valid floating-point number: an optional [-]; digits, or a [.]
    and digits, or both in this order; then optionally [e] or [E], an
    optional sign and digits. *)
Definition validFloatingPointNumber (s : string) : bool :=
  let unsigned := match s with String "-" r => r | _ => s end in
  let '(intCount, _, r1) := decimalDigits unsigned 0 0 in
  let afterFraction :=
    match r1 with
    | String "." r =>
        let '(fracCount, _, r2) := decimalDigits r 0 0 in
        match fracCount with O => None | S _ => Some r2 end
    | _ => match intCount with O => None | S _ => Some r1 end
    end in
  match afterFraction with
  | None => false
  | Some EmptyString => true
  | Some (String c r) =>
      (Ascii.eqb c "e" || Ascii.eqb c "E")
      && (let digits :=
            match r with
            | String "-" r' => r'
            | String "+" r' => r'
            | _ => r
            end in
          let '(expCount, _, r3) := decimalDigits digits 0 0 in
          match expCount with O => false | S _ => String.eqb r3 "" end)
  end.

(** The [value] of an [<input type="number">] whose field holds [text]: by
    the value sanitization algorithm it is [text] when that is a valid
    floating-point number and the empty string when it is not.  An engine
    that checks the range too ([rangeChecked]) also gives the empty string
    for a literal whose value is no finite number. *)
Definition Input_number_value (rangeChecked : bool) (text : string) : string :=
  if validFloatingPointNumber text
     && (negb rangeChecked || PrimFloat.is_finite (parseFloat text))
  then text
  else "".

(** [parseFloat] on a value that is a number already, or [undefined]
    ([None]): the number is printed and read back, which changes [-0] into
    [+0] and nothing else; ["undefined"] has no numeric prefix. *)
Definition parseFloat_number (v : option number) : number :=
  match v with
  | None => PrimFloat.nan
  | Some x => if PrimFloat.is_zero x then PrimFloat.zero else x
  end.

End Js.

(** ** [src/types.ts] *)

Module Types.
Import Js.

Inductive TradeDirection := Long | Short.

Inductive TradeSource :=
| SelfDiscovered | YouTube | TwitterX | UnusualOptions
| AnalystReport | EarningsCatalyst | AISuggestion | OtherSource.

Inductive EmotionalState := Calm | Excited | FOMO | Revenge.

Inductive ExitReason :=
| ProfitTarget | StopLoss | ThesisChanged | BetterOpportunity
| Rebalancing | OtherReason.

Record CriteriaChecklist := {
  catalyst45Days : bool;
  analystsCovering : bool;
  institutionalOwnership : bool;
  technicalSetup : bool;
  explainable : bool
}.

Definition TradeAccount := string.
Definition IncomeGenerator : TradeAccount := "Income Generator".
Definition Speculation : TradeAccount := "Speculation".
Definition TradingLab : TradeAccount := "Trading Lab".
Definition Uncategorized : TradeAccount := "Uncategorized".

Inductive TradeAction := OPEN | CLOSE | ROLL.

(** The object the AI service answers with ([responseSchema] of
    [src/App.tsx]); the application keeps it as [frameworkData].  The
    handler that consumes it defends against the absence of a field, so the
    fields it guards are optional here. *)
Record FrameworkData := {
  fw_account : option string;
  fw_tradeType : option string;
  fw_ticker : option string;
  fw_action : option TradeAction;
  fw_direction : TradeDirection;
  fw_quantity : number;
  fw_entryPrice : option number;
  fw_positionSize : option number;
  fw_thesis : option string;
  fw_stopLoss : option number;
  fw_emotionalState : option EmotionalState;
  fw_validationFlags : option (list string)
}.

Record PriceProbability := { price : number; probability : number }.

Record TakeProfit := { p25 : number; p50 : number; p100 : number }.

Inductive Thesis :=
| ThesisText (text : string)
| ThesisPoints (first second third : string).

Record TradeEntryData := {
  id : string;
  entryDate : string;
  ticker : string;
  entryPrice : number;
  positionSize : number;
  shareCount : number;
  direction : TradeDirection;
  source : TradeSource;
  sourceDetail : string;
  conviction : number;
  thesis : Thesis;
  catalystDescription : string;
  catalystDate : string;
  bullCase : PriceProbability;
  bearCase : PriceProbability;
  stopLoss : number;
  takeProfit : TakeProfit;
  portfolioValueOnEntry : number;
  maxRiskPercent : number;
  emotionalState : EmotionalState;
  checklist : CriteriaChecklist;
  account : option TradeAccount;
  rawUserInput : option string;
  frameworkData : option FrameworkData
}.

Inductive Decision := Yes | No.

Record WouldTakeAgain := { decision : Decision; reason : string }.

Record TradeExitData := {
  exitDate : string;
  exitPrice : number;
  exitReason : ExitReason;
  exitReasonDetail : string;
  reviewRight : string;
  reviewWrong : string;
  lessonLearned : string;
  wouldTakeAgain : WouldTakeAgain;
  selfRating : number
}.

(** [ActiveTrade extends TradeEntryData] with [status: 'active']. *)
Record ActiveTrade := {
  active_entry :> TradeEntryData;
  currentPrice : option number
}.

(** [ClosedTrade extends TradeEntryData] with [status: 'closed'].  The
    object is built by spreading the active trade, so a [currentPrice] the
    active trade had stays on it. *)
Record ClosedTrade := {
  closed_entry :> TradeEntryData;
  closed_currentPrice : option number;
  exitData : TradeExitData
}.

(** [Trade = ActiveTrade | ClosedTrade], discriminated by [status]. *)
Inductive Trade :=
| Active (t : ActiveTrade)
| Closed (t : ClosedTrade).

Inductive Status := active | closed.

Definition status (t : Trade) : Status :=
  match t with Active _ => active | Closed _ => closed end.

Definition entry (t : Trade) : TradeEntryData :=
  match t with Active a => a | Closed c => c end.

Record AccountState := {
  name : TradeAccount;
  startingValue : number;
  currentCash : number
}.

Record Settings := {
  portfolioStartingValue : number;
  riskPerTrade : number;
  maxPositionSize : number;
  minCashPercent : number;
  tradingTimezone : string;
  accounts : list AccountState
}.

End Types.

(** ** [src/utils/helpers.ts] *)

Module Helpers.
Import Js Types.
Local Open Scope float_scope.

Definition calculatePL (entryPrice currentPrice shareCount : number)
    (direction : TradeDirection) : number :=
  match direction with
  | Long => (currentPrice - entryPrice) * shareCount
  | Short => (entryPrice - currentPrice) * shareCount
  end.

Definition calculatePLPercent (entryPrice currentPrice : number)
    (direction : TradeDirection) : number :=
  if entryPrice =? 0 then 0
  else match direction with
       | Long => ((currentPrice - entryPrice) / entryPrice) * 100
       | Short => ((entryPrice - currentPrice) / entryPrice) * 100
       end.

Definition isTradeActive (trade : Trade) : bool :=
  match status trade with active => true | closed => false end.

Definition isTradeClosed (trade : Trade) : bool :=
  match status trade with closed => true | active => false end.

Definition getChecklistScore (c : CriteriaChecklist) : nat :=
  List.length
    (filter (fun b : bool => b)
       [catalyst45Days c; analystsCovering c; institutionalOwnership c;
        technicalSetup c; explainable c]).

End Helpers.

(** ** [src/App.tsx]: state and event handlers *)

Module App.
Import Js Types Helpers.
Local Open Scope float_scope.

(** The two persisted pieces of state the handlers write. *)
Record AppState := {
  trades : list Trade;
  settings : Settings
}.

(** The settings a fresh installation starts from. *)
Definition initialSettings : Settings :=
  {| portfolioStartingValue := 22000;
     riskPerTrade := 2;
     maxPositionSize := 30;
     minCashPercent := 5;
     tradingTimezone := "UTC";
     accounts :=
       [ {| name := IncomeGenerator; startingValue := 17000; currentCash := 17000 |};
         {| name := Speculation; startingValue := 3000; currentCash := 3000 |};
         {| name := TradingLab; startingValue := 2000; currentCash := 2000 |} ] |}.

Definition initialState : AppState :=
  {| trades := []; settings := initialSettings |}.

(** [{ ...acc, currentCash: v }] *)
Definition with_currentCash (acc : AccountState) (v : number) : AccountState :=
  {| name := name acc; startingValue := startingValue acc; currentCash := v |}.

(** [{ ...prev, accounts: newAccounts }] *)
Definition with_accounts (prev : Settings) (newAccounts : list AccountState) : Settings :=
  {| portfolioStartingValue := portfolioStartingValue prev;
     riskPerTrade := riskPerTrade prev;
     maxPositionSize := maxPositionSize prev;
     minCashPercent := minCashPercent prev;
     tradingTimezone := tradingTimezone prev;
     accounts := newAccounts |}.

(** [acc.name === trade.account], where [trade.account] may be undefined. *)
Definition is_account (accName : TradeAccount) (acct : option TradeAccount) : bool :=
  match acct with
  | Some a => String.eqb accName a
  | None => false
  end.

(** *** [App.handleAddTrade] *)

(** The [newAccounts] of the settings update. *)
Definition handleAddTrade_newAccounts (newTrade : ActiveTrade)
    (accs : list AccountState) : list AccountState :=
  map (fun acc =>
         if is_account (name acc) (account newTrade)
         then with_currentCash acc (currentCash acc - positionSize newTrade)
         else acc)
      accs.

Definition handleAddTrade (newTrade : ActiveTrade) (st : AppState) : AppState :=
  {| trades := trades st ++ [Active newTrade];
     settings :=
       with_accounts (settings st)
         (handleAddTrade_newAccounts newTrade (accounts (settings st))) |}.

(** *** [DashboardView.handleCloseTrade] *)

(** The P/L a closed trade realised, as every consumer computes it. *)
Definition realizedPL (t : ClosedTrade) : number :=
  calculatePL (entryPrice t) (exitPrice (exitData t)) (shareCount t) (direction t).

Definition handleCloseTrade_newTrades (closedTradeData : ClosedTrade)
    (prev : list Trade) : list Trade :=
  map (fun t =>
         if String.eqb (id (entry t)) (id closedTradeData)
         then Closed closedTradeData
         else t)
      prev.

Definition handleCloseTrade_newAccounts (closedTradeData : ClosedTrade)
    (accs : list AccountState) : list AccountState :=
  let pl := realizedPL closedTradeData in
  map (fun acc =>
         if is_account (name acc) (account closedTradeData)
         then with_currentCash acc
                (currentCash acc + positionSize closedTradeData + pl)
         else acc)
      accs.

Definition handleCloseTrade (closedTradeData : ClosedTrade) (st : AppState) : AppState :=
  {| trades := handleCloseTrade_newTrades closedTradeData (trades st);
     settings :=
       with_accounts (settings st)
         (handleCloseTrade_newAccounts closedTradeData (accounts (settings st))) |}.

(** *** Derived lists: [trades.filter(isTradeActive)], [trades.filter(isTradeClosed)] *)

Fixpoint activeTrades (ts : list Trade) : list ActiveTrade :=
  match ts with
  | [] => []
  | Active a :: r => a :: activeTrades r
  | Closed _ :: r => activeTrades r
  end.

Fixpoint closedTrades (ts : list Trade) : list ClosedTrade :=
  match ts with
  | [] => []
  | Active _ :: r => closedTrades r
  | Closed c :: r => c :: closedTrades r
  end.

(** *** [AIJournalEntryModal.handleConfirm] *)

Definition newTradeId (existing : list Trade) : string :=
  "TRADE-" ++ padStart (toString (List.length existing + 1)) 3 "0".

(** The trade built from the AI service's answer [parsedTrade]; [now] is
    [new Date().toISOString()].  [tradesProp], [settingsProp] and
    [activeTradesProp] are the component's props. *)
Definition handleConfirm (parsedTrade : FrameworkData) (userInput now : string)
    (tradesProp : list Trade) (settingsProp : Settings)
    (activeTradesProp : list ActiveTrade) : ActiveTrade :=
  let entryPrice := or_else (parseFloat_number (fw_entryPrice parsedTrade)) 0 in
  let positionSize := or_else (parseFloat_number (fw_positionSize parsedTrade)) 0 in
  let assignedAccount :=
    match fw_account parsedTrade with
    | Some a => or_else_string a Uncategorized
    | None => Uncategorized
    end in
  let currentPortfolioValue :=
    fold_left (fun sum acc => sum + currentCash acc) (accounts settingsProp) 0
    + fold_left (fun sum (t : ActiveTrade) => sum + Types.positionSize t)
        activeTradesProp 0 in
  {| active_entry :=
       {| id := newTradeId tradesProp;
          entryDate := now;
          ticker :=
            match fw_ticker parsedTrade with
            | Some t => or_else_string (toUpperCase t) "N/A"
            | None => "N/A"
            end;
          Types.entryPrice := entryPrice;
          Types.positionSize := positionSize;
          shareCount :=
            if 0 <? entryPrice then positionSize / entryPrice
            else fw_quantity parsedTrade;
          direction := fw_direction parsedTrade;
          source := AISuggestion;
          sourceDetail := "AI Journal Entry";
          conviction := 5;
          thesis :=
            ThesisText
              match fw_thesis parsedTrade with
              | Some t => or_else_string t ""
              | None => ""
              end;
          catalystDescription := "";
          catalystDate := "";
          bullCase := {| price := 0; probability := 50 |};
          bearCase := {| price := 0; probability := 50 |};
          stopLoss := or_else (parseFloat_number (fw_stopLoss parsedTrade)) 0;
          takeProfit := {| p25 := 0; p50 := 0; p100 := 0 |};
          portfolioValueOnEntry := currentPortfolioValue;
          maxRiskPercent := riskPerTrade settingsProp;
          emotionalState :=
            match fw_emotionalState parsedTrade with
            | Some e => e
            | None => Calm
            end;
          checklist :=
            {| catalyst45Days := false; analystsCovering := false;
               institutionalOwnership := false; technicalSetup := false;
               explainable := false |};
          account := Some assignedAccount;
          rawUserInput := Some userInput;
          frameworkData := Some parsedTrade |};
     currentPrice := None |}.

(** The modal is rendered with the application's current [trades],
    [settings] and [activeTrades], and hands the trade to [handleAddTrade]. *)
Definition confirmTrade (parsedTrade : FrameworkData) (userInput now : string)
    (st : AppState) : AppState :=
  handleAddTrade
    (handleConfirm parsedTrade userInput now
       (trades st) (settings st) (activeTrades (trades st)))
    st.

(** *** [TradeExitForm] *)

Record ExitForm := {
  form_exitPrice : string;
  form_exitReason : ExitReason;
  form_exitReasonDetail : string;
  form_reviewRight : string;
  form_reviewWrong : string;
  form_lessonLearned : string;
  form_wouldTakeAgain : Decision;
  form_wouldTakeAgainReason : string;
  form_selfRating : number
}.

(** The form's initial state. *)
Definition initialForm : ExitForm :=
  {| form_exitPrice := "";
     form_exitReason := ProfitTarget;
     form_exitReasonDetail := "";
     form_reviewRight := "";
     form_reviewWrong := "";
     form_lessonLearned := "";
     form_wouldTakeAgain := Yes;
     form_wouldTakeAgainReason := "";
     form_selfRating := 3 |}.

(** [handleChange] on the input named [exitPrice]:
    [{ ...prev, exitPrice: e.target.value }]. *)
Definition handleChange_exitPrice (value : string) (prev : ExitForm) : ExitForm :=
  {| form_exitPrice := value;
     form_exitReason := form_exitReason prev;
     form_exitReasonDetail := form_exitReasonDetail prev;
     form_reviewRight := form_reviewRight prev;
     form_reviewWrong := form_reviewWrong prev;
     form_lessonLearned := form_lessonLearned prev;
     form_wouldTakeAgain := form_wouldTakeAgain prev;
     form_wouldTakeAgainReason := form_wouldTakeAgainReason prev;
     form_selfRating := form_selfRating prev |}.

(** What a submission does: it alerts and returns, or it calls
    [onConfirmClose] with the closed trade. *)
Inductive Submission :=
| Alert (message : string)
| ConfirmClose (closedTrade : ClosedTrade).

Definition handleSubmit (form : ExitForm) (trade : ActiveTrade) (now : string)
    : Submission :=
  if String.eqb (form_exitPrice form) "" then Alert "Exit price is required."
  else
    ConfirmClose
      {| closed_entry := active_entry trade;
         closed_currentPrice := currentPrice trade;
         exitData :=
           {| exitDate := now;
              exitPrice := parseFloat (form_exitPrice form);
              exitReason := form_exitReason form;
              exitReasonDetail := form_exitReasonDetail form;
              reviewRight := form_reviewRight form;
              reviewWrong := form_reviewWrong form;
              lessonLearned := form_lessonLearned form;
              wouldTakeAgain :=
                {| decision := form_wouldTakeAgain form;
                   reason := form_wouldTakeAgainReason form |};
              selfRating := form_selfRating form |} |}.

(** The form is mounted with [onConfirmClose = handleCloseTrade]. *)
Definition submitExitForm (form : ExitForm) (trade : ActiveTrade) (now : string)
    (st : AppState) : AppState :=
  match handleSubmit form trade now with
  | Alert _ => st
  | ConfirmClose closedTrade => handleCloseTrade closedTrade st
  end.

(** *** [AccountPerformanceCard]: the [stats] of a list of closed trades *)

Record Stats := {
  totalTrades : nat;
  winRate : number;
  totalPL : number;
  avgPL : number
}.

(** One turn of the [forEach] loop over [(totalPL, wins)]. *)
Definition stats_step (acc : number * nat) (t : ClosedTrade) : number * nat :=
  let '(totalPL, wins) := acc in
  let pl := realizedPL t in
  let wins := if 0 <? pl then S wins else wins in
  (totalPL + pl, wins).

Definition AccountPerformanceCard_stats (ts : list ClosedTrade) : Stats :=
  let totalTrades := List.length ts in
  if (totalTrades =? 0)%nat then
    {| totalTrades := 0; winRate := 0; totalPL := 0; avgPL := 0 |}
  else
    let '(totalPL, wins) := fold_left stats_step ts (0, O) in
    {| totalTrades := totalTrades;
       winRate := (of_nat wins / of_nat totalTrades) * 100;
       totalPL := totalPL;
       avgPL := totalPL / of_nat totalTrades |}.

(** *** [AnalyticsView.sourceData] *)

Definition TradeSource_eqb (a b : TradeSource) : bool :=
  match a, b with
  | SelfDiscovered, SelfDiscovered | YouTube, YouTube | TwitterX, TwitterX
  | UnusualOptions, UnusualOptions | AnalystReport, AnalystReport
  | EarningsCatalyst, EarningsCatalyst | AISuggestion, AISuggestion
  | OtherSource, OtherSource => true
  | _, _ => false
  end.

(** [if (!data[k]) data[k] = []; data[k].push(t)] on an object whose keys
    keep their insertion order. *)
Fixpoint push_source (data : list (TradeSource * list ClosedTrade))
    (k : TradeSource) (t : ClosedTrade) : list (TradeSource * list ClosedTrade) :=
  match data with
  | [] => [(k, [t])]
  | (k', ts) :: rest =>
      if TradeSource_eqb k' k then (k', ts ++ [t]) :: rest
      else (k', ts) :: push_source rest k t
  end.

Record SourceStats := {
  source_name : TradeSource;
  source_trades : nat;
  source_winRate : number
}.

Definition sourceStats (kv : TradeSource * list ClosedTrade) : SourceStats :=
  let '(name, ts) := kv in
  let wins := List.length (filter (fun t => 0 <? realizedPL t) ts) in
  {| source_name := name;
     source_trades := List.length ts;
     source_winRate :=
       if (0 <? List.length ts)%nat
       then (of_nat wins / of_nat (List.length ts)) * 100
       else 0 |}.

Definition sourceData (closed : list ClosedTrade) : list SourceStats :=
  map sourceStats
    (fold_left (fun data (t : ClosedTrade) => push_source data (source t) t)
       closed []).

(** *** [AnalyticsView.accountData] *)

Record AccountData := {
  data_IncomeGenerator : list ClosedTrade;
  data_Speculation : list ClosedTrade;
  data_TradingLab : list ClosedTrade;
  data_Uncategorized : list ClosedTrade
}.

(** [data[k].push(t)]: for a key that is none of the four, [data[k]] is
    undefined and the call throws ([None]). *)
Definition push_account (data : AccountData) (k : TradeAccount) (t : ClosedTrade)
    : option AccountData :=
  if String.eqb k IncomeGenerator then
    Some {| data_IncomeGenerator := data_IncomeGenerator data ++ [t];
            data_Speculation := data_Speculation data;
            data_TradingLab := data_TradingLab data;
            data_Uncategorized := data_Uncategorized data |}
  else if String.eqb k Speculation then
    Some {| data_IncomeGenerator := data_IncomeGenerator data;
            data_Speculation := data_Speculation data ++ [t];
            data_TradingLab := data_TradingLab data;
            data_Uncategorized := data_Uncategorized data |}
  else if String.eqb k TradingLab then
    Some {| data_IncomeGenerator := data_IncomeGenerator data;
            data_Speculation := data_Speculation data;
            data_TradingLab := data_TradingLab data ++ [t];
            data_Uncategorized := data_Uncategorized data |}
  else if String.eqb k Uncategorized then
    Some {| data_IncomeGenerator := data_IncomeGenerator data;
            data_Speculation := data_Speculation data;
            data_TradingLab := data_TradingLab data;
            data_Uncategorized := data_Uncategorized data ++ [t] |}
  else None.

Definition accountData (closed : list ClosedTrade) : option AccountData :=
  fold_left
    (fun data (t : ClosedTrade) =>
       match data with
       | Some d =>
           push_account d
             match account t with
             | Some a => or_else_string a Uncategorized
             | None => Uncategorized
             end
             t
       | None => None
       end)
    closed
    (Some {| data_IncomeGenerator := []; data_Speculation := [];
             data_TradingLab := []; data_Uncategorized := [] |}).

End App.

(** ** [src/App.tsx]: the views and the intake dialog *)

Module Views.
Import Js Types Helpers App.
Local Open Scope float_scope.

(** *** [DashboardView]: the open positions shown under an account *)

(** [activeTrades.filter(t => t.account === account.name)] *)
Definition accountTrades (account : AccountState) (active : list ActiveTrade)
    : list ActiveTrade :=
  filter (fun t : ActiveTrade => is_account (name account) (Types.account t)) active.

(** *** [AccountDashboard] and [PositionCard] *)

(** [trade.currentPrice || trade.entryPrice] *)
Definition markPrice (trade : ActiveTrade) : number :=
  match currentPrice trade with
  | Some p => or_else p (entryPrice trade)
  | None => entryPrice trade
  end.

(** The [pl] of one open position. *)
Definition positionPL (trade : ActiveTrade) : number :=
  calculatePL (entryPrice trade) (markPrice trade) (shareCount trade) (direction trade).

Record AccountValue := {
  totalValue : number;
  openPL : number
}.

(** One turn of the [reduce] over [(acc, openPL)]. *)
Definition value_step (state : number * number) (trade : ActiveTrade)
    : number * number :=
  let '(acc, openPL) := state in
  let pl := positionPL trade in
  (acc + positionSize trade + pl, openPL + pl).

(** The memoised [{ totalValue, totalPL }] of [AccountDashboard]. *)
Definition AccountDashboard_value (account : AccountState)
    (trades : list ActiveTrade) : AccountValue :=
  let '(positionsValue, openPL) := fold_left value_step trades (0, 0) in
  {| totalValue := currentCash account + positionsValue; openPL := openPL |}.

Inductive PLColor := text_success | text_danger.

(** [pl >= 0 ? 'text-success' : 'text-danger'] *)
Definition plColor (pl : number) : PLColor :=
  if 0 <=? pl then text_success else text_danger.

Record PositionFigures := {
  card_currentPrice : number;
  card_pl : number;
  card_plPercent : number;
  card_plColor : PLColor
}.

Definition PositionCard_figures (trade : ActiveTrade) : PositionFigures :=
  {| card_currentPrice := markPrice trade;
     card_pl := positionPL trade;
     card_plPercent :=
       calculatePLPercent (entryPrice trade) (markPrice trade) (direction trade);
     card_plColor := plColor (positionPL trade) |}.

(** *** [AnalyticsView]: the performance cards *)

(** [Object.values(TradeAccount)] *)
Definition TradeAccount_values : list TradeAccount :=
  [IncomeGenerator; Speculation; TradingLab; Uncategorized].

(** [accountData[account]], undefined ([None]) for a key the object lacks. *)
Definition AccountData_get (data : AccountData) (k : TradeAccount)
    : option (list ClosedTrade) :=
  if String.eqb k IncomeGenerator then Some (data_IncomeGenerator data)
  else if String.eqb k Speculation then Some (data_Speculation data)
  else if String.eqb k TradingLab then Some (data_TradingLab data)
  else if String.eqb k Uncategorized then Some (data_Uncategorized data)
  else None.

(** The cards rendered: one for each account but "Uncategorized", with the
    statistics of its list.  [None] when [accountData] throws; a card is
    [None] when its list is undefined. *)
Definition AnalyticsView_cards (closed : list ClosedTrade)
    : option (list (TradeAccount * option Stats)) :=
  match accountData closed with
  | None => None
  | Some data =>
      Some
        (map (fun account =>
                (account,
                 option_map AccountPerformanceCard_stats (AccountData_get data account)))
           (filter (fun a => negb (String.eqb a Uncategorized)) TradeAccount_values))
  end.

(** *** [AIJournalEntryModal]: processing the free-form text *)

(** A value [JSON.parse] returns.  An object is read at the type of the
    answer; the elements of an array are left out. *)
Inductive JsonValue :=
| JsonNull
| JsonBoolean (b : bool)
| JsonNumber (x : number)
| JsonString (s : string)
| JsonArray
| JsonObject (answer : FrameworkData).

(** [ToBoolean] on such a value. *)
Definition JsonValue_truthy (v : JsonValue) : bool :=
  match v with
  | JsonNull => false
  | JsonBoolean b => b
  | JsonNumber x => truthy x
  | JsonString s => negb (String.eqb s "")
  | JsonArray => true
  | JsonObject _ => true
  end.

Record ModalState := {
  userInput : string;
  isLoading : bool;
  error : string;
  parsedTrade : JsonValue
}.

(** The dialog as it opens. *)
Definition initialModal : ModalState :=
  {| userInput := ""; isLoading := false; error := ""; parsedTrade := JsonNull |}.

(** A thrown value, as the [catch] of [handleProcess] reads it: [null] or
    [undefined], or a value whose [message] is missing or is a string, as
    it is on an [Error]. *)
Inductive ThrownValue :=
| Nullish
| Carrying (message : option string).

(** How the awaited [processTradeWithAI] ends: with the parsed answer, or
    with a thrown value. *)
Inductive AIOutcome :=
| Returned (result : JsonValue)
| Thrown (err : ThrownValue).

(** What the service call itself does: it fails, or it answers, and the
    [text] of the answer is a string or [undefined]. *)
Inductive ServiceReply :=
| Failed (err : ThrownValue)
| Replied (text : option string).

Section ProcessTradeWithAI.

(** [JSON.parse]; [None] when it throws. *)
Variable JSON_parse : string -> option JsonValue.

(** [processTradeWithAI], given [process.env.API_KEY] and what the service
    does when it is called.  [JSON.parse] reads [undefined] as the text
    "undefined". *)
Definition processTradeWithAI (apiKey : option string) (reply : ServiceReply)
    : AIOutcome :=
  match apiKey with
  | None | Some EmptyString =>
      Thrown (Carrying (Some "API_KEY environment variable not set."))
  | Some _ =>
      match reply with
      | Failed err => Thrown err
      | Replied text =>
          match JSON_parse (match text with Some t => t | None => "undefined" end) with
          | Some result => Returned result
          | None => Thrown (Carrying (Some "AI response was not valid JSON."))
          end
      end
  end.

End ProcessTradeWithAI.

(** [handleProcess] up to the [await]: nothing for a text that [trim]
    empties, else the loading state. *)
Definition handleProcess_start (m : ModalState) : option ModalState :=
  if String.eqb (trim (userInput m)) "" then None
  else Some {| userInput := userInput m; isLoading := true; error := "";
               parsedTrade := JsonNull |}.

(** [handleProcess] after the [await], with its [finally].  On [null] or
    [undefined] the [catch] block throws in turn when it reads [message],
    and only the [finally] block runs. *)
Definition handleProcess_finish (outcome : AIOutcome) (m : ModalState) : ModalState :=
  match outcome with
  | Returned result =>
      {| userInput := userInput m; isLoading := false; error := error m;
         parsedTrade := result |}
  | Thrown (Carrying message) =>
      {| userInput := userInput m; isLoading := false;
         error :=
           match message with
           | Some text => or_else_string text "An error occurred while processing with AI."
           | None => "An error occurred while processing with AI."
           end;
         parsedTrade := parsedTrade m |}
  | Thrown Nullish =>
      {| userInput := userInput m; isLoading := false; error := error m;
         parsedTrade := parsedTrade m |}
  end.

Definition handleProcess (outcome : AIOutcome) (m : ModalState) : ModalState :=
  match handleProcess_start m with
  | None => m
  | Some loading => handleProcess_finish outcome loading
  end.

(** [disabled={isLoading || !userInput.trim()}] on the process button. *)
Definition processDisabled (m : ModalState) : bool :=
  isLoading m || String.eqb (trim (userInput m)) "".

(** [!parsedTrade ? ... : ...]: the dialog shows the text field while the
    parsed answer is falsy, and else the answer with the confirm button,
    the one caller of [handleConfirm]. *)
Definition confirmShown (m : ModalState) : bool :=
  JsonValue_truthy (parsedTrade m).

End Views.

(** * Vocabulary of the properties *)

Import Js Types Helpers App.
Local Open Scope float_scope.

Module Notions.

(** The account at position [i] of a state's account list. *)
Definition accountAt (s : AppState) (i : nat) : option AccountState :=
  nth_error (accounts (settings s)) i.

(** The ids of the stored trades, in order. *)
Definition tradeIds (ts : list Trade) : list string :=
  map (fun t => id (entry t)) ts.

(** How many stored trades carry the id [i]. *)
Definition countId (i : string) (ts : list Trade) : nat :=
  count_occ string_dec (tradeIds ts) i.

(** The states the application reaches from an empty journal: a confirmed
    journal entry is added, or the exit form of one of the displayed active
    trades is submitted. *)
Inductive reachable : AppState -> Prop :=
| reachable_init (s : Settings) :
    reachable {| trades := []; settings := s |}
| reachable_confirm (st : AppState) (parsedTrade : FrameworkData)
    (userInput now : string) :
    reachable st ->
    reachable (confirmTrade parsedTrade userInput now st)
| reachable_submit (st : AppState) (form : ExitForm) (trade : ActiveTrade)
    (now : string) :
    reachable st ->
    In (Active trade) (trades st) ->
    reachable (submitExitForm form trade now st).

(** The binary64 values that are neither NaN nor an infinity. *)
Inductive sf_finite : spec_float -> Prop :=
| sf_finite_zero (s : bool) : sf_finite (S754_zero s)
| sf_finite_number (s : bool) (m : positive) (e : Z) : sf_finite (S754_finite s m e).

(** The sum of a list of numbers as a loop from [0] computes it. *)
Definition sumOf (xs : list number) : number :=
  fold_left PrimFloat.add xs 0.

(** A closed trade counts as a win when its realised P/L is above zero. *)
Definition isWin (t : ClosedTrade) : bool := 0 <? realizedPL t.

(** The closed trades of one provenance. *)
Definition tradesOfSource (k : TradeSource) (closed : list ClosedTrade)
    : list ClosedTrade :=
  filter (fun t : ClosedTrade => TradeSource_eqb (source t) k) closed.

(** The account a closed trade is filed under in the analytics. *)
Definition accountKey (t : ClosedTrade) : TradeAccount :=
  match account t with
  | Some a => or_else_string a Uncategorized
  | None => Uncategorized
  end.

(** The closed trades filed under one account. *)
Definition tradesOfAccount (k : TradeAccount) (closed : list ClosedTrade)
    : list ClosedTrade :=
  filter (fun t => String.eqb (accountKey t) k) closed.

(** The grouping [sourceData] builds before it computes the statistics. *)
Definition groupedBySource (closed : list ClosedTrade)
    : list (TradeSource * list ClosedTrade) :=
  fold_left (fun data (t : ClosedTrade) => push_source data (source t) t) closed [].

(** The table after the trades [seen]: its keys are distinct, each group is
    the trades seen of its key, none is empty, and every trade seen has its
    key in the table. *)
Definition grouped (data : list (TradeSource * list ClosedTrade))
    (seen : list ClosedTrade) : Prop :=
  NoDup (map fst data)
  /\ (forall k g, In (k, g) data -> g = tradesOfSource k seen /\ g <> [])
  /\ (forall t, In t seen -> In (source t) (map fst data)).

(** The four lists of [accountData] after the trades [seen]. *)
Definition filed (d : AccountData) (seen : list ClosedTrade) : Prop :=
  data_IncomeGenerator d = tradesOfAccount IncomeGenerator seen
  /\ data_Speculation d = tradesOfAccount Speculation seen
  /\ data_TradingLab d = tradesOfAccount TradingLab seen
  /\ data_Uncategorized d = tradesOfAccount Uncategorized seen.

(** One turn of the loop of [accountData]. *)
Definition fileTrade (data : option AccountData) (t : ClosedTrade)
    : option AccountData :=
  match data with
  | Some d => push_account d (accountKey t) t
  | None => None
  end.

(** The decimal digits of [n] preceded by as many ["0"] as it takes to reach
    [width] characters. *)
Definition zeroPadded (width n : nat) : string :=
  string_of_list_ascii (repeat "0"%char (width - String.length (toString n)))
  ++ toString n.

(** The number a string of decimal digits denotes. *)
Definition readDecimal (s : string) : option nat :=
  option_map Nat.of_uint (NilEmpty.uint_of_string s).

End Notions.

Import Notions.

(** ** Concrete data for the worked examples *)

Module Sample.

(** An answer of the AI service for "buy TSM at [entry], [size] committed". *)
Definition answer (acct : string) (dir : TradeDirection)
    (entry size : number) : FrameworkData :=
  {| fw_account := Some acct;
     fw_tradeType := Some "BUY_SHARES";
     fw_ticker := Some "tsm";
     fw_action := Some OPEN;
     fw_direction := dir;
     fw_quantity := 7;
     fw_entryPrice := Some entry;
     fw_positionSize := Some size;
     fw_thesis := Some "AI chip demand";
     fw_stopLoss := Some 140;
     fw_emotionalState := None;
     fw_validationFlags := None |}.

(** The exit form as the user leaves it after typing only a price. *)
Definition formWith (exitPriceText : string) : ExitForm :=
  handleChange_exitPrice exitPriceText initialForm.

(** A portfolio with one account, "Account A", holding [cash]. *)
Definition oneAccount (cash : number) : AppState :=
  {| trades := [];
     settings :=
       with_accounts initialSettings
         [ {| name := Speculation; startingValue := cash; currentCash := cash |} ] |}.

Definition t0 : string := "2025-01-01T00:00:00.000Z".
Definition t1 : string := "2025-02-01T00:00:00.000Z".

(** The trade [handleConfirm] builds in [st] from the answer [a]. *)
Definition opened (st : AppState) (a : FrameworkData) : ActiveTrade :=
  handleConfirm a "bought TSM" t0 (trades st) (settings st) (activeTrades (trades st)).

(** [trade] closed at [price], with the exit form otherwise untouched. *)
Definition closedAt (trade : ActiveTrade) (price : number) : ClosedTrade :=
  {| closed_entry := trade;
     closed_currentPrice := currentPrice trade;
     exitData :=
       {| exitDate := t1;
          exitPrice := price;
          exitReason := ProfitTarget;
          exitReasonDetail := "";
          reviewRight := "";
          reviewWrong := "";
          lessonLearned := "";
          wouldTakeAgain := {| decision := Yes; reason := "" |};
          selfRating := 3 |} |}.

(** A closed trade of 10 shares bought at 10 and sold at [exit]. *)
Definition tenShares (k : nat) (src : TradeSource) (exit : number) : ClosedTrade :=
  let a := opened initialState (answer Speculation Long 10 100) in
  {| closed_entry :=
       {| id := newTradeId (repeat (Active a) k);
          entryDate := entryDate a; ticker := ticker a;
          entryPrice := entryPrice a; positionSize := positionSize a;
          shareCount := shareCount a; direction := direction a;
          source := src; sourceDetail := sourceDetail a;
          conviction := conviction a; thesis := thesis a;
          catalystDescription := catalystDescription a;
          catalystDate := catalystDate a;
          bullCase := bullCase a; bearCase := bearCase a;
          stopLoss := stopLoss a; takeProfit := takeProfit a;
          portfolioValueOnEntry := portfolioValueOnEntry a;
          maxRiskPercent := maxRiskPercent a;
          emotionalState := emotionalState a; checklist := checklist a;
          account := account a; rawUserInput := rawUserInput a;
          frameworkData := frameworkData a |};
     closed_currentPrice := None;
     exitData := exitData (closedAt a exit) |}.

(** Three closed trades with P/L +100, -50 and +30. *)
Definition threeClosed : list ClosedTrade :=
  [tenShares 0 AISuggestion 20; tenShares 1 AISuggestion 5; tenShares 2 AISuggestion 13].

(** The closed trade a submission hands over ([None] when it alerts). *)
Definition submitted (form : ExitForm) (trade : ActiveTrade) : option ClosedTrade :=
  match handleSubmit form trade t1 with
  | ConfirmClose c => Some c
  | Alert _ => None
  end.

End Sample.

(** ** Runs of the application *)

Module Runs.

(** One user action: a journal entry is confirmed, or the exit form of one
    of the stored active trades is submitted. *)
Inductive event (st : AppState) : AppState -> Prop :=
| event_confirm (parsedTrade : FrameworkData) (userInput now : string) :
    event st (confirmTrade parsedTrade userInput now st)
| event_submit (form : ExitForm) (trade : ActiveTrade) (now : string) :
    In (Active trade) (trades st) ->
    event st (submitExitForm form trade now st).

(** Any number of user actions, one after the other. *)
Inductive run (st : AppState) : AppState -> Prop :=
| run_here : run st st
| run_then (st1 st2 : AppState) : run st st1 -> event st1 st2 -> run st st2.

(** Two settings that differ in the accounts' cash at most. *)
Definition sameConfiguration (s s' : Settings) : Prop :=
  portfolioStartingValue s' = portfolioStartingValue s
  /\ riskPerTrade s' = riskPerTrade s
  /\ maxPositionSize s' = maxPositionSize s
  /\ minCashPercent s' = minCashPercent s
  /\ tradingTimezone s' = tradingTimezone s
  /\ map name (accounts s') = map name (accounts s)
  /\ map startingValue (accounts s') = map startingValue (accounts s).

(** The mark price a stored record carries, if any. *)
Definition markOf (t : Trade) : option number :=
  match t with
  | Active a => currentPrice a
  | Closed c => closed_currentPrice c
  end.

(** An open position without a usable mark price: none, or a falsy one. *)
Definition unmarked (trade : ActiveTrade) : Prop :=
  match currentPrice trade with
  | Some p => truthy p = false
  | None => True
  end.

(** Two numbers that [===], [<] and [>] cannot tell apart: the same value,
    or two zeros. *)
Definition alike (x y : number) : Prop :=
  Prim2SF x = Prim2SF y
  \/ exists s s', Prim2SF x = S754_zero s /\ Prim2SF y = S754_zero s'.

(** The UTF-8 text of a list of code points. *)
Definition utf8_text (codePoints : list N) : string :=
  fold_right (fun codePoint rest => (utf8 codePoint ++ rest)%string) ""%string codePoints.

(** A text of white-space characters only: the empty text is one. *)
Definition blank (s : string) : Prop :=
  exists codePoints,
    Forall (fun codePoint => In codePoint whiteSpaceCodePoints) codePoints
    /\ s = utf8_text codePoints.

(** A lower-case ASCII letter. *)
Definition is_lower (c : ascii) : bool :=
  ((97 <=? nat_of_ascii c) && (nat_of_ascii c <=? 122))%nat.

(** No lower-case ASCII letter. *)
Definition noLowerCase (s : string) : Prop :=
  Forall (fun c => is_lower c = false) (list_ascii_of_string s).

(** The four account names the analytics know. *)
Definition knownAccount (k : TradeAccount) : Prop :=
  k = IncomeGenerator \/ k = Speculation \/ k = TradingLab \/ k = Uncategorized.

(** How many closed trades the four lists of [accountData] hold. *)
Definition filedCount (d : AccountData) : nat :=
  (List.length (data_IncomeGenerator d) + List.length (data_Speculation d)
   + List.length (data_TradingLab d) + List.length (data_Uncategorized d))%nat.

End Runs.

Import Runs.

(** * Properties *)
(** ** Financial math *)

Section FinancialMath.

Variables entryPrice markPrice shareCount : number.

(** C2.  [calculatePL] returns [(markPrice - entryPrice) * shareCount] for
    Long and [(entryPrice - markPrice) * shareCount] for Short; a direction
    is one of the two, the function is total, and Short is Long with entry
    and mark exchanged. *)
Theorem calculatePL_by_direction (direction : TradeDirection) :
  calculatePL entryPrice markPrice shareCount Long
    = (markPrice - entryPrice) * shareCount
  /\ calculatePL entryPrice markPrice shareCount Short
    = (entryPrice - markPrice) * shareCount
  /\ (direction = Long \/ direction = Short)
  /\ (calculatePL entryPrice markPrice shareCount direction
        = (markPrice - entryPrice) * shareCount
      \/ calculatePL entryPrice markPrice shareCount direction
        = (entryPrice - markPrice) * shareCount)
  /\ calculatePL entryPrice markPrice shareCount Short
    = calculatePL markPrice entryPrice shareCount Long.
Proof.
  repeat split; try reflexivity; destruct direction; auto.
Qed.

(** C5.  [calculatePLPercent] with a zero entry price is [0] whatever the
    mark price and the direction, without dividing; with an entry price
    that is not zero it is the change in percent of the entry price,
    oriented by the direction. *)
Theorem calculatePLPercent_zero_guard (direction : TradeDirection) :
  calculatePLPercent 0 markPrice direction = 0
  /\ ((entryPrice =? 0) = true ->
      calculatePLPercent entryPrice markPrice direction = 0)
  /\ ((entryPrice =? 0) = false ->
      calculatePLPercent entryPrice markPrice Long
        = ((markPrice - entryPrice) / entryPrice) * 100
      /\ calculatePLPercent entryPrice markPrice Short
        = ((entryPrice - markPrice) / entryPrice) * 100).
Proof.
  unfold calculatePLPercent. split; [reflexivity|]. split.
  - intros ->. reflexivity.
  - intros ->. split; reflexivity.
Qed.

End FinancialMath.

(** The guard of C5 at entry prices [-0] and [150], mark price [160]. *)
Lemma calculatePLPercent_zero_guard_witness :
  calculatePLPercent (-0) 160 Short = 0
  /\ calculatePLPercent 150 160 Long = ((160 - 150) / 150) * 100
  /\ calculatePLPercent 150 160 Short = ((150 - 160) / 150) * 100.
Proof.
  split.
  - apply (calculatePLPercent_zero_guard (-0) 160 Short). reflexivity.
  - apply (calculatePLPercent_zero_guard 150 160 Long). reflexivity.
Defined.


(** ** IEEE-754 facts the ledger relies on *)

Section Binary64.

Lemma is_finite_Prim2SF (x : number) :
  PrimFloat.is_finite x = true -> sf_finite (Prim2SF x).
Proof.
  unfold PrimFloat.is_finite, Prim2SF.
  destruct (PrimFloat.is_nan x); [discriminate|].
  destruct (PrimFloat.is_infinity x); [discriminate|]. intros _.
  destruct (PrimFloat.is_zero x); [constructor|].
  destruct (Z.frexp x) as [r ex].
  destruct (shr_fexp prec emax _ _ _) as [shr e'].
  destruct (shr_m shr); constructor.
Qed.

(** A finite number minus itself is [+0]. *)
Lemma sub_diag_finite (x : number) :
  PrimFloat.is_finite x = true -> Prim2SF (x - x) = S754_zero false.
Proof.
  intros H. apply is_finite_Prim2SF in H. rewrite FloatAxioms.sub_spec.
  destruct H as [s|s m e]; unfold SF64sub, SFsub.
  - destruct s; reflexivity.
  - rewrite Z.sub_diag. reflexivity.
Qed.

(** A zero times a finite number is a zero. *)
Lemma mul_zero_finite (z y : number) (s : bool) :
  Prim2SF z = S754_zero s -> PrimFloat.is_finite y = true ->
  exists s', Prim2SF (z * y) = S754_zero s'.
Proof.
  intros Hz H. apply is_finite_Prim2SF in H. rewrite FloatAxioms.mul_spec, Hz.
  destruct H as [sy|sy m e]; unfold SF64mul, SFmul; eexists; reflexivity.
Qed.

(** Adding a zero changes no comparison by [===]: the sum is the number
    itself, or a zero when the number is one. *)
Lemma add_zero_eqb (y z c : number) (s : bool) :
  Prim2SF z = S754_zero s ->
  (y + z =? c) = (y =? c).
Proof.
  intros Hz. rewrite !FloatAxioms.eqb_spec, FloatAxioms.add_spec, Hz.
  unfold SF64add, SFadd.
  destruct (Prim2SF y) as [sy|sy| |sy m e]; try reflexivity.
  destruct sy, s; reflexivity.
Qed.

Lemma SFeqb_refl_finite (s : bool) (m : positive) (e : Z) :
  SFeqb (S754_finite s m e) (S754_finite s m e) = true.
Proof.
  unfold SFeqb, SFcompare.
  rewrite Z.compare_refl, Pos.compare_cont_refl. destruct s; reflexivity.
Qed.

(** A number above zero is truthy and is read back by [parseFloat] as it
    is: [parseFloat(x) || 0] is [x]. *)
Lemma or_else_positive (x : number) :
  (0 <? x) = true -> or_else (parseFloat_number (Some x)) 0 = x.
Proof.
  intros H. rewrite FloatAxioms.ltb_spec in H.
  change (Prim2SF 0) with (S754_zero false) in H.
  assert (Hz : PrimFloat.is_zero x = false).
  { unfold PrimFloat.is_zero. rewrite FloatAxioms.eqb_spec.
    change (Prim2SF PrimFloat.zero) with (S754_zero false).
    destruct (Prim2SF x) as [s|s| |s m e]; try discriminate H; destruct s; reflexivity. }
  assert (Hn : PrimFloat.is_nan x = false).
  { unfold PrimFloat.is_nan. rewrite FloatAxioms.eqb_spec.
    destruct (Prim2SF x) as [s|s| |s m e]; try discriminate H.
    - destruct s; reflexivity.
    - rewrite SFeqb_refl_finite. reflexivity. }
  unfold or_else, parseFloat_number, truthy. rewrite Hz, Hz, Hn. reflexivity.
Qed.

(** The P/L of a position marked at its entry price is a zero. *)
Lemma calculatePL_at_entry (e s : number) (d : TradeDirection) :
  PrimFloat.is_finite e = true -> PrimFloat.is_finite s = true ->
  exists sg, Prim2SF (calculatePL e e s d) = S754_zero sg.
Proof.
  intros He Hs.
  assert (H : exists sg, Prim2SF ((e - e) * s) = S754_zero sg)
    by (eapply mul_zero_finite; [apply sub_diag_finite; exact He | exact Hs]).
  destruct d; exact H.
Qed.

End Binary64.

(** ** The number field: a valid literal is read as a number *)

Section NumberField.

Lemma shr_1_nonneg (mrs : shr_record) :
  (0 <= shr_m mrs)%Z -> (0 <= shr_m (shr_1 mrs))%Z.
Proof.
  destruct mrs as [m r s]. simpl.
  destruct m as [|p|p]; [intros _|intros _|intros H; lia].
  - simpl. lia.
  - destruct p; simpl; lia.
Qed.

Lemma iter_pos_shr_1_nonneg (p : positive) (mrs : shr_record) :
  (0 <= shr_m mrs)%Z -> (0 <= shr_m (SpecFloat.iter_pos shr_1 p mrs))%Z.
Proof.
  revert mrs. induction p as [p IH|p IH|]; intros mrs H; simpl.
  - apply IH, IH, shr_1_nonneg, H.
  - apply IH, IH, H.
  - apply shr_1_nonneg, H.
Qed.

Lemma shr_fexp_nonneg (m e : Z) (l : location) :
  (0 <= m)%Z -> (0 <= shr_m (fst (shr_fexp prec emax m e l)))%Z.
Proof.
  intros H. unfold shr_fexp, shr.
  assert (H0 : (0 <= shr_m (shr_record_of_loc m l))%Z).
  { destruct l as [|[]]; exact H. }
  destruct (fexp prec emax (Zdigits2 m + e) - e)%Z; simpl; try exact H0.
  apply iter_pos_shr_1_nonneg, H0.
Qed.

Lemma binary_round_aux_not_nan (sx : bool) (mx ex : Z) (lx : location) :
  (0 <= mx)%Z -> binary_round_aux prec emax sx mx ex lx <> S754_nan.
Proof.
  intros H. unfold binary_round_aux.
  pose proof (shr_fexp_nonneg mx ex lx H) as H1.
  destruct (shr_fexp prec emax mx ex lx) as [mrs' e']. simpl in H1.
  assert (H2 : (0 <= round_nearest_even (shr_m mrs') (loc_of_shr_record mrs'))%Z).
  { unfold round_nearest_even. destruct (loc_of_shr_record mrs') as [|[]]; try lia.
    destruct (Z.even (shr_m mrs')); lia. }
  pose proof (shr_fexp_nonneg _ e' loc_Exact H2) as H3.
  destruct (shr_fexp prec emax _ e' loc_Exact) as [mrs'' e'']. simpl in H3.
  destruct (shr_m mrs''); [discriminate | | lia].
  destruct (e'' <=? emax - prec)%Z; discriminate.
Qed.

Lemma binary_round_not_nan (sx : bool) (mx : positive) (ex : Z) :
  binary_round prec emax sx mx ex <> S754_nan.
Proof.
  unfold binary_round. destruct (shl_align _ _ _) as [mz ez].
  apply binary_round_aux_not_nan. lia.
Qed.

Lemma binary_normalize_not_nan (m e : Z) (szero : bool) :
  binary_normalize prec emax m e szero <> S754_nan.
Proof.
  unfold binary_normalize. destruct m; [discriminate | |]; apply binary_round_not_nan.
Qed.

Lemma is_nan_Prim2SF (x : number) : Prim2SF x <> S754_nan -> PrimFloat.is_nan x = false.
Proof.
  intros H. unfold PrimFloat.is_nan. rewrite FloatAxioms.eqb_spec.
  destruct (Prim2SF x) as [s|s| |s m e]; [destruct s; reflexivity .. | contradiction |].
  rewrite SFeqb_refl_finite. reflexivity.
Qed.

(** A number made from a binary expansion is never NaN. *)
Lemma SF2Prim_normalize_not_nan (m e : Z) (szero : bool) :
  PrimFloat.is_nan (SF2Prim (binary_normalize prec emax m e szero)) = false.
Proof.
  pose proof (binary_normalize_not_nan m e szero) as H.
  destruct (binary_normalize prec emax m e szero) as [s|s| |s p ex];
    [destruct s; reflexivity .. | contradiction |].
  assert (Hf : PrimFloat.is_nan (Z.ldexp (of_uint63 (of_Z (Z.pos p))) ex) = false).
  { apply is_nan_Prim2SF. rewrite FloatLemmas.Z_ldexp_spec, FloatAxioms.of_uint63_spec.
    pose proof (binary_normalize_not_nan (Uint63.to_Z (of_Z (Z.pos p))) 0 false) as Hn.
    destruct (binary_normalize prec emax _ 0 false) as [s'|s'| |s' p' e'];
      try discriminate; [contradiction|].
    apply binary_round_not_nan. }
  unfold SF2Prim. destruct s; [|exact Hf].
  apply is_nan_Prim2SF. rewrite FloatAxioms.opp_spec.
  unfold PrimFloat.is_nan in Hf. rewrite FloatAxioms.eqb_spec in Hf.
  destruct (Prim2SF (Z.ldexp _ ex)); discriminate.
Qed.

Lemma decimalDigits_count (s : string) (count count' : nat) (acc acc' : Z) :
  fst (fst (decimalDigits s count acc))
  = (fst (fst (decimalDigits s count' acc')) + count - count')%nat
  /\ (count' <= fst (fst (decimalDigits s count' acc')))%nat.
Proof.
  revert count count' acc acc'. induction s as [|c s IH]; intros; cbn [decimalDigits fst]; [split; lia|].
  destruct (digit_of c); cbn [fst]; [|split; lia].
  destruct (IH (S count) (S count') (10 * acc + z)%Z (10 * acc' + z)%Z). split; lia.
Qed.

Lemma unsignedDecimalLiteral_not_nan (negative : bool) (s : string) :
  (let '(intCount, _, r1) := decimalDigits s 0 0 in
   match r1 with
   | String "." r => fst (fst (decimalDigits r 0 0)) <> O
   | _ => intCount <> O
   end) ->
  PrimFloat.is_nan (unsignedDecimalLiteral negative s) = false.
Proof.
  unfold unsignedDecimalLiteral.
  destruct (String.prefix "Infinity" s); [intros _; destruct negative; reflexivity|].
  destruct (decimalDigits s 0 0) as [[intCount intValue] r1].
  assert (Hend : forall fracCount mantissa r2,
             (intCount + fracCount)%nat <> O ->
             PrimFloat.is_nan
               match (intCount + fracCount)%nat with
               | O => PrimFloat.nan
               | S _ =>
                   if (mantissa =? 0)%Z
                   then (if negative then PrimFloat.neg_zero else PrimFloat.zero)
                   else round_decimal negative mantissa (exponentPart r2 - Z.of_nat fracCount)
               end = false).
  { intros fracCount mantissa r2 Hc.
    destruct (intCount + fracCount)%nat; [contradiction|].
    destruct (mantissa =? 0)%Z; [destruct negative; reflexivity|].
    unfold round_decimal.
    destruct (0 <=? exponentPart r2 - Z.of_nat fracCount)%Z;
      apply SF2Prim_normalize_not_nan. }
  destruct r1 as [|c r].
  - intros H. apply Hend. lia.
  - destruct (Ascii.eqb_spec c ".") as [->|Hc].
    + intros H.
      destruct (decimalDigits_count r 0 0 intValue 0) as [Hcount _].
      destruct (decimalDigits r 0 intValue) as [[fracCount mantissa] r2].
      apply Hend. simpl in Hcount. lia.
    + intros H.
      assert (Hi : intCount <> O).
      { destruct c as [[] [] [] [] [] [] [] []]; try exact H. contradiction Hc. reflexivity. }
      assert (E : match c with
                  | "."%char => decimalDigits r 0 intValue
                  | _ => (O, intValue, String c r)
                  end = (O, intValue, String c r)).
      { destruct c as [[] [] [] [] [] [] [] []]; try reflexivity. contradiction Hc. reflexivity. }
      simpl. rewrite E. apply Hend. lia.
Qed.

Lemma validFloatingPointNumber_trimStart (s : string) :
  validFloatingPointNumber s = true -> trimStart s = s.
Proof.
  destruct s as [|c r]; [discriminate|].
  destruct c as [[] [] [] [] [] [] [] []]; intros H;
    try (vm_compute in H; discriminate H);
    destruct r as [|c2 [|c3 r3]]; vm_compute; reflexivity.
Qed.

(** A valid floating-point number is read by [parseFloat] as a number. *)
Lemma parseFloat_valid (s : string) :
  validFloatingPointNumber s = true -> PrimFloat.is_nan (parseFloat s) = false.
Proof.
  intros H. unfold parseFloat. rewrite (validFloatingPointNumber_trimStart s H).
  unfold validFloatingPointNumber in H.
  assert (Hu : forall negative u,
             (let '(intCount, _, r1) := decimalDigits u 0 0 in
              match
                match r1 with
                | String "." r =>
                    let '(fracCount, _, r2) := decimalDigits r 0 0 in
                    match fracCount with O => None | S _ => Some r2 end
                | _ => match intCount with O => None | S _ => Some r1 end
                end
              with
              | None => false
              | Some EmptyString => true
              | Some (String c r) =>
                  (Ascii.eqb c "e" || Ascii.eqb c "E")
                  && (let digits :=
                        match r with
                        | String "-" r' => r'
                        | String "+" r' => r'
                        | _ => r
                        end in
                      let '(expCount, _, r3) := decimalDigits digits 0 0 in
                      match expCount with O => false | S _ => String.eqb r3 "" end)
              end) = true ->
             PrimFloat.is_nan (unsignedDecimalLiteral negative u) = false).
  { intros negative u Hv. apply unsignedDecimalLiteral_not_nan.
    destruct (decimalDigits u 0 0) as [[intCount intValue] r1].
    destruct r1 as [|c r].
    - destruct intCount; [discriminate Hv | discriminate].
    - destruct c as [[] [] [] [] [] [] [] []];
        try (destruct intCount; [discriminate Hv | discriminate]).
      destruct (decimalDigits r 0 0) as [[fracCount fv] r2]. simpl.
      destruct fracCount; [discriminate Hv | discriminate]. }
  destruct s as [|c r]; [discriminate H|].
  destruct c as [[] [] [] [] [] [] [] []]; try (apply Hu; exact H).
  exfalso. vm_compute in H. discriminate H.
Qed.

End NumberField.

(** ** Portfolio ledger *)

Section LedgerFacts.

Variable st : AppState.

Lemma accountAt_handleAddTrade (newTrade : ActiveTrade) (i : nat) :
  accountAt (handleAddTrade newTrade st) i
  = option_map
      (fun acc =>
         if is_account (name acc) (account newTrade)
         then with_currentCash acc (currentCash acc - positionSize newTrade)
         else acc)
      (accountAt st i).
Proof.
  unfold accountAt, handleAddTrade, handleAddTrade_newAccounts. simpl.
  apply nth_error_map.
Qed.

Lemma accountAt_handleCloseTrade (closedTrade : ClosedTrade) (i : nat) :
  accountAt (handleCloseTrade closedTrade st) i
  = option_map
      (fun acc =>
         if is_account (name acc) (account closedTrade)
         then with_currentCash acc
                (currentCash acc + positionSize closedTrade + realizedPL closedTrade)
         else acc)
      (accountAt st i).
Proof.
  unfold accountAt, handleCloseTrade, handleCloseTrade_newAccounts. simpl.
  apply nth_error_map.
Qed.

Lemma is_account_name (acc : AccountState) :
  is_account (name acc) (Some (name acc)) = true.
Proof. apply String.eqb_refl. Qed.

Lemma is_account_other (acc : AccountState) (acct : option TradeAccount) :
  acct <> Some (name acc) -> is_account (name acc) acct = false.
Proof.
  destruct acct as [a|]; simpl; [|reflexivity].
  intros H. apply String.eqb_neq. congruence.
Qed.

Lemma with_accounts_same (s : Settings) : with_accounts s (accounts s) = s.
Proof. destruct s; reflexivity. Qed.

Lemma map_unmatched (f : AccountState -> AccountState) (acct : option TradeAccount)
    (accs : list AccountState) :
  (forall acc, In acc accs -> is_account (name acc) acct = false) ->
  map (fun acc => if is_account (name acc) acct then f acc else acc) accs = accs.
Proof.
  induction accs as [|a accs IH]; intros H; simpl; [reflexivity|].
  rewrite (H a (or_introl eq_refl)), IH; [reflexivity|].
  intros acc Hin. apply H. right. exact Hin.
Qed.

End LedgerFacts.

(** C1.  Opening a trade debits the account it names by the trade's
    [positionSize]; closing it credits that account by [positionSize] plus
    the realised [calculatePL]; with cash 5000 and position size 1000 the
    account holds 4000 after the open and, closed at a profit of 200, 5200. *)
Theorem open_debits_close_credits (st : AppState) (i : nat) (acc : AccountState)
    (newTrade : ActiveTrade) (closedTrade : ClosedTrade) :
  accountAt st i = Some acc ->
  (account newTrade = Some (name acc) ->
   accountAt (handleAddTrade newTrade st) i
   = Some (with_currentCash acc (currentCash acc - positionSize newTrade)))
  /\ (account closedTrade = Some (name acc) ->
      accountAt (handleCloseTrade closedTrade st) i
      = Some (with_currentCash acc
                (currentCash acc + positionSize closedTrade
                 + calculatePL (entryPrice closedTrade)
                     (exitPrice (exitData closedTrade))
                     (shareCount closedTrade) (direction closedTrade))))
  /\ (account newTrade = Some (name acc) ->
      closed_entry closedTrade = active_entry newTrade ->
      currentCash acc = 5000 ->
      positionSize newTrade = 1000 ->
      realizedPL closedTrade = 200 ->
      option_map currentCash (accountAt (handleAddTrade newTrade st) i) = Some 4000
      /\ option_map currentCash
           (accountAt (handleCloseTrade closedTrade (handleAddTrade newTrade st)) i)
         = Some 5200).
Proof.
  intros Hacc. split; [|split].
  - intros Hname. rewrite accountAt_handleAddTrade, Hacc. simpl.
    rewrite Hname, is_account_name. reflexivity.
  - intros Hname. rewrite accountAt_handleCloseTrade, Hacc. simpl.
    rewrite Hname, is_account_name. reflexivity.
  - intros Hname Hentry Hcash Hsize Hpl.
    rewrite accountAt_handleCloseTrade, accountAt_handleAddTrade, Hacc. simpl.
    rewrite Hentry, Hname, is_account_name. simpl.
    rewrite String.eqb_refl, Hpl, Hcash, Hsize. split; reflexivity.
Qed.

(** C4.  An account whose name is not the trade's keeps its record (its
    [currentCash] and [startingValue] with it) through an open and through a
    close; when no account of the list has the trade's name, for one an
    absent name or ["Uncategorized"], both handlers leave the settings as
    they were. *)
Theorem other_accounts_untouched (st : AppState) (newTrade : ActiveTrade)
    (closedTrade : ClosedTrade) :
  (forall i acc,
      accountAt st i = Some acc ->
      (account newTrade <> Some (name acc) ->
       accountAt (handleAddTrade newTrade st) i = Some acc)
      /\ (account closedTrade <> Some (name acc) ->
          accountAt (handleCloseTrade closedTrade st) i = Some acc))
  /\ ((forall acc, In acc (accounts (settings st)) ->
                   account newTrade <> Some (name acc)) ->
      settings (handleAddTrade newTrade st) = settings st)
  /\ ((forall acc, In acc (accounts (settings st)) ->
                   account closedTrade <> Some (name acc)) ->
      settings (handleCloseTrade closedTrade st) = settings st).
Proof.
  split; [|split].
  - intros i acc Hacc. split; intros Hother.
    + rewrite accountAt_handleAddTrade, Hacc. simpl.
      rewrite is_account_other by exact Hother. reflexivity.
    + rewrite accountAt_handleCloseTrade, Hacc. simpl.
      rewrite is_account_other by exact Hother. reflexivity.
  - intros Hnone. unfold handleAddTrade, handleAddTrade_newAccounts. simpl.
    rewrite map_unmatched; [apply with_accounts_same|].
    intros acc Hin. apply is_account_other, Hnone, Hin.
  - intros Hnone. unfold handleCloseTrade, handleCloseTrade_newAccounts. simpl.
    rewrite map_unmatched; [apply with_accounts_same|].
    intros acc Hin. apply is_account_other, Hnone, Hin.
Qed.

(** C1 at "Account A" with cash 5000: a position of 1000 bought at 100,
    closed at 120. *)
Lemma open_debits_close_credits_witness :
  let st := Sample.oneAccount 5000 in
  let trade := Sample.opened st (Sample.answer Speculation Long 100 1000) in
  let closedTrade := Sample.closedAt trade 120 in
  option_map currentCash (accountAt (handleAddTrade trade st) 0) = Some 4000
  /\ option_map currentCash
       (accountAt (handleCloseTrade closedTrade (handleAddTrade trade st)) 0)
     = Some 5200.
Proof.
  cbv zeta.
  apply (open_debits_close_credits (Sample.oneAccount 5000) 0
           {| name := Speculation; startingValue := 5000; currentCash := 5000 |});
    reflexivity.
Defined.

(** C4 on the initial settings: a trade of "Trading Lab" leaves
    "Speculation" alone, and a trade of "Uncategorized" leaves the settings
    as they are. *)
Lemma other_accounts_untouched_witness :
  let lab := Sample.opened initialState (Sample.answer TradingLab Long 10 150) in
  let stray := Sample.opened initialState (Sample.answer Uncategorized Long 10 150) in
  accountAt (handleAddTrade lab initialState) 1
    = Some {| name := Speculation; startingValue := 3000; currentCash := 3000 |}
  /\ accountAt (handleCloseTrade (Sample.closedAt lab 12) initialState) 1
    = Some {| name := Speculation; startingValue := 3000; currentCash := 3000 |}
  /\ settings (handleAddTrade stray initialState) = settings initialState
  /\ settings (handleCloseTrade (Sample.closedAt stray 12) initialState)
     = settings initialState.
Proof.
  cbv zeta.
  pose (lab := Sample.opened initialState (Sample.answer TradingLab Long 10 150)).
  pose (stray := Sample.opened initialState (Sample.answer Uncategorized Long 10 150)).
  destruct (other_accounts_untouched initialState lab (Sample.closedAt lab 12))
    as [Hframe _].
  destruct (other_accounts_untouched initialState stray (Sample.closedAt stray 12))
    as [_ [Hopen Hclose]].
  destruct (Hframe 1%nat
              {| name := Speculation; startingValue := 3000; currentCash := 3000 |}
              eq_refl) as [H1 H2].
  assert (Hnone : forall acc, In acc (accounts (settings initialState)) ->
                              Some Uncategorized <> Some (name acc)).
  { intros acc [<-|[<-|[<-|[]]]]; discriminate. }
  split; [apply H1; discriminate|].
  split; [apply H2; discriminate|].
  split; [apply Hopen; exact Hnone | apply Hclose; exact Hnone].
Defined.

(** C10, as it holds.  A trade opened on an account and closed at its entry
    price leaves the account with
    [cash - positionSize + positionSize + (entryPrice - entryPrice) * shareCount],
    whatever the direction; its name and starting value are unchanged.  For a
    finite entry price and share count the realised P/L is a zero, and the
    cash after the close [===] the cash before the open exactly when
    [cash - positionSize + positionSize], computed in binary64, does. *)
Theorem open_then_close_at_entry (st : AppState) (i : nat) (acc : AccountState)
    (newTrade : ActiveTrade) (closedTrade : ClosedTrade) :
  accountAt st i = Some acc ->
  account newTrade = Some (name acc) ->
  closed_entry closedTrade = active_entry newTrade ->
  exitPrice (exitData closedTrade) = entryPrice newTrade ->
  exists acc',
    accountAt (handleCloseTrade closedTrade (handleAddTrade newTrade st)) i = Some acc'
    /\ name acc' = name acc
    /\ startingValue acc' = startingValue acc
    /\ currentCash acc'
       = currentCash acc - positionSize newTrade + positionSize newTrade
         + (entryPrice newTrade - entryPrice newTrade) * shareCount newTrade
    /\ (PrimFloat.is_finite (entryPrice newTrade) = true ->
        PrimFloat.is_finite (shareCount newTrade) = true ->
        PrimFloat.is_zero (realizedPL closedTrade) = true
        /\ (currentCash acc' =? currentCash acc)
           = (currentCash acc - positionSize newTrade + positionSize newTrade
              =? currentCash acc)).
Proof.
  intros Hacc Hname Hentry Hexit.
  assert (Hpl : realizedPL closedTrade
                = (entryPrice newTrade - entryPrice newTrade) * shareCount newTrade).
  { unfold realizedPL. rewrite Hexit, Hentry.
    destruct (direction newTrade); reflexivity. }
  eexists. split.
  - rewrite accountAt_handleCloseTrade, accountAt_handleAddTrade, Hacc. simpl.
    rewrite Hentry, Hname, is_account_name. simpl.
    rewrite String.eqb_refl. reflexivity.
  - simpl. rewrite Hpl. repeat split.
    + destruct (calculatePL_at_entry (entryPrice newTrade) (shareCount newTrade) Long)
        as [sg Hz]; try assumption.
      unfold PrimFloat.is_zero. rewrite FloatAxioms.eqb_spec.
      simpl in Hz. rewrite Hz. destruct sg; reflexivity.
    + destruct (calculatePL_at_entry (entryPrice newTrade) (shareCount newTrade) Long)
        as [sg Hz]; try assumption.
      simpl in Hz. apply (add_zero_eqb _ _ _ sg Hz).
Qed.

(** The amended C10 at cash 5000, position size 1000, entry and exit at 100:
    here the cash does come back. *)
Lemma open_then_close_at_entry_witness :
  let st := Sample.oneAccount 5000 in
  let trade := Sample.opened st (Sample.answer Speculation Short 100 1000) in
  exists acc',
    accountAt (handleCloseTrade (Sample.closedAt trade 100) (handleAddTrade trade st)) 0
    = Some acc'
    /\ currentCash acc' = 5000 - 1000 + 1000 + (100 - 100) * (1000 / 100)
    /\ (currentCash acc' =? 5000) = true.
Proof.
  cbv zeta.
  destruct (open_then_close_at_entry (Sample.oneAccount 5000) 0
              {| name := Speculation; startingValue := 5000; currentCash := 5000 |}
              (Sample.opened (Sample.oneAccount 5000)
                 (Sample.answer Speculation Short 100 1000))
              (Sample.closedAt
                 (Sample.opened (Sample.oneAccount 5000)
                    (Sample.answer Speculation Short 100 1000)) 100)
              eq_refl eq_refl eq_refl eq_refl)
    as [acc' [Hat [_ [_ [Hcash Hfin]]]]].
  exists acc'. split; [exact Hat|]. split; [exact Hcash|].
  destruct (Hfin eq_refl eq_refl) as [_ Heq]. exact Heq.
Defined.

(** C10 as stated fails: on an account holding 1000.4, a position of 356.7
    opened at 10 and closed at 10 leaves 1000.4000000000001, for Long and for
    Short. *)
Lemma cash_not_restored_1000_4 :
  let st := Sample.oneAccount 1000.4 in
  let cashAfter (d : TradeDirection) :=
    let a := Sample.answer Speculation d 10 356.7 in
    option_map currentCash
      (accountAt
         (submitExitForm (Sample.formWith "10") (Sample.opened st a) Sample.t1
            (confirmTrade a "bought TSM" Sample.t0 st))
         0) in
  option_map currentCash (accountAt st 0) = Some 1000.4
  /\ entryPrice (Sample.opened st (Sample.answer Speculation Long 10 356.7))
     = parseFloat "10"
  /\ cashAfter Long = Some 1000.4000000000001
  /\ cashAfter Short = Some 1000.4000000000001
  /\ (1000.4000000000001 =? 1000.4) = false.
Proof.
  vm_compute. repeat split.
Qed.

(** ** Trade record: identifiers *)

Local Close Scope float_scope.

Section Identifiers.

Lemma filler_zero_rest (n : nat) :
  filler "0" "" n = string_of_list_ascii (repeat "0"%char n).
Proof.
  induction n as [|n IH]; simpl; [reflexivity|]. rewrite IH. reflexivity.
Qed.

Lemma filler_zero (n : nat) :
  filler "0" "0" n = string_of_list_ascii (repeat "0"%char n).
Proof.
  destruct n as [|n]; simpl; [reflexivity|]. rewrite filler_zero_rest. reflexivity.
Qed.

(** [padStart] with the fill ["0"] is zero padding. *)
Lemma padStart_zeroPadded (width n : nat) :
  padStart (toString n) width "0" = zeroPadded width n.
Proof.
  unfold padStart, zeroPadded.
  destruct (Nat.leb_spec width (String.length (toString n))) as [Hle|Hlt].
  - replace (width - String.length (toString n)) with 0 by lia. reflexivity.
  - simpl. rewrite filler_zero. reflexivity.
Qed.

Lemma length_zeros (k : nat) (s : string) :
  String.length (string_of_list_ascii (repeat "0"%char k) ++ s) = k + String.length s.
Proof.
  induction k as [|k IH]; simpl; [reflexivity|]. rewrite IH. reflexivity.
Qed.

Lemma readDecimal_zeros (k : nat) (s : string) (n : nat) :
  readDecimal s = Some n ->
  readDecimal (string_of_list_ascii (repeat "0"%char k) ++ s) = Some n.
Proof.
  unfold readDecimal. intros H. induction k as [|k IH]; simpl; [exact H|].
  destruct (NilEmpty.uint_of_string
              (string_of_list_ascii (repeat "0"%char k) ++ s)) as [d|];
    simpl in *; [exact IH | discriminate IH].
Qed.

Lemma readDecimal_toString (n : nat) : readDecimal (toString n) = Some n.
Proof.
  unfold readDecimal, toString.
  rewrite NilEmpty.usu. simpl. rewrite Unsigned.of_to. reflexivity.
Qed.

(** Reading a zero-padded number gives the number back. *)
Lemma readDecimal_zeroPadded (width n : nat) :
  readDecimal (zeroPadded width n) = Some n.
Proof.
  unfold zeroPadded. apply readDecimal_zeros, readDecimal_toString.
Qed.

Lemma zeroPadded_inj (width n m : nat) :
  zeroPadded width n = zeroPadded width m -> n = m.
Proof.
  intros H. apply (f_equal readDecimal) in H.
  rewrite !readDecimal_zeroPadded in H. congruence.
Qed.

Lemma toString_short (n : nat) :
  n < 1000 -> String.length (toString n) <= 3.
Proof.
  intros H.
  assert (Hall : forallb (fun m => (String.length (toString m) <=? 3)%nat) (seq 0 1000) = true)
    by (vm_compute; reflexivity).
  rewrite forallb_forall in Hall.
  apply Nat.leb_le, Hall, in_seq. lia.
Qed.

Lemma newTradeId_zeroPadded (ts : list Trade) :
  newTradeId ts = ("TRADE-" ++ zeroPadded 3 (List.length ts + 1))%string.
Proof. unfold newTradeId. rewrite padStart_zeroPadded. reflexivity. Qed.

End Identifiers.

(** C9.  The id of a new trade is ["TRADE-"] followed by the decimal digits
    of the number of existing trades plus one, zero-padded to three
    characters: the digits read back as that number, they are exactly three
    while the number is below 1000, and the id depends on nothing but the
    number of existing trades. *)
Theorem new_trade_id (parsedTrade : FrameworkData) (userInput now : string)
    (tradesProp : list Trade) (settingsProp : Settings)
    (activeTradesProp : list ActiveTrade) :
  let n := List.length tradesProp in
  let newTrade :=
    handleConfirm parsedTrade userInput now tradesProp settingsProp activeTradesProp in
  id newTrade = ("TRADE-" ++ zeroPadded 3 (n + 1))%string
  /\ readDecimal (zeroPadded 3 (n + 1)) = Some (n + 1)
  /\ (n + 1 < 1000 -> String.length (zeroPadded 3 (n + 1)) = 3)
  /\ (forall parsedTrade' userInput' now' tradesProp' settingsProp' activeTradesProp',
         List.length tradesProp' = n ->
         id (handleConfirm parsedTrade' userInput' now' tradesProp' settingsProp'
               activeTradesProp')
         = id newTrade).
Proof.
  cbv zeta. split; [|split; [|split]].
  - apply newTradeId_zeroPadded.
  - apply readDecimal_zeroPadded.
  - intros H. unfold zeroPadded. rewrite length_zeros.
    pose proof (toString_short _ H). lia.
  - intros p' u' n' ts' s' a' Hlen. simpl.
    rewrite !newTradeId_zeroPadded, Hlen. reflexivity.
Qed.

(** C9 on journals of 0, 41 and 999 trades. *)
Lemma new_trade_id_witness :
  let idAfter (k : nat) :=
    id (handleConfirm (Sample.answer Speculation Long 150%float 15000%float) "" Sample.t0
          (repeat (Active (Sample.opened initialState
                             (Sample.answer Speculation Long 150%float 15000%float))) k)
          initialSettings []) in
  idAfter 0 = "TRADE-001" /\ idAfter 41 = "TRADE-042"
  /\ idAfter (10 * 100 - 1) = "TRADE-1000"
  /\ String.length (zeroPadded 3 (41 + 1)) = 3.
Proof.
  cbv zeta. split; [reflexivity|]. split; [reflexivity|]. split; [vm_compute; reflexivity|].
  pose proof (new_trade_id (Sample.answer Speculation Long 150%float 15000%float) "" Sample.t0
                (repeat (Active (Sample.opened initialState
                                   (Sample.answer Speculation Long 150%float 15000%float))) 41)
                initialSettings []) as H.
  cbv zeta in H. destruct H as [_ [_ [Hlen _]]].
  rewrite repeat_length in Hlen. apply Hlen. lia.
Defined.

Local Open Scope float_scope.

(** ** Trade record: the close transition *)

Section CloseTransition.

(** The typed lists are the filters of the source. *)
Lemma activeTrades_filter (ts : list Trade) :
  map Active (activeTrades ts) = filter isTradeActive ts.
Proof.
  induction ts as [|[a|c] ts IH]; simpl; [reflexivity | f_equal; exact IH | exact IH].
Qed.

Lemma closedTrades_filter (ts : list Trade) :
  map Closed (closedTrades ts) = filter isTradeClosed ts.
Proof.
  induction ts as [|[a|c] ts IH]; simpl; [reflexivity | exact IH | f_equal; exact IH].
Qed.

(** Every trade is active or closed, and not both. *)
Lemma isTradeActive_xor_closed (t : Trade) : isTradeActive t = negb (isTradeClosed t).
Proof. destruct t; reflexivity. Qed.

Lemma handleSubmit_confirmed (form : ExitForm) (trade : ActiveTrade) (now : string)
    (closedTrade : ClosedTrade) :
  handleSubmit form trade now = ConfirmClose closedTrade ->
  form_exitPrice form <> ""%string
  /\ closed_entry closedTrade = active_entry trade
  /\ closed_currentPrice closedTrade = currentPrice trade
  /\ exitPrice (exitData closedTrade) = parseFloat (form_exitPrice form).
Proof.
  unfold handleSubmit.
  destruct (String.eqb_spec (form_exitPrice form) "") as [E|E]; [discriminate|].
  intros H. injection H as <-. repeat split; assumption.
Qed.

Lemma tradeIds_handleCloseTrade (closedTrade : ClosedTrade) (ts : list Trade) :
  tradeIds (handleCloseTrade_newTrades closedTrade ts) = tradeIds ts.
Proof.
  unfold tradeIds, handleCloseTrade_newTrades. rewrite map_map.
  apply map_ext. intros t.
  destruct (String.eqb_spec (id (entry t)) (id closedTrade)) as [E|E];
    [symmetry; exact E | reflexivity].
Qed.

Lemma tradeIds_submitExitForm (form : ExitForm) (trade : ActiveTrade) (now : string)
    (st : AppState) :
  tradeIds (trades (submitExitForm form trade now st)) = tradeIds (trades st).
Proof.
  unfold submitExitForm.
  destruct (handleSubmit form trade now); [reflexivity|].
  apply tradeIds_handleCloseTrade.
Qed.

Lemma tradeIds_length (ts : list Trade) : List.length (tradeIds ts) = List.length ts.
Proof. apply length_map. Qed.

(** In a reachable state the trade at position [k] has the id of number
    [k + 1]. *)
Lemma reachable_tradeIds (st : AppState) :
  reachable st ->
  tradeIds (trades st)
  = map (fun k => ("TRADE-" ++ zeroPadded 3 (k + 1))%string)
      (seq 0 (List.length (trades st))).
Proof.
  induction 1 as [s | st p u now Hr IH | st form trade now Hr IH Hin].
  - reflexivity.
  - unfold confirmTrade, handleAddTrade. simpl.
    rewrite length_app. simpl. rewrite Nat.add_1_r, seq_S, map_app.
    unfold tradeIds in *. rewrite map_app, IH. simpl.
    rewrite newTradeId_zeroPadded. reflexivity.
  - rewrite tradeIds_submitExitForm, IH.
    rewrite <- (tradeIds_length (trades (submitExitForm form trade now st))).
    rewrite tradeIds_submitExitForm, tradeIds_length. reflexivity.
Qed.

(** No two trades of a reachable state share an id. *)
Lemma reachable_NoDup (st : AppState) :
  reachable st -> NoDup (tradeIds (trades st)).
Proof.
  intros Hr. rewrite (reachable_tradeIds st Hr).
  apply Injective_map_NoDup; [|apply seq_NoDup].
  intros a b H. injection H as H.
  apply zeroPadded_inj in H. lia.
Qed.

Lemma nth_handleCloseTrade (closedTrade : ClosedTrade) (ts : list Trade) (k : nat) :
  nth_error (handleCloseTrade_newTrades closedTrade ts) k
  = option_map
      (fun t => if String.eqb (id (entry t)) (id closedTrade)
                then Closed closedTrade else t)
      (nth_error ts k).
Proof. apply nth_error_map. Qed.

End CloseTransition.

(** C3.  A confirmed submission hands over a record with the entry fields of
    the active trade (its [id], [entryPrice], [positionSize], [ticker],
    [direction], [shareCount] and [account] among them), tagged closed and
    carrying the exit data.  In the stored list every record with that id
    becomes the closed record and every other record stays: the list keeps
    its length and its ids, so a journal that held the id once (as every
    reachable journal does for each of its active trades) holds it once
    afterwards, on the closed record. *)
Theorem close_supersedes_record (st : AppState) (form : ExitForm)
    (trade : ActiveTrade) (now : string) (closedTrade : ClosedTrade) :
  handleSubmit form trade now = ConfirmClose closedTrade ->
  let after := trades (submitExitForm form trade now st) in
  closed_entry closedTrade = active_entry trade
  /\ status (Active trade) = active
  /\ status (Closed closedTrade) = closed
  /\ exitPrice (exitData closedTrade) = parseFloat (form_exitPrice form)
  /\ List.length after = List.length (trades st)
  /\ tradeIds after = tradeIds (trades st)
  /\ (forall k t,
         nth_error (trades st) k = Some t ->
         nth_error after k
         = Some (if String.eqb (id (entry t)) (id trade)
                 then Closed closedTrade else t))
  /\ (forall t, In t after -> id (entry t) = id trade -> t = Closed closedTrade)
  /\ (countId (id trade) (trades st) = 1%nat -> countId (id trade) after = 1%nat)
  /\ (reachable st -> In (Active trade) (trades st) ->
      countId (id trade) after = 1%nat /\ In (Closed closedTrade) after).
Proof.
  intros Hsubmit after.
  destruct (handleSubmit_confirmed _ _ _ _ Hsubmit) as [_ [Hentry [_ Hexit]]].
  assert (Hafter : after = handleCloseTrade_newTrades closedTrade (trades st))
    by (unfold after, submitExitForm; rewrite Hsubmit; reflexivity).
  assert (Hid : id closedTrade = id trade) by (rewrite Hentry; reflexivity).
  assert (Hids : tradeIds after = tradeIds (trades st))
    by (rewrite Hafter; apply tradeIds_handleCloseTrade).
  assert (Hnth : forall k t,
             nth_error (trades st) k = Some t ->
             nth_error after k
             = Some (if String.eqb (id (entry t)) (id trade)
                     then Closed closedTrade else t)).
  { intros k t Hk. rewrite Hafter, nth_handleCloseTrade, Hk, Hid. reflexivity. }
  repeat split; try assumption; try reflexivity.
  - rewrite <- !tradeIds_length, Hids. reflexivity.
  - intros t Hin Ht. rewrite Hafter in Hin.
    unfold handleCloseTrade_newTrades in Hin. apply in_map_iff in Hin.
    destruct Hin as [t' [Hmap _]]. rewrite Hid in Hmap.
    destruct (String.eqb_spec (id (entry t')) (id trade)) as [E|E];
      [symmetry; exact Hmap | subst t'; contradiction].
  - unfold countId. rewrite Hids. auto.
  - unfold countId. rewrite Hids.
    apply NoDup_count_occ'; [apply reachable_NoDup; assumption|].
    unfold tradeIds. apply in_map_iff. exists (Active trade). split; [reflexivity|assumption].
  - match goal with Hin : In (Active trade) _ |- _ =>
      destruct (In_nth_error _ _ Hin) as [k Hk] end.
    apply (nth_error_In after k). rewrite (Hnth _ _ Hk). simpl.
    rewrite String.eqb_refl. reflexivity.
Qed.

(** C3 on the journal that holds one confirmed trade, closed at 160. *)
Lemma close_supersedes_record_witness :
  let a := Sample.answer Speculation Long 150 15000 in
  let st := confirmTrade a "bought TSM" Sample.t0 initialState in
  let trade := Sample.opened initialState a in
  let closedTrade := Sample.closedAt trade 160 in
  let after := trades (submitExitForm (Sample.formWith "160") trade Sample.t1 st) in
  closed_entry closedTrade = active_entry trade
  /\ List.length after = 1%nat
  /\ countId "TRADE-001" after = 1%nat
  /\ after = [Closed closedTrade].
Proof.
  cbv zeta.
  pose (a := Sample.answer Speculation Long 150 15000).
  pose (st := confirmTrade a "bought TSM" Sample.t0 initialState).
  pose (trade := Sample.opened initialState a).
  assert (Hreach : reachable st)
    by (apply reachable_confirm, (reachable_init initialSettings)).
  destruct (close_supersedes_record st (Sample.formWith "160") trade Sample.t1
              (Sample.closedAt trade 160) eq_refl)
    as [Hentry [_ [_ [_ [Hlen [_ [_ [_ [_ Hone]]]]]]]]].
  destruct (Hone Hreach (or_introl eq_refl)) as [Hcount _].
  split; [exact Hentry|]. split; [exact Hlen|]. split; [exact Hcount|]. reflexivity.
Defined.

(** ** Trade record: validation of the exit form *)

(** C7.  The exit price reaches [handleSubmit] through the number field of
    the form, whose value [handleChange] stores: the text in the field when
    that is a number, and the empty string when it is absent or not numeric
    (on an engine that checks the range, also when it is a literal too
    large).  The submission is refused, with the alert "Exit price is
    required.", no closed trade and the trades and accounts unchanged, if
    and only if the text is absent or not numeric.  When it is numeric the
    trade is closed at [parseFloat] of the text, which is a number, and a
    form in which only the exit price was typed closes it with the defaults
    for every other exit field.  The handler itself tests only that the
    stored value is not empty. *)
Theorem exit_price_required (rangeChecked : bool) (text : string) (form : ExitForm)
    (st : AppState) (trade : ActiveTrade) (now : string) :
  form_exitPrice form = Input_number_value rangeChecked text ->
  let numeric :=
    validFloatingPointNumber text = true
    /\ (rangeChecked = true -> PrimFloat.is_finite (parseFloat text) = true) in
  let refused := handleSubmit form trade now = Alert "Exit price is required." in
  (refused <-> form_exitPrice form = ""%string)
  /\ (refused <-> ~ numeric)
  /\ (text = ""%string -> refused)
  /\ (rangeChecked = false -> (refused <-> validFloatingPointNumber text = false))
  /\ (refused -> submitExitForm form trade now st = st)
  /\ (numeric ->
      exists closedTrade,
        handleSubmit form trade now = ConfirmClose closedTrade
        /\ submitExitForm form trade now st = handleCloseTrade closedTrade st
        /\ closed_entry closedTrade = active_entry trade
        /\ exitDate (exitData closedTrade) = now
        /\ exitPrice (exitData closedTrade) = parseFloat text
        /\ PrimFloat.is_nan (exitPrice (exitData closedTrade)) = false
        /\ (form = handleChange_exitPrice (form_exitPrice form) initialForm ->
            exitReason (exitData closedTrade) = ProfitTarget
            /\ exitReasonDetail (exitData closedTrade) = ""%string
            /\ reviewRight (exitData closedTrade) = ""%string
            /\ reviewWrong (exitData closedTrade) = ""%string
            /\ lessonLearned (exitData closedTrade) = ""%string
            /\ wouldTakeAgain (exitData closedTrade)
               = {| decision := Yes; reason := "" |}
            /\ selfRating (exitData closedTrade) = 3)).
Proof.
  intros Hfield. cbv zeta.
  assert (Hguard : handleSubmit form trade now = Alert "Exit price is required."
                   <-> form_exitPrice form = ""%string).
  { unfold handleSubmit. destruct (String.eqb_spec (form_exitPrice form) "") as [E|E].
    - tauto.
    - split; [discriminate | contradiction]. }
  assert (Hvalue : form_exitPrice form = ""%string
                   <-> ~ (validFloatingPointNumber text = true
                          /\ (rangeChecked = true ->
                              PrimFloat.is_finite (parseFloat text) = true))).
  { rewrite Hfield. unfold Input_number_value.
    destruct (validFloatingPointNumber text) eqn:Hv; simpl.
    - destruct rangeChecked; simpl.
      + destruct (PrimFloat.is_finite (parseFloat text)) eqn:Hf.
        * split; [intros ->; discriminate Hv | intros H; exfalso; apply H; auto].
        * split; [intros _ [_ H]; specialize (H eq_refl); discriminate H | reflexivity].
      + split; [intros ->; discriminate Hv|].
        intros H. exfalso. apply H. split; [reflexivity | discriminate].
    - split; [intros _ [H _]; discriminate H | reflexivity]. }
  split; [exact Hguard|]. split; [rewrite Hguard; exact Hvalue|].
  split; [|split; [|split]].
  - intros ->. apply Hguard. rewrite Hfield. destruct rangeChecked; reflexivity.
  - intros ->. rewrite Hguard, Hvalue. split.
    + intros H. destruct (validFloatingPointNumber text); [|reflexivity].
      exfalso. apply H. split; [reflexivity | discriminate].
    + intros H [Hv _]. congruence.
  - intros H. unfold submitExitForm. rewrite H. reflexivity.
  - intros [Hv Hr].
    assert (Etext : form_exitPrice form = text).
    { rewrite Hfield. unfold Input_number_value. rewrite Hv.
      destruct rangeChecked; [rewrite (Hr eq_refl)|]; reflexivity. }
    assert (Hne : String.eqb (form_exitPrice form) "" = false).
    { apply String.eqb_neq. rewrite Etext. intros ->. discriminate Hv. }
    unfold submitExitForm, handleSubmit. rewrite Hne.
    eexists. split; [reflexivity|]. split; [reflexivity|]. simpl.
    rewrite Etext. split; [reflexivity|]. split; [reflexivity|].
    split; [reflexivity|]. split; [apply parseFloat_valid, Hv|].
    intros H. repeat split; rewrite H; reflexivity.
Qed.

(** C7 on the texts "" and "abc", which the field gives as the empty
    value, and on the text "160". *)
Lemma exit_price_required_witness :
  let trade := Sample.opened initialState (Sample.answer Speculation Long 150 15000) in
  let st := handleAddTrade trade initialState in
  let typed (text : string) :=
    handleChange_exitPrice (Input_number_value true text) initialForm in
  submitExitForm (typed "") trade Sample.t1 st = st
  /\ submitExitForm (typed "abc") trade Sample.t1 st = st
  /\ handleSubmit (typed "abc") trade Sample.t1 = Alert "Exit price is required."
  /\ exists closedTrade,
       handleSubmit (typed "160") trade Sample.t1 = ConfirmClose closedTrade
       /\ exitPrice (exitData closedTrade) = 160
       /\ selfRating (exitData closedTrade) = 3.
Proof.
  cbv zeta.
  pose (trade := Sample.opened initialState (Sample.answer Speculation Long 150 15000)).
  pose (st := handleAddTrade trade initialState).
  pose (typed := fun text : string =>
                   handleChange_exitPrice (Input_number_value true text) initialForm).
  assert (Hno : forall text,
             validFloatingPointNumber text = false ->
             handleSubmit (typed text) trade Sample.t1 = Alert "Exit price is required."
             /\ submitExitForm (typed text) trade Sample.t1 st = st).
  { intros text Hv.
    destruct (exit_price_required true text (typed text) st trade Sample.t1 eq_refl)
      as [_ [Hiff [_ [_ [Hsame _]]]]].
    assert (Hr : handleSubmit (typed text) trade Sample.t1
                 = Alert "Exit price is required.").
    { apply Hiff. intros [H _]. congruence. }
    split; [exact Hr | apply Hsame, Hr]. }
  split; [apply (Hno ""%string); reflexivity|].
  split; [apply (Hno "abc"%string); reflexivity|].
  split; [apply (Hno "abc"%string); reflexivity|].
  destruct (exit_price_required true "160" (typed "160"%string) st trade Sample.t1 eq_refl)
    as [_ [_ [_ [_ [_ Hok]]]]].
  destruct Hok as [c [Hc [_ [_ [_ [Hprice [_ Hdefaults]]]]]]].
  { split; [reflexivity | intros _; reflexivity]. }
  exists c. split; [exact Hc|]. split; [rewrite Hprice; reflexivity|].
  apply Hdefaults. reflexivity.
Defined.

(** ** Trade record: creation *)

(** C6.  The new trade's [shareCount] is [positionSize / entryPrice] when
    its entry price is above zero and the quantity of the AI answer
    otherwise; its entry price is the answer's when that is above zero, and
    zero when the answer has none.  An answer with entry price 150 and position size 15000 gives
    100 shares; closed Long at the text "160" the trade realises 1000, which
    is 6.666666666666667 percent (6.67 to two decimals). *)
Theorem shareCount_from_position (parsedTrade : FrameworkData)
    (userInput now : string) (tradesProp : list Trade) (settingsProp : Settings)
    (activeTradesProp : list ActiveTrade) :
  let newTrade :=
    handleConfirm parsedTrade userInput now tradesProp settingsProp activeTradesProp in
  ((0 <? entryPrice newTrade) = true ->
   shareCount newTrade = positionSize newTrade / entryPrice newTrade)
  /\ ((0 <? entryPrice newTrade) = false ->
      shareCount newTrade = fw_quantity parsedTrade)
  /\ (forall e, fw_entryPrice parsedTrade = Some e -> (0 <? e) = true ->
        entryPrice newTrade = e
        /\ shareCount newTrade = positionSize newTrade / e)
  /\ (fw_entryPrice parsedTrade = None ->
      entryPrice newTrade = 0 /\ shareCount newTrade = fw_quantity parsedTrade)
  /\ (fw_entryPrice parsedTrade = Some 150 ->
      fw_positionSize parsedTrade = Some 15000 ->
      shareCount newTrade = 100
      /\ forall (form : ExitForm) (now' : string) (closedTrade : ClosedTrade),
           fw_direction parsedTrade = Long ->
           form_exitPrice form = "160"%string ->
           handleSubmit form newTrade now' = ConfirmClose closedTrade ->
           let percent :=
             calculatePLPercent (entryPrice closedTrade)
               (exitPrice (exitData closedTrade)) (direction closedTrade) in
           realizedPL closedTrade = 1000
           /\ percent = 6.666666666666667
           /\ (PrimFloat.abs (percent - 6.67) <? 0.005) = true).
Proof.
  cbv zeta. split; [|split; [|split; [|split]]].
  - simpl. intros ->. reflexivity.
  - simpl. intros ->. reflexivity.
  - intros e He Hpos. simpl. rewrite He, (or_else_positive e Hpos), Hpos.
    split; reflexivity.
  - intros He. simpl. rewrite He. split; reflexivity.
  - intros Hentry Hsize. split.
    + simpl. rewrite Hentry, Hsize. reflexivity.
    + intros form now' closedTrade Hdir Htext Hsubmit.
      destruct (handleSubmit_confirmed _ _ _ _ Hsubmit) as [_ [Hce [_ Hexit]]].
      unfold realizedPL. rewrite Hexit, Htext, Hce. simpl.
      rewrite Hentry, Hsize, Hdir. vm_compute. repeat split.
Qed.

(** C6 on the answer "150 a share, 15000 committed", and on an answer
    without a usable entry price. *)
Lemma shareCount_from_position_witness :
  let newTrade := Sample.opened initialState (Sample.answer IncomeGenerator Long 150 15000) in
  let unpriced := Sample.opened initialState (Sample.answer IncomeGenerator Long 0 15000) in
  shareCount newTrade = 15000 / 150
  /\ shareCount newTrade = 100
  /\ shareCount unpriced = 7
  /\ option_map realizedPL (Sample.submitted (Sample.formWith "160") newTrade)
     = Some 1000.
Proof.
  cbv zeta.
  destruct (shareCount_from_position (Sample.answer IncomeGenerator Long 150 15000)
              "bought TSM" Sample.t0 [] initialSettings [])
    as [Hpos [_ [_ [_ Hexample]]]].
  destruct (shareCount_from_position (Sample.answer IncomeGenerator Long 0 15000)
              "bought TSM" Sample.t0 [] initialSettings [])
    as [_ [Hzero _]].
  destruct (Hexample eq_refl eq_refl) as [Hhundred Hclose].
  split; [exact (Hpos eq_refl)|]. split; [exact Hhundred|].
  split; [exact (Hzero eq_refl)|].
  destruct (Hclose (Sample.formWith "160") Sample.t1 _ eq_refl eq_refl eq_refl)
    as [Hpl _].
  exact (f_equal Some Hpl).
Defined.

(** ** Aggregate analytics *)

Section Analytics.

(** The loop of [AccountPerformanceCard] adds up the P/L from the left and
    counts the wins. *)
Lemma fold_stats_step (ts : list ClosedTrade) (total : number) (wins : nat) :
  fold_left stats_step ts (total, wins)
  = (fold_left PrimFloat.add (map realizedPL ts) total,
     (wins + List.length (filter isWin ts))%nat).
Proof.
  revert total wins. induction ts as [|t ts IH]; intros total wins; simpl.
  - rewrite Nat.add_0_r. reflexivity.
  - rewrite IH. unfold isWin. destruct (0 <? realizedPL t); simpl; f_equal; lia.
Qed.

Lemma TradeSource_eqb_spec (a b : TradeSource) : reflect (a = b) (TradeSource_eqb a b).
Proof. destruct a, b; constructor; congruence. Qed.

Lemma tradesOfSource_snoc (k : TradeSource) (seen : list ClosedTrade) (t : ClosedTrade) :
  tradesOfSource k (seen ++ [t])
  = tradesOfSource k seen ++ (if TradeSource_eqb (source t) k then [t] else []).
Proof. unfold tradesOfSource. rewrite filter_app. reflexivity. Qed.

Lemma push_source_keys (data : list (TradeSource * list ClosedTrade))
    (k : TradeSource) (t : ClosedTrade) (k' : TradeSource) :
  In k' (map fst (push_source data k t)) <-> k' = k \/ In k' (map fst data).
Proof.
  induction data as [|[k0 g0] data IH]; simpl.
  - intuition.
  - destruct (TradeSource_eqb_spec k0 k) as [->|Hne]; simpl.
    + intuition.
    + rewrite IH. intuition.
Qed.

Lemma push_source_NoDup (data : list (TradeSource * list ClosedTrade))
    (k : TradeSource) (t : ClosedTrade) :
  NoDup (map fst data) -> NoDup (map fst (push_source data k t)).
Proof.
  induction data as [|[k0 g0] data IH]; simpl; intros Hnd.
  - constructor; [intros []|constructor].
  - destruct (TradeSource_eqb_spec k0 k) as [->|Hne]; simpl; [exact Hnd|].
    inversion Hnd as [|? ? Hnotin Hnd']; subst. constructor; [|apply IH, Hnd'].
    rewrite push_source_keys. intros [E|Hin]; [congruence | contradiction].
Qed.

(** What a group of the pushed table was before the push. *)
Lemma push_source_In (data : list (TradeSource * list ClosedTrade))
    (k : TradeSource) (t : ClosedTrade) (k' : TradeSource) (g' : list ClosedTrade) :
  NoDup (map fst data) ->
  In (k', g') (push_source data k t) ->
  (k' <> k /\ In (k', g') data)
  \/ (k' = k /\ exists g, In (k, g) data /\ g' = g ++ [t])
  \/ (k' = k /\ ~ In k (map fst data) /\ g' = [t]).
Proof.
  induction data as [|[k0 g0] data IH]; simpl; intros Hnd Hin.
  - destruct Hin as [E|[]]. injection E as <- <-. right. right. intuition.
  - inversion Hnd as [|? ? Hnotin Hnd']; subst.
    destruct (TradeSource_eqb_spec k0 k) as [->|Hne]; simpl in Hin.
    + destruct Hin as [E|Hin].
      * injection E as <- <-. right. left. split; [reflexivity|].
        exists g0. split; [left; reflexivity | reflexivity].
      * left. split; [|right; exact Hin].
        intros ->. apply Hnotin. apply in_map_iff. exists (k, g'). split; auto.
    + destruct Hin as [E|Hin].
      * injection E as <- <-. left. split; [exact Hne | left; reflexivity].
      * destruct (IH Hnd' Hin) as [[Hk Hold]|[[Hk [g [Hg Hg']]]|[Hk [Hfresh Hg']]]].
        -- left. split; [exact Hk | right; exact Hold].
        -- right. left. split; [exact Hk|]. exists g. split; [right; exact Hg | exact Hg'].
        -- right. right. split; [exact Hk|]. split; [|exact Hg'].
           intros [E|Hin']; [congruence | contradiction].
Qed.

Lemma tradesOfSource_fresh (data : list (TradeSource * list ClosedTrade))
    (seen : list ClosedTrade) (k : TradeSource) :
  grouped data seen -> ~ In k (map fst data) -> tradesOfSource k seen = [].
Proof.
  intros [_ [_ Hkeys]] Hfresh. unfold tradesOfSource.
  induction seen as [|t seen IH]; simpl; [reflexivity|].
  destruct (TradeSource_eqb_spec (source t) k) as [E|E].
  - exfalso. apply Hfresh. rewrite <- E. apply Hkeys. left. reflexivity.
  - apply IH. intros t' Hin. apply Hkeys. right. exact Hin.
Qed.

Lemma grouped_push (data : list (TradeSource * list ClosedTrade))
    (seen : list ClosedTrade) (t : ClosedTrade) :
  grouped data seen -> grouped (push_source data (source t) t) (seen ++ [t]).
Proof.
  intros Hg. pose proof Hg as [Hnd [Hgroups Hkeys]]. split; [|split].
  - apply push_source_NoDup, Hnd.
  - intros k g Hin. rewrite tradesOfSource_snoc.
    destruct (push_source_In _ _ _ _ _ Hnd Hin)
      as [[Hk Hold]|[[Hk [g0 [Hg0 E]]]|[Hk [Hfresh E]]]].
    + destruct (Hgroups _ _ Hold) as [-> Hne].
      destruct (TradeSource_eqb_spec (source t) k) as [E|_]; [congruence|].
      rewrite app_nil_r. split; [reflexivity | exact Hne].
    + subst k g. destruct (Hgroups _ _ Hg0) as [-> Hne].
      destruct (TradeSource_eqb_spec (source t) (source t)) as [_|E]; [|congruence].
      split; [reflexivity|]. intros E. apply app_eq_nil in E. destruct E; discriminate.
    + subst k g. rewrite (tradesOfSource_fresh data seen _ Hg Hfresh).
      destruct (TradeSource_eqb_spec (source t) (source t)) as [_|E]; [|congruence].
      split; [reflexivity | discriminate].
  - intros t' Hin. rewrite push_source_keys. apply in_app_or in Hin.
    destruct Hin as [Hin|[<-|[]]]; [right; apply Hkeys, Hin | left; reflexivity].
Qed.

Lemma grouped_fold (rest : list ClosedTrade)
    (data : list (TradeSource * list ClosedTrade)) (seen : list ClosedTrade) :
  grouped data seen ->
  grouped (fold_left (fun data (t : ClosedTrade) => push_source data (source t) t)
             rest data)
    (seen ++ rest).
Proof.
  revert data seen. induction rest as [|t rest IH]; intros data seen Hg; simpl.
  - rewrite app_nil_r. exact Hg.
  - replace (seen ++ t :: rest) with ((seen ++ [t]) ++ rest)
      by (rewrite <- app_assoc; reflexivity).
    apply IH, grouped_push, Hg.
Qed.

Lemma grouped_groupedBySource (closed : list ClosedTrade) :
  grouped (groupedBySource closed) closed.
Proof.
  apply (grouped_fold closed [] []).
  split; [constructor|]. split; [intros k g []| intros t []].
Qed.

End Analytics.

Section ByAccount.

Lemma tradesOfAccount_snoc (k : TradeAccount) (seen : list ClosedTrade) (t : ClosedTrade) :
  tradesOfAccount k (seen ++ [t])
  = tradesOfAccount k seen ++ (if String.eqb (accountKey t) k then [t] else []).
Proof. unfold tradesOfAccount. rewrite filter_app. reflexivity. Qed.

Lemma filed_push (d d' : AccountData) (seen : list ClosedTrade) (t : ClosedTrade) :
  filed d seen -> fileTrade (Some d) t = Some d' -> filed d' (seen ++ [t]).
Proof.
  intros [H1 [H2 [H3 H4]]]. unfold fileTrade, push_account, filed.
  rewrite !tradesOfAccount_snoc.
  destruct (String.eqb_spec (accountKey t) IncomeGenerator) as [E|_];
    [try rewrite E; intros H; injection H as <-; simpl;
     rewrite H1, H2, H3, H4, !app_nil_r; auto|].
  destruct (String.eqb_spec (accountKey t) Speculation) as [E|_];
    [try rewrite E; intros H; injection H as <-; simpl;
     rewrite H1, H2, H3, H4, !app_nil_r; auto|].
  destruct (String.eqb_spec (accountKey t) TradingLab) as [E|_];
    [try rewrite E; intros H; injection H as <-; simpl;
     rewrite H1, H2, H3, H4, !app_nil_r; auto|].
  destruct (String.eqb_spec (accountKey t) Uncategorized) as [E|_];
    [try rewrite E; intros H; injection H as <-; simpl;
     rewrite H1, H2, H3, H4, !app_nil_r; auto|].
  discriminate.
Qed.

Lemma fileTrade_None (rest : list ClosedTrade) : fold_left fileTrade rest None = None.
Proof. induction rest as [|t rest IH]; simpl; [reflexivity | exact IH]. Qed.

Lemma filed_fold (rest seen : list ClosedTrade) (d d' : AccountData) :
  filed d seen -> fold_left fileTrade rest (Some d) = Some d' -> filed d' (seen ++ rest).
Proof.
  revert seen d. induction rest as [|t rest IH]; intros seen d Hf; simpl.
  - intros H. injection H as <-. rewrite app_nil_r. exact Hf.
  - destruct (push_account d (accountKey t) t) as [d1|] eqn:E.
    + replace (seen ++ t :: rest) with ((seen ++ [t]) ++ rest)
        by (rewrite <- app_assoc; reflexivity).
      apply IH. apply (filed_push d d1 seen t Hf E).
    + rewrite fileTrade_None. discriminate.
Qed.

(** Each list of [accountData] is the closed trades filed under its account. *)
Lemma accountData_filed (closed : list ClosedTrade) (d : AccountData) :
  accountData closed = Some d -> filed d closed.
Proof.
  intros H.
  refine (filed_fold closed []
            {| data_IncomeGenerator := []; data_Speculation := [];
               data_TradingLab := []; data_Uncategorized := [] |} d _ H).
  repeat split.
Qed.

End ByAccount.

(** C8, as it holds.  For the closed trades of an account the card shows
    their number, the wins (P/L above zero) over that number times 100 (a
    percentage), the sum of the P/L and that sum over the number; for no
    trades it shows zeros, without dividing.  The lists it is given are the
    closed trades filed under each account.  By source the view computes,
    for each source that has a closed trade and only for those, the number
    of its trades and the same win percentage, and no P/L figures.  Three
    trades with P/L +100, -50 and +30 give a win rate of 66.66666666666666,
    a total of 80 and an average of 26.666666666666668. *)
Theorem partition_statistics (closed ts : list ClosedTrade) :
  let stats := AccountPerformanceCard_stats ts in
  (ts = [] ->
   stats = {| totalTrades := 0; winRate := 0; totalPL := 0; avgPL := 0 |})
  /\ (ts <> [] ->
      totalTrades stats = List.length ts
      /\ winRate stats
         = of_nat (List.length (filter isWin ts)) / of_nat (List.length ts) * 100
      /\ totalPL stats = sumOf (map realizedPL ts)
      /\ avgPL stats = sumOf (map realizedPL ts) / of_nat (List.length ts))
  /\ (forall d, accountData closed = Some d -> filed d closed)
  /\ (forall s, In s (sourceData closed) ->
        let group := tradesOfSource (source_name s) closed in
        group <> []
        /\ source_trades s = List.length group
        /\ source_winRate s
           = of_nat (List.length (filter isWin group))
             / of_nat (List.length group) * 100)
  /\ (forall t, In t closed ->
        exists s, In s (sourceData closed) /\ source_name s = source t)
  /\ NoDup (map source_name (sourceData closed))
  /\ (forall a b c,
         realizedPL a = 100 -> realizedPL b = -50 -> realizedPL c = 30 ->
         AccountPerformanceCard_stats [a; b; c]
         = {| totalTrades := 3; winRate := 66.66666666666666;
              totalPL := 80; avgPL := 26.666666666666668 |}).
Proof.
  cbv zeta.
  pose proof (grouped_groupedBySource closed) as [Hnd [Hgroups Hkeys]].
  assert (Hnames : map source_name (sourceData closed)
                   = map fst (groupedBySource closed)).
  { unfold sourceData. fold (groupedBySource closed). rewrite map_map.
    apply map_ext. intros [k g]. reflexivity. }
  split; [intros ->; reflexivity|].
  split.
  { intros Hne. destruct ts as [|t ts]; [congruence|].
    unfold AccountPerformanceCard_stats.
    change (List.length (t :: ts) =? 0)%nat with false. cbv iota.
    rewrite fold_stats_step. repeat split. }
  split; [intros d; apply accountData_filed|].
  split.
  { intros s H. unfold sourceData in H. fold (groupedBySource closed) in H.
    apply in_map_iff in H. destruct H as [[k g] [<- Hin]].
    destruct (Hgroups _ _ Hin) as [Hg Hne].
    change (source_name (sourceStats (k, g))) with k. rewrite <- Hg.
    split; [exact Hne|]. split; [reflexivity|].
    destruct g as [|t g]; [congruence | reflexivity]. }
  split.
  { intros t Hin. pose proof (Hkeys t Hin) as Hk.
    rewrite <- Hnames in Hk. apply in_map_iff in Hk.
    destruct Hk as [s [Hs Hin']]. exists s. split; assumption. }
  split; [rewrite Hnames; exact Hnd|].
  intros a b c Ha Hb Hc. unfold AccountPerformanceCard_stats. simpl.
  rewrite Ha, Hb, Hc. reflexivity.
Qed.

(** The amended C8 on three closed trades of one account and source with
    P/L +100, -50 and +30. *)
Lemma partition_statistics_witness :
  let stats := AccountPerformanceCard_stats Sample.threeClosed in
  totalTrades stats = 3%nat
  /\ winRate stats = of_nat 2 / of_nat 3 * 100
  /\ totalPL stats = sumOf [100; -50; 30]
  /\ avgPL stats = sumOf [100; -50; 30] / of_nat 3
  /\ stats = {| totalTrades := 3; winRate := 66.66666666666666;
                totalPL := 80; avgPL := 26.666666666666668 |}.
Proof.
  cbv zeta.
  destruct (partition_statistics Sample.threeClosed Sample.threeClosed)
    as [_ [Hstats [_ [_ [_ [_ Hthree]]]]]].
  destruct Hstats as [Hn [Hw [Ht Ha]]]; [discriminate|].
  split; [exact Hn|]. split; [exact Hw|]. split; [exact Ht|]. split; [exact Ha|].
  apply Hthree; reflexivity.
Defined.

(** C8 as stated fails: for three closed trades with P/L +100, -50 and +30
    the win rate computed is 66.66666666666666, not 2/3, for the account
    card and for the source chart alike. *)
Lemma winRate_is_a_percentage :
  map realizedPL Sample.threeClosed = [100; -50; 30]
  /\ winRate (AccountPerformanceCard_stats Sample.threeClosed) = 66.66666666666666
  /\ (winRate (AccountPerformanceCard_stats Sample.threeClosed) =? 2 / 3) = false
  /\ map source_winRate (sourceData Sample.threeClosed) = [66.66666666666666]
  /\ (66.66666666666666 =? 2 / 3) = false.
Proof.
  vm_compute. repeat split.
Qed.

(** ** What every run of the application keeps *)

Section RunInvariants.

Lemma sameConfiguration_refl (s : Settings) : sameConfiguration s s.
Proof. repeat split. Qed.

Lemma sameConfiguration_trans (s1 s2 s3 : Settings) :
  sameConfiguration s1 s2 -> sameConfiguration s2 s3 -> sameConfiguration s1 s3.
Proof.
  unfold sameConfiguration. intros H1 H2.
  destruct H1 as (A1 & A2 & A3 & A4 & A5 & A6 & A7).
  destruct H2 as (B1 & B2 & B3 & B4 & B5 & B6 & B7).
  repeat split; congruence.
Qed.

(** Mapping the accounts to themselves with another cash keeps the names and
    the starting values. *)
Lemma sameConfiguration_cash (s : Settings) (hit : AccountState -> bool)
    (cash : AccountState -> number) :
  sameConfiguration s
    (with_accounts s
       (map (fun acc => if hit acc then with_currentCash acc (cash acc) else acc)
          (accounts s))).
Proof.
  unfold sameConfiguration. simpl. repeat split; rewrite map_map; apply map_ext;
    intros acc; destruct (hit acc); reflexivity.
Qed.

Lemma event_sameConfiguration (st st' : AppState) :
  event st st' -> sameConfiguration (settings st) (settings st').
Proof.
  intros [p u now | form trade now Hin].
  - apply sameConfiguration_cash.
  - unfold submitExitForm. destruct (handleSubmit form trade now) as [msg|c].
    + apply sameConfiguration_refl.
    + apply sameConfiguration_cash.
Qed.

Lemma reachable_event (st st' : AppState) :
  reachable st -> event st st' -> reachable st'.
Proof.
  intros Hr [p u now | form trade now Hin].
  - apply reachable_confirm, Hr.
  - apply reachable_submit; assumption.
Qed.

Lemma reachable_run (st st' : AppState) :
  reachable st -> run st st' -> reachable st'.
Proof.
  intros Hr Hrun. induction Hrun as [|st1 st2 _ IH Hev]; [exact Hr|].
  apply (reachable_event st1 st2 IH Hev).
Qed.

(** Under distinct ids, the record that carries the id of a stored record is
    that record. *)
Lemma unique_id_record (ts : list Trade) (k : nat) (t u : Trade) :
  NoDup (tradeIds ts) ->
  nth_error ts k = Some t -> In u ts -> id (entry t) = id (entry u) -> t = u.
Proof.
  intros Hnd Hk Hin Hid.
  destruct (In_nth_error _ _ Hin) as [j Hj].
  assert (Hlt : (k < List.length (tradeIds ts))%nat).
  { rewrite tradeIds_length. apply nth_error_Some. congruence. }
  assert (E : k = j).
  { apply (proj1 (NoDup_nth_error (tradeIds ts)) Hnd k j Hlt).
    unfold tradeIds. rewrite !nth_error_map, Hk, Hj. simpl. congruence. }
  subst j. congruence.
Qed.

(** One user action keeps every stored record in its place, with its entry
    data; a closed record it keeps whole. *)
Lemma event_keeps_records (st st' : AppState) (k : nat) (t : Trade) :
  reachable st -> event st st' ->
  nth_error (trades st) k = Some t ->
  exists t', nth_error (trades st') k = Some t'
             /\ entry t' = entry t
             /\ (isTradeClosed t = true -> t' = t).
Proof.
  intros Hr [p u now | form trade now Hin] Hk.
  - exists t. split; [|split; reflexivity].
    unfold confirmTrade, handleAddTrade. simpl.
    rewrite nth_error_app1; [exact Hk|]. apply nth_error_Some. congruence.
  - unfold submitExitForm.
    destruct (handleSubmit form trade now) as [msg|c] eqn:Hsubmit.
    + exists t. split; [exact Hk|]. split; reflexivity.
    + destruct (handleSubmit_confirmed _ _ _ _ Hsubmit) as [_ [Hentry _]].
      simpl. rewrite nth_handleCloseTrade, Hk. simpl.
      destruct (String.eqb_spec (id (entry t)) (id c)) as [E|E].
      * assert (Ht : t = Active trade).
        { apply (unique_id_record (trades st) k); try assumption.
          - apply reachable_NoDup, Hr.
          - rewrite E, Hentry. reflexivity. }
        subst t. exists (Closed c). split; [reflexivity|].
        split; [exact Hentry | discriminate].
      * exists t. split; [reflexivity|]. split; reflexivity.
Qed.

(** From the initial settings on, the accounts are the three of the start. *)
Lemma run_names (st : AppState) :
  run initialState st ->
  map name (accounts (settings st)) = [IncomeGenerator; Speculation; TradingLab].
Proof.
  induction 1 as [|st1 st2 _ IH Hev]; [reflexivity|].
  destruct (event_sameConfiguration st1 st2 Hev) as (_ & _ & _ & _ & _ & Hn & _).
  congruence.
Qed.

End RunInvariants.

(** X1.  No user action adds, removes, renames or re-bases an account or
    touches another setting: through any run the account names, their
    starting values and the portfolio settings stay as they were; only cash
    moves. *)
Theorem run_keeps_configuration (st st' : AppState) :
  run st st' -> sameConfiguration (settings st) (settings st').
Proof.
  induction 1 as [|st1 st2 _ IH Hev].
  - apply sameConfiguration_refl.
  - apply (sameConfiguration_trans _ _ _ IH), event_sameConfiguration, Hev.
Qed.

(** X1 on a journal entry followed by its close, from the initial state. *)
Lemma run_keeps_configuration_witness :
  let a := Sample.answer Speculation Long 10 300 in
  let st1 := confirmTrade a "bought TSM" Sample.t0 initialState in
  let st2 :=
    submitExitForm (Sample.formWith "12") (Sample.opened initialState a) Sample.t1 st1 in
  map name (accounts (settings st2)) = [IncomeGenerator; Speculation; TradingLab]
  /\ map startingValue (accounts (settings st2)) = [17000; 3000; 2000]
  /\ map currentCash (accounts (settings st2)) = [17000; 3060; 2000].
Proof.
  cbv zeta.
  pose (a := Sample.answer Speculation Long 10 300).
  pose (st1 := confirmTrade a "bought TSM" Sample.t0 initialState).
  assert (Hrun : run initialState
                   (submitExitForm (Sample.formWith "12")
                      (Sample.opened initialState a) Sample.t1 st1)).
  { apply (run_then _ st1).
    - apply (run_then _ initialState); [apply run_here | apply event_confirm].
    - apply event_submit. left. reflexivity. }
  destruct (run_keeps_configuration _ _ Hrun) as (_ & _ & _ & _ & _ & Hn & Hs).
  split; [exact Hn|]. split; [exact Hs|]. vm_compute. reflexivity.
Defined.

(** X2.  In every state reached from an empty journal the trade at position
    [k] has the id ["TRADE-"] with the zero-padded number [k + 1]: ids are
    assigned in sequence, no two stored trades share one, and a close never
    changes one. *)
Theorem reachable_ids_in_sequence (st : AppState) :
  reachable st ->
  (forall k t, nth_error (trades st) k = Some t ->
               id (entry t) = ("TRADE-" ++ zeroPadded 3 (k + 1))%string)
  /\ NoDup (tradeIds (trades st))
  /\ (forall j k t u,
         nth_error (trades st) j = Some t -> nth_error (trades st) k = Some u ->
         id (entry t) = id (entry u) -> j = k).
Proof.
  intros Hr. pose proof (reachable_tradeIds st Hr) as Hids.
  pose proof (reachable_NoDup st Hr) as Hnd.
  assert (Hat : forall k t, nth_error (trades st) k = Some t ->
                            id (entry t) = ("TRADE-" ++ zeroPadded 3 (k + 1))%string).
  { intros k t Hk.
    assert (Hlt : (k < List.length (trades st))%nat)
      by (apply nth_error_Some; congruence).
    assert (H : nth_error (tradeIds (trades st)) k = Some (id (entry t)))
      by (unfold tradeIds; rewrite nth_error_map, Hk; reflexivity).
    rewrite Hids, nth_error_map, nth_error_seq in H.
    destruct (Nat.ltb_spec k (List.length (trades st))) as [_|Hge]; [|lia].
    simpl in H. injection H as H. rewrite <- H. reflexivity. }
  split; [exact Hat|]. split; [exact Hnd|].
  intros j k t u Hj Hk Hid.
  rewrite (Hat _ _ Hj), (Hat _ _ Hk) in Hid. injection Hid as Hid.
  apply zeroPadded_inj in Hid. lia.
Qed.

(** X2 after two journal entries and the close of the first. *)
Lemma reachable_ids_in_sequence_witness :
  let a := Sample.answer Speculation Long 10 300 in
  let st1 := confirmTrade a "bought TSM" Sample.t0 initialState in
  let st2 := confirmTrade a "bought TSM" Sample.t0 st1 in
  let st3 :=
    submitExitForm (Sample.formWith "12") (Sample.opened initialState a) Sample.t1 st2 in
  tradeIds (trades st3) = ["TRADE-001"; "TRADE-002"]%string
  /\ NoDup (tradeIds (trades st3)).
Proof.
  cbv zeta.
  split; [reflexivity|].
  apply reachable_ids_in_sequence.
  apply reachable_submit; [|left; reflexivity].
  apply reachable_confirm, reachable_confirm, (reachable_init initialSettings).
Defined.

(** X3.  A stored record never moves and its entry data never change: after
    any run from a reachable state the record at a position has the entry
    fields it had ([id], [entryPrice], [positionSize] and the rest), and a
    record that was closed is the very record it was - a closed trade is
    never reopened, re-closed or edited. *)
Theorem records_are_final (st st' : AppState) (k : nat) (t : Trade) :
  reachable st -> run st st' ->
  nth_error (trades st) k = Some t ->
  exists t', nth_error (trades st') k = Some t'
             /\ entry t' = entry t
             /\ (isTradeClosed t = true -> t' = t).
Proof.
  intros Hr Hrun. revert t. induction Hrun as [|st1 st2 Hrun IH Hev]; intros t Hk.
  - exists t. split; [exact Hk|]. split; reflexivity.
  - destruct (IH t Hk) as [t1 [Hk1 [Hentry1 Hclosed1]]].
    destruct (event_keeps_records st1 st2 k t1 (reachable_run _ _ Hr Hrun) Hev Hk1)
      as [t2 [Hk2 [Hentry2 Hclosed2]]].
    exists t2. split; [exact Hk2|]. split; [congruence|].
    intros Hc. rewrite <- (Hclosed1 Hc). apply Hclosed2.
    rewrite (Hclosed1 Hc). exact Hc.
Qed.

(** X3 on a trade closed at 12 and then followed by another journal entry
    and the close of that one. *)
Lemma records_are_final_witness :
  let a := Sample.answer Speculation Long 10 300 in
  let first := Sample.opened initialState a in
  let st1 := submitExitForm (Sample.formWith "12") first Sample.t1
               (confirmTrade a "bought TSM" Sample.t0 initialState) in
  let st2 := confirmTrade a "bought TSM" Sample.t0 st1 in
  let st3 := submitExitForm (Sample.formWith "9") (Sample.opened st1 a) Sample.t1 st2 in
  exists t, nth_error (trades st1) 0 = Some t
            /\ isTradeClosed t = true
            /\ nth_error (trades st3) 0 = Some t.
Proof.
  cbv zeta.
  pose (a := Sample.answer Speculation Long 10 300).
  pose (first := Sample.opened initialState a).
  pose (st1 := submitExitForm (Sample.formWith "12") first Sample.t1
                 (confirmTrade a "bought TSM" Sample.t0 initialState)).
  pose (st2 := confirmTrade a "bought TSM" Sample.t0 st1).
  pose (st3 := submitExitForm (Sample.formWith "9") (Sample.opened st1 a) Sample.t1 st2).
  assert (Hr : reachable st1).
  { apply reachable_submit; [|left; reflexivity].
    apply reachable_confirm, (reachable_init initialSettings). }
  assert (Hrun : run st1 st3).
  { apply (run_then _ st2).
    - apply (run_then _ st1); [apply run_here | apply event_confirm].
    - apply event_submit. right. left. reflexivity. }
  pose (t := Closed (Sample.closedAt first 12)).
  assert (Ht : nth_error (trades st1) 0 = Some t) by (vm_compute; reflexivity).
  destruct (records_are_final st1 st3 0 t Hr Hrun Ht) as [t' [Hk [_ Hsame]]].
  exists t. split; [exact Ht|]. split; [reflexivity|].
  rewrite <- (Hsame eq_refl). exact Hk.
Defined.

Section Lists.

Lemma In_activeTrades (ts : list Trade) (a : ActiveTrade) :
  In a (activeTrades ts) <-> In (Active a) ts.
Proof.
  induction ts as [|[a'|c] ts IH]; simpl.
  - tauto.
  - rewrite IH. split; intros [H|H]; auto; left; congruence.
  - rewrite IH. split; [auto|]. intros [H|H]; [discriminate | exact H].
Qed.

Lemma In_closedTrades (ts : list Trade) (c : ClosedTrade) :
  In c (closedTrades ts) <-> In (Closed c) ts.
Proof.
  induction ts as [|[a|c'] ts IH]; simpl.
  - tauto.
  - rewrite IH. split; [auto|]. intros [H|H]; [discriminate | exact H].
  - rewrite IH. split; intros [H|H]; auto; left; congruence.
Qed.

Lemma activeTrades_app (ts us : list Trade) :
  activeTrades (ts ++ us) = activeTrades ts ++ activeTrades us.
Proof.
  induction ts as [|[a|c] ts IH]; simpl; [reflexivity | f_equal; exact IH | exact IH].
Qed.

Lemma closedTrades_app (ts us : list Trade) :
  closedTrades (ts ++ us) = closedTrades ts ++ closedTrades us.
Proof.
  induction ts as [|[a|c] ts IH]; simpl; [reflexivity | exact IH | f_equal; exact IH].
Qed.

(** A close for an id that no stored trade has changes no record. *)
Lemma handleCloseTrade_unknown_id (c : ClosedTrade) (ts : list Trade) :
  ~ In (id c) (tradeIds ts) -> handleCloseTrade_newTrades c ts = ts.
Proof.
  induction ts as [|t ts IH]; simpl; intros Hnot; [reflexivity|].
  destruct (String.eqb_spec (id (entry t)) (id c)) as [E|E].
  - exfalso. apply Hnot. left. exact E.
  - f_equal. apply IH. intros Hin. apply Hnot. right. exact Hin.
Qed.

(** Under distinct ids, closing a stored active trade takes it out of the
    active trades and puts one record into the closed ones. *)
Lemma close_counts (c : ClosedTrade) (a : ActiveTrade) (ts : list Trade) :
  NoDup (tradeIds ts) -> In (Active a) ts -> id c = id a ->
  (List.length (activeTrades (handleCloseTrade_newTrades c ts)) + 1
   = List.length (activeTrades ts))%nat
  /\ (List.length (closedTrades (handleCloseTrade_newTrades c ts))
      = List.length (closedTrades ts) + 1)%nat.
Proof.
  induction ts as [|t ts IH]; simpl; intros Hnd Hin Hid; [contradiction|].
  inversion Hnd as [|? ? Hfresh Hnd']; subst.
  destruct (String.eqb_spec (id (entry t)) (id c)) as [E|E].
  - assert (Ht : t = Active a).
    { destruct Hin as [Ht|Hin]; [exact Ht|]. exfalso. apply Hfresh.
      rewrite E, Hid. unfold tradeIds. apply in_map_iff.
      exists (Active a). split; [reflexivity | exact Hin]. }
    subst t. rewrite handleCloseTrade_unknown_id by (rewrite <- E; exact Hfresh).
    simpl. lia.
  - destruct Hin as [Ht|Hin]; [subst t; simpl in E; congruence|].
    destruct (IH Hnd' Hin Hid) as [Ha Hc]. destruct t; simpl; lia.
Qed.

(** With no account of the trade's name, adding it leaves the settings. *)
Lemma other_accounts_frame (st : AppState) (newTrade : ActiveTrade) :
  (forall acc, In acc (accounts (settings st)) ->
               account newTrade <> Some (name acc)) ->
  settings (handleAddTrade newTrade st) = settings st.
Proof.
  intros Hnone. unfold handleAddTrade, handleAddTrade_newAccounts. simpl.
  rewrite map_unmatched; [apply with_accounts_same|].
  intros acc Hin. apply is_account_other, Hnone, Hin.
Qed.

(** What a confirmed submission does to the stored list. *)
Lemma close_supersedes_record_facts (st : AppState) (form : ExitForm)
    (trade : ActiveTrade) (now : string) (c : ClosedTrade) :
  handleSubmit form trade now = ConfirmClose c ->
  trades (submitExitForm form trade now st)
  = handleCloseTrade_newTrades c (trades st)
  /\ id c = id trade
  /\ (forall t, In t (handleCloseTrade_newTrades c (trades st)) ->
                id (entry t) = id trade -> t = Closed c).
Proof.
  intros Hsubmit.
  destruct (handleSubmit_confirmed _ _ _ _ Hsubmit) as [_ [Hentry _]].
  assert (Hid : id c = id trade) by (rewrite Hentry; reflexivity).
  split; [unfold submitExitForm; rewrite Hsubmit; reflexivity|].
  split; [exact Hid|].
  intros t Hin Ht. unfold handleCloseTrade_newTrades in Hin.
  apply in_map_iff in Hin. destruct Hin as [t' [Hmap _]]. rewrite Hid in Hmap.
  destruct (String.eqb_spec (id (entry t')) (id trade)) as [E|E];
    [symmetry; exact Hmap | subst t'; contradiction].
Qed.

(** No stored record of a reachable state carries a mark price. *)
Lemma reachable_markOf (st : AppState) :
  reachable st -> forall t, In t (trades st) -> markOf t = None.
Proof.
  intros Hr.
  induction Hr as [s | st p u now Hr IH | st form trade now Hr IH Hin].
  - intros t [].
  - intros t Ht. unfold confirmTrade, handleAddTrade in Ht. simpl in Ht.
    apply in_app_or in Ht. destruct Ht as [Ht|[<-|[]]]; [apply IH, Ht | reflexivity].
  - intros t Ht. unfold submitExitForm in Ht.
    destruct (handleSubmit form trade now) as [msg|c] eqn:Hsubmit; [apply IH, Ht|].
    destruct (handleSubmit_confirmed _ _ _ _ Hsubmit) as [_ [_ [Hmark _]]].
    simpl in Ht. unfold handleCloseTrade_newTrades in Ht.
    apply in_map_iff in Ht. destruct Ht as [t0 [Ht0 Hin0]].
    destruct (String.eqb (id (entry t0)) (id c)).
    + subst t. simpl. rewrite Hmark. apply (IH (Active trade) Hin).
    + subst t. apply IH, Hin0.
Qed.

End Lists.

(** X4.  Nothing ever writes a mark price: in every state reached from an
    empty journal no stored record, active or closed, carries a
    [currentPrice], so every open position is displayed at its entry
    price. *)
Theorem no_mark_price_is_ever_set (st : AppState) :
  reachable st ->
  (forall t, In t (trades st) -> markOf t = None)
  /\ (forall account trade,
         In trade (Views.accountTrades account (activeTrades (trades st))) ->
         Views.markPrice trade = entryPrice trade).
Proof.
  intros Hr. pose proof (reachable_markOf st Hr) as Hnone.
  split; [exact Hnone|].
  intros account trade Hin. unfold Views.accountTrades in Hin.
  apply filter_In in Hin. destruct Hin as [Hin _].
  apply In_activeTrades in Hin. apply Hnone in Hin. simpl in Hin.
  unfold Views.markPrice. rewrite Hin. reflexivity.
Qed.

(** X4 on the journal with one confirmed trade. *)
Lemma no_mark_price_is_ever_set_witness :
  let a := Sample.answer Speculation Long 10 300 in
  let st := confirmTrade a "bought TSM" Sample.t0 initialState in
  map markOf (trades st) = [None]
  /\ forall account trade,
       In trade (Views.accountTrades account (activeTrades (trades st))) ->
       Views.markPrice trade = entryPrice trade.
Proof.
  cbv zeta. split; [reflexivity|].
  apply no_mark_price_is_ever_set.
  apply reachable_confirm, (reachable_init initialSettings).
Defined.

(** X5.  A confirmed journal entry adds the new trade at the end of the
    active trades and leaves the closed ones; a confirmed close of a stored
    active trade, in a state reached from an empty journal, takes exactly
    that trade out of the active trades and adds exactly one closed trade,
    which is the record handed over. *)
Theorem trades_move_from_active_to_closed (st : AppState) :
  (forall parsedTrade userInput now,
      let after := trades (confirmTrade parsedTrade userInput now st) in
      activeTrades after
      = activeTrades (trades st)
        ++ [handleConfirm parsedTrade userInput now (trades st) (settings st)
              (activeTrades (trades st))]
      /\ closedTrades after = closedTrades (trades st))
  /\ (forall form trade now closedTrade,
         reachable st ->
         In (Active trade) (trades st) ->
         handleSubmit form trade now = ConfirmClose closedTrade ->
         let after := trades (submitExitForm form trade now st) in
         (List.length (activeTrades after) + 1
          = List.length (activeTrades (trades st)))%nat
         /\ (List.length (closedTrades after)
             = List.length (closedTrades (trades st)) + 1)%nat
         /\ In closedTrade (closedTrades after)
         /\ ~ In trade (activeTrades after)).
Proof.
  split.
  - intros p u now. cbv zeta. unfold confirmTrade, handleAddTrade. simpl.
    rewrite activeTrades_app, closedTrades_app. simpl.
    rewrite app_nil_r. split; reflexivity.
  - intros form trade now c Hr Hin Hsubmit. cbv zeta.
    destruct (close_supersedes_record_facts st form trade now c Hsubmit)
      as [Hafter [Hid Hreplaced]].
    rewrite Hafter.
    destruct (close_counts c trade (trades st) (reachable_NoDup st Hr) Hin Hid)
      as [Ha Hc].
    split; [exact Ha|]. split; [exact Hc|]. split.
    + apply In_closedTrades. destruct (In_nth_error _ _ Hin) as [k Hk].
      apply (nth_error_In _ k). rewrite nth_handleCloseTrade, Hk. simpl.
      rewrite Hid, String.eqb_refl. reflexivity.
    + intros Hactive. apply In_activeTrades in Hactive.
      specialize (Hreplaced (Active trade) Hactive eq_refl). discriminate.
Qed.

(** X5 on two journal entries and the close of the first. *)
Lemma trades_move_from_active_to_closed_witness :
  let a := Sample.answer Speculation Long 10 300 in
  let first := Sample.opened initialState a in
  let st1 := confirmTrade a "bought TSM" Sample.t0 initialState in
  let st2 := confirmTrade a "bought TSM" Sample.t0 st1 in
  let after := trades (submitExitForm (Sample.formWith "12") first Sample.t1 st2) in
  List.length (activeTrades (trades st2)) = 2%nat
  /\ (List.length (activeTrades after) + 1 = 2)%nat
  /\ (List.length (closedTrades after) = 0 + 1)%nat
  /\ ~ In first (activeTrades after).
Proof.
  cbv zeta.
  pose (a := Sample.answer Speculation Long 10 300).
  pose (st1 := confirmTrade a "bought TSM" Sample.t0 initialState).
  pose (st2 := confirmTrade a "bought TSM" Sample.t0 st1).
  destruct (trades_move_from_active_to_closed st2) as [_ Hclose].
  destruct (Hclose (Sample.formWith "12") (Sample.opened initialState a) Sample.t1
              (Sample.closedAt (Sample.opened initialState a) 12))
    as [Ha [Hc [_ Hgone]]].
  - apply reachable_confirm, reachable_confirm, (reachable_init initialSettings).
  - left. reflexivity.
  - reflexivity.
  - split; [reflexivity|]. split; [exact Ha|]. split; [exact Hc | exact Hgone].
Defined.

(** X6.  Handing the same closed trade over twice leaves the stored list as
    after the first time, but credits the account a second time; and a
    closed trade whose id no stored trade has changes no record, while its
    account is credited all the same. *)
Theorem close_again_credits_again (st : AppState) (c : ClosedTrade) :
  trades (handleCloseTrade c (handleCloseTrade c st)) = trades (handleCloseTrade c st)
  /\ (~ In (id c) (tradeIds (trades st)) -> trades (handleCloseTrade c st) = trades st)
  /\ (forall i acc,
         accountAt st i = Some acc ->
         account c = Some (name acc) ->
         let credit (cash : number) := cash + positionSize c + realizedPL c in
         option_map currentCash (accountAt (handleCloseTrade c st) i)
         = Some (credit (currentCash acc))
         /\ option_map currentCash
              (accountAt (handleCloseTrade c (handleCloseTrade c st)) i)
            = Some (credit (credit (currentCash acc)))).
Proof.
  split; [|split].
  - unfold handleCloseTrade, handleCloseTrade_newTrades. simpl.
    rewrite map_map. apply map_ext. intros t.
    destruct (String.eqb_spec (id (entry t)) (id c)) as [E|E]; simpl.
    + rewrite String.eqb_refl. reflexivity.
    + destruct (String.eqb_spec (id (entry t)) (id c)); [contradiction | reflexivity].
  - apply handleCloseTrade_unknown_id.
  - intros i acc Hacc Hname. cbv zeta.
    rewrite !accountAt_handleCloseTrade, Hacc. simpl.
    rewrite Hname, is_account_name. simpl.
    rewrite String.eqb_refl. split; reflexivity.
Qed.

(** X6 on account "Speculation" with the closed trade of 300 bought at 10
    and sold at 12, which is stored nowhere. *)
Lemma close_again_credits_again_witness :
  let c := Sample.closedAt (Sample.opened initialState
                              (Sample.answer Speculation Long 10 300)) 12 in
  trades (handleCloseTrade c initialState) = trades initialState
  /\ option_map currentCash (accountAt (handleCloseTrade c initialState) 1) = Some 3360
  /\ option_map currentCash
       (accountAt (handleCloseTrade c (handleCloseTrade c initialState)) 1)
     = Some 3720.
Proof.
  cbv zeta.
  pose (c := Sample.closedAt (Sample.opened initialState
                                (Sample.answer Speculation Long 10 300)) 12).
  destruct (close_again_credits_again initialState c) as [_ [Hunknown Hcredit]].
  split; [apply Hunknown; intros []|].
  destruct (Hcredit 1%nat
              {| name := Speculation; startingValue := 3000; currentCash := 3000 |}
              eq_refl eq_refl) as [H1 H2].
  split; [exact H1 | exact H2].
Defined.

(** X7.  A journal entry whose answer names no account (none, or the empty
    string) is filed under "Uncategorized": from the initial settings on, it
    is stored as an active trade, debits no account and appears among the
    open positions of no account. *)
Theorem entry_without_account_is_invisible (st : AppState)
    (parsedTrade : FrameworkData) (userInput now : string) :
  run initialState st ->
  fw_account parsedTrade = None \/ fw_account parsedTrade = Some ""%string ->
  let newTrade :=
    handleConfirm parsedTrade userInput now (trades st) (settings st)
      (activeTrades (trades st)) in
  let st' := confirmTrade parsedTrade userInput now st in
  account newTrade = Some Uncategorized
  /\ In newTrade (activeTrades (trades st'))
  /\ settings st' = settings st
  /\ (forall acc, In acc (accounts (settings st')) ->
                  ~ In newTrade (Views.accountTrades acc (activeTrades (trades st')))).
Proof.
  intros Hrun Hnone. cbv zeta.
  assert (Hacct : account (handleConfirm parsedTrade userInput now (trades st)
                             (settings st) (activeTrades (trades st)))
                  = Some Uncategorized)
    by (simpl; destruct Hnone as [-> | ->]; reflexivity).
  pose proof (run_names st Hrun) as Hnames.
  assert (Hother : forall acc, In acc (accounts (settings st)) ->
                               Some Uncategorized <> Some (name acc)).
  { intros acc Hin E. injection E as E.
    assert (Hn : In (name acc) (map name (accounts (settings st))))
      by (apply in_map; exact Hin).
    rewrite Hnames in Hn. rewrite <- E in Hn.
    destruct Hn as [H|[H|[H|[]]]]; discriminate H. }
  assert (Hsettings : settings (confirmTrade parsedTrade userInput now st) = settings st).
  { apply other_accounts_frame. rewrite Hacct. exact Hother. }
  split; [exact Hacct|]. split; [|split; [exact Hsettings|]].
  - apply In_activeTrades. unfold confirmTrade, handleAddTrade. simpl.
    apply in_or_app. right. left. reflexivity.
  - intros acc Hin Hshown. rewrite Hsettings in Hin.
    unfold Views.accountTrades in Hshown. apply filter_In in Hshown.
    destruct Hshown as [_ Hmatch]. rewrite Hacct in Hmatch. simpl in Hmatch.
    apply String.eqb_eq in Hmatch. apply (Hother acc Hin). congruence.
Qed.

(** X7 on an answer without an account, as the first journal entry. *)
Lemma entry_without_account_is_invisible_witness :
  let p :=
    {| fw_account := None; fw_tradeType := None; fw_ticker := Some "tsm";
       fw_action := Some OPEN; fw_direction := Long; fw_quantity := 2;
       fw_entryPrice := Some 150; fw_positionSize := Some 300;
       fw_thesis := None; fw_stopLoss := None; fw_emotionalState := None;
       fw_validationFlags := None |} in
  let st' := confirmTrade p "bought TSM" Sample.t0 initialState in
  List.length (activeTrades (trades st')) = 1%nat
  /\ settings st' = initialSettings
  /\ map (fun acc => List.length (Views.accountTrades acc (activeTrades (trades st'))))
       (accounts (settings st'))
     = [0; 0; 0]%nat.
Proof.
  cbv zeta.
  split; [reflexivity|].
  split; [|reflexivity].
  match goal with |- settings (confirmTrade ?p _ _ _) = _ =>
    destruct (entry_without_account_is_invisible initialState p "bought TSM" Sample.t0
                (run_here initialState) (or_introl eq_refl)) as [_ [_ [Hs _]]]
  end.
  exact Hs.
Defined.

(** ** Account valuation *)

Section Alike.

Lemma alike_refl (x : number) : alike x x.
Proof. left. reflexivity. Qed.

Lemma alike_trans (x y z : number) : alike x y -> alike y z -> alike x z.
Proof.
  intros [Hxy|[s [s' [Hx Hy]]]] [Hyz|[t [t' [Hy' Hz]]]].
  - left. congruence.
  - right. exists t, t'. split; congruence.
  - right. exists s, s'. split; congruence.
  - right. exists s, t'. split; assumption.
Qed.

(** Numbers that are alike compare alike. *)
Lemma alike_eqb (x y c : number) : alike x y -> (x =? c) = (y =? c).
Proof.
  intros [H|[s [s' [Hx Hy]]]]; rewrite !FloatAxioms.eqb_spec.
  - rewrite H. reflexivity.
  - rewrite Hx, Hy. destruct (Prim2SF c) as [sc|sc| |sc m e]; reflexivity.
Qed.

Lemma alike_zero (x y : number) (s : bool) :
  alike x y -> Prim2SF y = S754_zero s -> exists s', Prim2SF x = S754_zero s'.
Proof.
  intros [H|[t [t' [Hx _]]]] Hy; [exists s; congruence | exists t; exact Hx].
Qed.

Lemma alike_add_zero (y z : number) (s : bool) :
  Prim2SF z = S754_zero s -> alike (y + z) y.
Proof.
  intros Hz. unfold alike. rewrite FloatAxioms.add_spec, Hz. unfold SF64add, SFadd.
  destruct (Prim2SF y) as [sy|sy| |sy m e]; try (left; reflexivity).
  right. destruct sy, s; eexists; eexists; split; reflexivity.
Qed.

Lemma alike_add_l (a a' b : number) : alike a a' -> alike (a + b) (a' + b).
Proof.
  unfold alike. rewrite !FloatAxioms.add_spec.
  intros [H|[s [s' [Ha Ha']]]]; [left; rewrite H; reflexivity|].
  rewrite Ha, Ha'. unfold SF64add, SFadd.
  destruct (Prim2SF b) as [sb|sb| |sb m e]; try (left; reflexivity).
  right. destruct s, s', sb; eexists; eexists; split; reflexivity.
Qed.

Lemma alike_add_r (a b b' : number) : alike b b' -> alike (a + b) (a + b').
Proof.
  unfold alike. rewrite !FloatAxioms.add_spec.
  intros [H|[s [s' [Hb Hb']]]]; [left; rewrite H; reflexivity|].
  rewrite Hb, Hb'. unfold SF64add, SFadd.
  destruct (Prim2SF a) as [sa|sa| |sa m e]; try (left; reflexivity).
  right. destruct s, s', sa; eexists; eexists; split; reflexivity.
Qed.

Lemma add_zeros (x y : number) (s t : bool) :
  Prim2SF x = S754_zero s -> Prim2SF y = S754_zero t ->
  exists u, Prim2SF (x + y) = S754_zero u.
Proof.
  intros Hx Hy. rewrite FloatAxioms.add_spec, Hx, Hy.
  destruct s, t; eexists; reflexivity.
Qed.

Lemma is_zero_Prim2SF (x : number) (s : bool) :
  Prim2SF x = S754_zero s -> PrimFloat.is_zero x = true.
Proof.
  intros H. unfold PrimFloat.is_zero. rewrite FloatAxioms.eqb_spec, H.
  destruct s; reflexivity.
Qed.

Lemma markPrice_unmarked (trade : ActiveTrade) :
  unmarked trade -> Views.markPrice trade = entryPrice trade.
Proof.
  unfold unmarked, Views.markPrice. destruct (currentPrice trade) as [p|]; [|reflexivity].
  unfold or_else. intros ->. reflexivity.
Qed.

(** An open position without a mark price has a P/L of zero. *)
Lemma positionPL_unmarked (trade : ActiveTrade) :
  unmarked trade ->
  PrimFloat.is_finite (entryPrice trade) = true ->
  PrimFloat.is_finite (shareCount trade) = true ->
  exists s, Prim2SF (Views.positionPL trade) = S754_zero s.
Proof.
  intros Hu He Hs. unfold Views.positionPL. rewrite (markPrice_unmarked trade Hu).
  apply calculatePL_at_entry; assumption.
Qed.

(** The loop of [AccountDashboard] over positions without mark prices. *)
Lemma fold_value_unmarked (trades : list ActiveTrade) (acc acc' pl : number) (s : bool) :
  alike acc acc' ->
  Prim2SF pl = S754_zero s ->
  (forall t, In t trades ->
             unmarked t
             /\ PrimFloat.is_finite (entryPrice t) = true
             /\ PrimFloat.is_finite (shareCount t) = true) ->
  alike (fst (fold_left Views.value_step trades (acc, pl)))
    (fold_left PrimFloat.add (map (fun t : ActiveTrade => positionSize t) trades) acc')
  /\ exists s', Prim2SF (snd (fold_left Views.value_step trades (acc, pl))) = S754_zero s'.
Proof.
  revert acc acc' pl s. induction trades as [|t trades IH]; intros acc acc' pl s Ha Hp Hall.
  - simpl. split; [exact Ha | exists s; exact Hp].
  - destruct (Hall t (or_introl eq_refl)) as [Hu [He Hs]].
    destruct (positionPL_unmarked t Hu He Hs) as [z Hz].
    destruct (add_zeros pl (Views.positionPL t) s z Hp Hz) as [u Hsum].
    simpl. apply (IH _ _ _ u).
    + apply (alike_trans _ (acc + positionSize t)).
      * apply (alike_add_zero _ _ z Hz).
      * apply alike_add_l, Ha.
    + exact Hsum.
    + intros t' Hin. apply Hall. right. exact Hin.
Qed.

Lemma AccountDashboard_value_eq (account : AccountState) (trades : list ActiveTrade) :
  Views.AccountDashboard_value account trades
  = {| Views.totalValue :=
         currentCash account + fst (fold_left Views.value_step trades (0, 0));
       Views.openPL := snd (fold_left Views.value_step trades (0, 0)) |}.
Proof.
  unfold Views.AccountDashboard_value.
  destruct (fold_left Views.value_step trades (0, 0)); reflexivity.
Qed.

End Alike.

(** X8.  A mark price that is missing, zero or NaN is ignored: the position
    is valued at its entry price, so the account value and the figures of
    its card are those of the same position without a mark price - a price
    fallen to 0 does not show as a loss. *)
Theorem falsy_mark_price_is_ignored (account : AccountState)
    (trades : list ActiveTrade) :
  (forall t, In t trades -> unmarked t) ->
  let withoutMark (t : ActiveTrade) : ActiveTrade :=
    {| active_entry := active_entry t; currentPrice := None |} in
  (forall t, In t trades ->
             Views.markPrice t = entryPrice t
             /\ Views.PositionCard_figures t = Views.PositionCard_figures (withoutMark t))
  /\ Views.AccountDashboard_value account trades
     = Views.AccountDashboard_value account (map withoutMark trades).
Proof.
  intros Hall. cbv zeta.
  assert (Hpl : forall t, In t trades ->
                  Views.positionPL t
                  = Views.positionPL {| active_entry := active_entry t; currentPrice := None |}).
  { intros t Hin. unfold Views.positionPL.
    rewrite (markPrice_unmarked t (Hall t Hin)). reflexivity. }
  split.
  - intros t Hin. split; [apply markPrice_unmarked, Hall, Hin|].
    unfold Views.PositionCard_figures. rewrite (Hpl t Hin).
    rewrite (markPrice_unmarked t (Hall t Hin)). reflexivity.
  - unfold Views.AccountDashboard_value. f_equal.
    assert (Hfold : forall state,
               fold_left Views.value_step trades state
               = fold_left Views.value_step
                   (map (fun t : ActiveTrade =>
                           {| active_entry := active_entry t; currentPrice := None |})
                      trades) state).
    { clear Hall. induction trades as [|t trades IH]; intros state; [reflexivity|].
      simpl. rewrite IH.
      - f_equal. destruct state as [acc pl]. unfold Views.value_step.
        rewrite (Hpl t (or_introl eq_refl)). reflexivity.
      - intros t' Hin. apply Hpl. right. exact Hin. }
    rewrite Hfold. reflexivity.
Qed.

(** X8 on a position of 10 shares bought at 10 whose mark price is 0. *)
Lemma falsy_mark_price_is_ignored_witness :
  let bought := Sample.opened initialState (Sample.answer Speculation Long 10 100) in
  let worthless : ActiveTrade :=
    {| active_entry := active_entry bought; currentPrice := Some 0 |} in
  let account := {| name := Speculation; startingValue := 3000; currentCash := 2900 |} in
  Views.AccountDashboard_value account [worthless]
  = Views.AccountDashboard_value account [bought]
  /\ Views.totalValue (Views.AccountDashboard_value account [worthless]) = 3000
  /\ Views.openPL (Views.AccountDashboard_value account [worthless]) = 0.
Proof.
  cbv zeta. split; [|split; reflexivity].
  refine (proj2 (falsy_mark_price_is_ignored _ [_] _)).
  intros t [<-|[]]. reflexivity.
Defined.

(** X9.  For open positions without mark prices, with finite entry prices
    and share counts, the open P/L of the account is zero and its value
    [===] whatever the cash plus the position sizes, added from the left,
    [===]. *)
Theorem unmarked_positions_value (account : AccountState)
    (trades : list ActiveTrade) :
  (forall t, In t trades ->
             unmarked t
             /\ PrimFloat.is_finite (entryPrice t) = true
             /\ PrimFloat.is_finite (shareCount t) = true) ->
  let value := Views.AccountDashboard_value account trades in
  PrimFloat.is_zero (Views.openPL value) = true
  /\ forall x,
       (Views.totalValue value =? x)
       = (currentCash account
          + sumOf (map (fun t : ActiveTrade => positionSize t) trades) =? x).
Proof.
  intros Hall. cbv zeta. rewrite AccountDashboard_value_eq. unfold sumOf.
  destruct (fold_value_unmarked trades 0 0 0 false (alike_refl 0) eq_refl Hall)
    as [Hvalue [s Hpl]].
  simpl. split.
  - apply (is_zero_Prim2SF _ s Hpl).
  - intros x. apply alike_eqb, alike_add_r, Hvalue.
Qed.

(** X9 on two fresh positions of 300 and 150 on an account with cash 2550. *)
Lemma unmarked_positions_value_witness :
  let a := Sample.opened initialState (Sample.answer Speculation Long 10 300) in
  let b := Sample.opened initialState (Sample.answer Speculation Short 7 150) in
  let account := {| name := Speculation; startingValue := 3000; currentCash := 2550 |} in
  let value := Views.AccountDashboard_value account [a; b] in
  PrimFloat.is_zero (Views.openPL value) = true
  /\ (Views.totalValue value =? 3000) = (2550 + sumOf [300; 150] =? 3000).
Proof.
  cbv zeta.
  pose (a := Sample.opened initialState (Sample.answer Speculation Long 10 300)).
  pose (b := Sample.opened initialState (Sample.answer Speculation Short 7 150)).
  destruct (unmarked_positions_value
              {| name := Speculation; startingValue := 3000; currentCash := 2550 |}
              [a; b]) as [Hpl Hvalue].
  - intros t [<-|[<-|[]]]; repeat split.
  - split; [exact Hpl | exact (Hvalue 3000)].
Defined.

(** X10.  In every state reached from an empty journal the dashboard of an
    account whose open positions have finite entry prices and share counts
    shows an open P/L of zero, and each of its cards a P/L of zero in the
    colour of a gain. *)
Theorem dashboard_shows_no_open_PL (st : AppState) (account : AccountState) :
  reachable st ->
  let shown := Views.accountTrades account (activeTrades (trades st)) in
  (forall t, In t shown ->
             PrimFloat.is_finite (entryPrice t) = true
             /\ PrimFloat.is_finite (shareCount t) = true) ->
  PrimFloat.is_zero (Views.openPL (Views.AccountDashboard_value account shown)) = true
  /\ (forall t, In t shown ->
                PrimFloat.is_zero (Views.card_pl (Views.PositionCard_figures t)) = true
                /\ Views.card_plColor (Views.PositionCard_figures t)
                   = Views.text_success).
Proof.
  intros Hr shown Hfinite.
  assert (Hunmarked : forall t, In t shown -> unmarked t).
  { intros t Hin. unfold shown, Views.accountTrades in Hin.
    apply filter_In in Hin. destruct Hin as [Hin _].
    apply In_activeTrades in Hin.
    pose proof (reachable_markOf st Hr (Active t) Hin) as Hmark.
    unfold unmarked. simpl in Hmark. rewrite Hmark. exact I. }
  split.
  - assert (Hall : forall t, In t shown ->
                     unmarked t
                     /\ PrimFloat.is_finite (entryPrice t) = true
                     /\ PrimFloat.is_finite (shareCount t) = true).
    { intros t Hin. destruct (Hfinite t Hin) as [He Hs].
      split; [apply Hunmarked, Hin|]. split; assumption. }
    rewrite AccountDashboard_value_eq.
    destruct (fold_value_unmarked shown 0 0 0 false (alike_refl 0) eq_refl Hall)
      as [_ [s Hpl]].
    simpl. apply (is_zero_Prim2SF _ s Hpl).
  - intros t Hin. destruct (Hfinite t Hin) as [He Hs].
    destruct (positionPL_unmarked t (Hunmarked t Hin) He Hs) as [s Hz].
    unfold Views.PositionCard_figures. simpl. split.
    + apply (is_zero_Prim2SF _ s Hz).
    + unfold Views.plColor. rewrite FloatAxioms.leb_spec, Hz.
      destruct s; reflexivity.
Qed.

(** X10 on the journal with two confirmed trades of "Speculation". *)
Lemma dashboard_shows_no_open_PL_witness :
  let a := Sample.answer Speculation Long 10 300 in
  let st := confirmTrade a "bought TSM" Sample.t0
              (confirmTrade a "bought TSM" Sample.t0 initialState) in
  let account := {| name := Speculation; startingValue := 3000; currentCash := 2400 |} in
  let shown := Views.accountTrades account (activeTrades (trades st)) in
  List.length shown = 2%nat
  /\ PrimFloat.is_zero (Views.openPL (Views.AccountDashboard_value account shown)) = true.
Proof.
  cbv zeta. split; [reflexivity|].
  refine (proj1 (dashboard_shows_no_open_PL _ _ _ _)).
  - apply reachable_confirm, reachable_confirm, (reachable_init initialSettings).
  - intros t [<-|[<-|[]]]; split; reflexivity.
Defined.

(** ** Analytics: the partitions *)

Section Partitions.

Lemma push_account_None (d : AccountData) (k : TradeAccount) (t : ClosedTrade) :
  push_account d k t = None <-> ~ knownAccount k.
Proof.
  unfold push_account, knownAccount.
  destruct (String.eqb_spec k IncomeGenerator) as [E1|E1];
    [split; [discriminate | intros H; exfalso; apply H; auto]|].
  destruct (String.eqb_spec k Speculation) as [E2|E2];
    [split; [discriminate | intros H; exfalso; apply H; auto]|].
  destruct (String.eqb_spec k TradingLab) as [E3|E3];
    [split; [discriminate | intros H; exfalso; apply H; auto]|].
  destruct (String.eqb_spec k Uncategorized) as [E4|E4];
    [split; [discriminate | intros H; exfalso; apply H; auto]|].
  split; [|reflexivity]. intros _ [H|[H|[H|H]]]; contradiction.
Qed.

Lemma fileTrade_fails (rest : list ClosedTrade) (d : AccountData) :
  fold_left fileTrade rest (Some d) = None
  <-> exists t, In t rest /\ ~ knownAccount (accountKey t).
Proof.
  revert d. induction rest as [|t rest IH]; intros d; simpl.
  - split; [discriminate | intros [t [[] _]]].
  - destruct (push_account d (accountKey t) t) as [d'|] eqn:E.
    + rewrite IH. split.
      * intros [t' [Hin Hbad]]. exists t'. split; [right; exact Hin | exact Hbad].
      * intros [t' [[<-|Hin] Hbad]].
        -- rewrite (proj2 (push_account_None d _ t) Hbad) in E. discriminate.
        -- exists t'. split; assumption.
    + rewrite fileTrade_None. split; [|reflexivity]. intros _.
      exists t. split; [left; reflexivity|]. apply (push_account_None d _ t), E.
Qed.

Lemma push_account_count (d d' : AccountData) (k : TradeAccount) (t : ClosedTrade) :
  push_account d k t = Some d' -> filedCount d' = S (filedCount d).
Proof.
  unfold push_account, filedCount.
  destruct (String.eqb k IncomeGenerator);
    [intros H; injection H as <-; simpl; rewrite length_app; simpl; lia|].
  destruct (String.eqb k Speculation);
    [intros H; injection H as <-; simpl; rewrite length_app; simpl; lia|].
  destruct (String.eqb k TradingLab);
    [intros H; injection H as <-; simpl; rewrite length_app; simpl; lia|].
  destruct (String.eqb k Uncategorized);
    [intros H; injection H as <-; simpl; rewrite length_app; simpl; lia|].
  discriminate.
Qed.

Lemma fileTrade_count (rest : list ClosedTrade) (d d' : AccountData) :
  fold_left fileTrade rest (Some d) = Some d' ->
  filedCount d' = (filedCount d + List.length rest)%nat.
Proof.
  revert d. induction rest as [|t rest IH]; intros d; simpl.
  - intros H. injection H as <-. lia.
  - destruct (push_account d (accountKey t) t) as [d1|] eqn:E.
    + intros H. rewrite (IH d1 H), (push_account_count _ _ _ _ E). lia.
    + rewrite fileTrade_None. discriminate.
Qed.

Lemma totalTrades_stats (ts : list ClosedTrade) :
  totalTrades (AccountPerformanceCard_stats ts) = List.length ts.
Proof.
  unfold AccountPerformanceCard_stats. destruct ts as [|t ts]; [reflexivity|].
  change (List.length (t :: ts) =? 0)%nat with false. cbv iota.
  destruct (fold_left stats_step (t :: ts) (0, 0%nat)). reflexivity.
Qed.

(** The groups of [sourceData] together hold each closed trade once. *)
Lemma push_source_count (data : list (TradeSource * list ClosedTrade))
    (k : TradeSource) (t : ClosedTrade) :
  list_sum (map (fun kv => List.length (snd kv)) (push_source data k t))
  = S (list_sum (map (fun kv => List.length (snd kv)) data)).
Proof.
  induction data as [|[k0 g0] data IH]; simpl; [reflexivity|].
  destruct (TradeSource_eqb k0 k); simpl.
  - rewrite length_app. simpl. lia.
  - rewrite IH. lia.
Qed.

Lemma groupedBySource_count (rest : list ClosedTrade)
    (data : list (TradeSource * list ClosedTrade)) :
  list_sum (map (fun kv => List.length (snd kv))
              (fold_left (fun data (t : ClosedTrade) => push_source data (source t) t)
                 rest data))
  = (list_sum (map (fun kv => List.length (snd kv)) data) + List.length rest)%nat.
Proof.
  revert data. induction rest as [|t rest IH]; intros data; simpl; [lia|].
  rewrite IH, push_source_count. lia.
Qed.

End Partitions.

(** X11.  The analytics view fails on an account name it does not know:
    [accountData] throws, and no performance card is rendered, exactly when
    some closed trade is filed under a name other than the four of
    [TradeAccount]. *)
Theorem analytics_fail_on_unknown_account (closed : list ClosedTrade) :
  (accountData closed = None
   <-> exists t, In t closed /\ ~ knownAccount (accountKey t))
  /\ (Views.AnalyticsView_cards closed = None <-> accountData closed = None).
Proof.
  split.
  - apply (fileTrade_fails closed).
  - unfold Views.AnalyticsView_cards.
    destruct (accountData closed); split; try discriminate; reflexivity.
Qed.

(** X11 on a closed trade of the account "Crypto", and on one of
    "Speculation". *)
Lemma analytics_fail_on_unknown_account_witness :
  let stray :=
    Sample.closedAt (Sample.opened initialState (Sample.answer "Crypto" Long 10 300)) 12 in
  let known :=
    Sample.closedAt (Sample.opened initialState (Sample.answer Speculation Long 10 300)) 12 in
  accountData [known; stray] = None
  /\ Views.AnalyticsView_cards [known; stray] = None
  /\ accountData [known] <> None.
Proof.
  cbv zeta.
  pose (stray := Sample.closedAt
                   (Sample.opened initialState (Sample.answer "Crypto" Long 10 300)) 12).
  pose (known := Sample.closedAt
                   (Sample.opened initialState (Sample.answer Speculation Long 10 300)) 12).
  destruct (analytics_fail_on_unknown_account [known; stray]) as [Hfail Hcards].
  assert (Hnone : accountData [known; stray] = None).
  { apply Hfail. exists stray. split; [right; left; reflexivity|].
    intros [H|[H|[H|H]]]; discriminate H. }
  split; [exact Hnone|]. split; [apply Hcards, Hnone | discriminate].
Defined.

(** X12.  When every closed trade is filed under a known account the view
    renders three cards, for "Income Generator", "Speculation" and "Trading
    Lab" in this order, each over the closed trades of its account; the
    trades the cards count and the closed trades filed under
    "Uncategorized", which no card shows, are all the closed trades. *)
Theorem performance_cards_cover (closed : list ClosedTrade)
    (cards : list (TradeAccount * option Stats)) :
  Views.AnalyticsView_cards closed = Some cards ->
  cards
  = map (fun k => (k, Some (AccountPerformanceCard_stats (tradesOfAccount k closed))))
      [IncomeGenerator; Speculation; TradingLab]
  /\ (List.length (tradesOfAccount IncomeGenerator closed)
      + List.length (tradesOfAccount Speculation closed)
      + List.length (tradesOfAccount TradingLab closed)
      + List.length (tradesOfAccount Uncategorized closed)
      = List.length closed)%nat.
Proof.
  unfold Views.AnalyticsView_cards.
  destruct (accountData closed) as [d|] eqn:Hd; [|discriminate].
  intros H. injection H as <-.
  destruct (accountData_filed closed d Hd) as (H1 & H2 & H3 & H4).
  split.
  - simpl. unfold Views.AccountData_get. simpl. rewrite H1, H2, H3. reflexivity.
  - pose proof (fileTrade_count closed _ d Hd) as Hcount.
    unfold filedCount in Hcount. simpl in Hcount.
    rewrite <- H1, <- H2, <- H3, <- H4. exact Hcount.
Qed.

(** X12 on three closed trades of "Speculation". *)
Lemma performance_cards_cover_witness :
  option_map (map (fun card => option_map totalTrades (snd card)))
    (Views.AnalyticsView_cards Sample.threeClosed)
  = Some [Some 0; Some 3; Some 0]%nat
  /\ List.length (tradesOfAccount Speculation Sample.threeClosed) = 3%nat.
Proof.
  destruct (Views.AnalyticsView_cards Sample.threeClosed) as [cards|] eqn:E;
    [|discriminate E].
  destruct (performance_cards_cover Sample.threeClosed cards E) as [Hcards _].
  subst cards. split; reflexivity.
Defined.

(** X13.  The source chart counts every closed trade exactly once: the trade
    counts of its bars add up to the number of closed trades, and no bar is
    empty. *)
Theorem source_counts_add_up (closed : list ClosedTrade) :
  list_sum (map source_trades (sourceData closed)) = List.length closed
  /\ (forall s, In s (sourceData closed) -> (0 < source_trades s)%nat)
  /\ (closed = [] -> sourceData closed = []).
Proof.
  split; [|split].
  - unfold sourceData. rewrite map_map.
    rewrite (map_ext (fun kv => source_trades (sourceStats kv))
               (fun kv => List.length (snd kv)))
      by (intros [k g]; reflexivity).
    rewrite groupedBySource_count. reflexivity.
  - intros s Hin. unfold sourceData in Hin. fold (groupedBySource closed) in Hin.
    apply in_map_iff in Hin. destruct Hin as [[k g] [<- Hin]].
    destruct (grouped_groupedBySource closed) as [_ [Hgroups _]].
    destruct (Hgroups _ _ Hin) as [_ Hne]. simpl.
    destruct g; [congruence | simpl; lia].
  - intros ->. reflexivity.
Qed.

(** X13 on three closed trades of two sources. *)
Lemma source_counts_add_up_witness :
  let closed :=
    [Sample.tenShares 0 YouTube 20; Sample.tenShares 1 AISuggestion 5;
     Sample.tenShares 2 YouTube 13] in
  map (fun s => (source_name s, source_trades s)) (sourceData closed)
  = [(YouTube, 2%nat); (AISuggestion, 1%nat)]
  /\ list_sum (map source_trades (sourceData closed)) = 3%nat.
Proof.
  cbv zeta. split; [reflexivity|].
  apply (source_counts_add_up
           [Sample.tenShares 0 YouTube 20; Sample.tenShares 1 AISuggestion 5;
            Sample.tenShares 2 YouTube 13]).
Defined.

(** ** Intake: the new trade and the dialog *)

Section Intake.

Lemma or_else_not_nan (x : number) : PrimFloat.is_nan (or_else x 0) = false.
Proof.
  unfold or_else, truthy.
  destruct (PrimFloat.is_zero x); simpl; [reflexivity|].
  destruct (PrimFloat.is_nan x) eqn:E; simpl; [reflexivity | exact E].
Qed.

Lemma or_else_string_nonempty (s d : string) :
  d <> ""%string -> or_else_string s d <> ""%string.
Proof.
  unfold or_else_string. intros Hd.
  destruct (String.eqb_spec s ""); assumption.
Qed.

Lemma upper_not_lower (c : ascii) : is_lower (upper c) = false.
Proof. destruct c as [[] [] [] [] [] [] [] []]; reflexivity. Qed.

Lemma toUpperCase_noLowerCase (s : string) : noLowerCase (toUpperCase s).
Proof.
  unfold noLowerCase. induction s as [|c s IH]; simpl; constructor;
    [apply upper_not_lower | exact IH].
Qed.

Lemma is_white_space_spec (bytes : string) :
  is_white_space bytes = true
  <-> exists codePoint, In codePoint whiteSpaceCodePoints /\ bytes = utf8 codePoint.
Proof.
  unfold is_white_space. rewrite existsb_exists. split.
  - intros [cp [Hin E]]. exists cp. split; [exact Hin | apply String.eqb_eq, E].
  - intros [cp [Hin E]]. exists cp. split; [exact Hin | apply String.eqb_eq, E].
Qed.

Lemma utf8_text_app (l1 l2 : list N) :
  utf8_text (l1 ++ l2) = (utf8_text l1 ++ utf8_text l2)%string.
Proof.
  induction l1 as [|cp l1 IH]; simpl; [reflexivity|].
  rewrite IH. 
  generalize (utf8 cp) as a. intros a. induction a as [|c a IHa]; simpl; [reflexivity|].
  rewrite IHa. reflexivity.
Qed.

Lemma string_app_nil (s : string) : (s ++ "")%string = s.
Proof. induction s as [|c s IH]; simpl; [reflexivity | rewrite IH; reflexivity]. Qed.

Lemma blank_app (w1 w2 : string) : blank w1 -> blank w2 -> blank (w1 ++ w2).
Proof.
  intros [l1 [H1 E1]] [l2 [H2 E2]]. exists (l1 ++ l2)%list. split.
  - apply Forall_app. split; assumption.
  - rewrite utf8_text_app, E1, E2. reflexivity.
Qed.

Lemma blank_character (bytes : string) : is_white_space bytes = true -> blank bytes.
Proof.
  intros H. apply is_white_space_spec in H. destruct H as [cp [Hin E]].
  exists [cp]. split; [constructor; [exact Hin | constructor]|].
  simpl. rewrite string_app_nil. exact E.
Qed.

Lemma trimStart_utf8 (codePoint : N) (rest : string) :
  In codePoint whiteSpaceCodePoints ->
  trimStart (utf8 codePoint ++ rest) = trimStart rest.
Proof.
  intros H. simpl in H.
  repeat (destruct H as [<-|H]; [vm_compute; reflexivity|]). contradiction.
Qed.

Lemma trimStart_blank (s : string) : blank s -> trimStart s = ""%string.
Proof.
  intros [l [Hl ->]]. induction Hl as [|cp l Hcp _ IH]; [reflexivity|].
  simpl. rewrite (trimStart_utf8 cp _ Hcp). exact IH.
Qed.

Lemma trimStart_split (s : string) :
  exists w, blank w /\ s = (w ++ trimStart s)%string.
Proof.
  assert (Hnil : blank ""%string) by (exists []; split; [constructor | reflexivity]).
  assert (H : forall n s, (String.length s <= n)%nat ->
                exists w, blank w /\ s = (w ++ trimStart s)%string).
  { clear s. induction n as [|n IH]; intros s Hn.
    - destruct s; [|simpl in Hn; lia]. exists ""%string. split; [exact Hnil | reflexivity].
    - destruct s as [|c1 r1]; [exists ""%string; split; [exact Hnil | reflexivity]|].
      simpl in Hn. cbn [trimStart].
      destruct (is_white_space (String c1 "")) eqn:E1.
      { destruct (IH r1 ltac:(lia)) as [w [Hw Er]].
        exists (String c1 "" ++ w)%string. split.
        - apply blank_app; [apply blank_character, E1 | exact Hw].
        - simpl. f_equal. exact Er. }
      destruct r1 as [|c2 r2]; [exists ""%string; split; [exact Hnil | reflexivity]|].
      simpl in Hn.
      destruct (is_white_space (String c1 (String c2 ""))) eqn:E2.
      { destruct (IH r2 ltac:(lia)) as [w [Hw Er]].
        exists (String c1 (String c2 "") ++ w)%string. split.
        - apply blank_app; [apply blank_character, E2 | exact Hw].
        - simpl. do 2 f_equal. exact Er. }
      destruct r2 as [|c3 r3]; [exists ""%string; split; [exact Hnil | reflexivity]|].
      simpl in Hn.
      destruct (is_white_space (String c1 (String c2 (String c3 "")))) eqn:E3.
      { destruct (IH r3 ltac:(lia)) as [w [Hw Er]].
        exists (String c1 (String c2 (String c3 "")) ++ w)%string. split.
        - apply blank_app; [apply blank_character, E3 | exact Hw].
        - simpl. do 3 f_equal. exact Er. }
      exists ""%string. split; [exact Hnil | reflexivity]. }
  apply (H (String.length s)). lia.
Qed.

Lemma trimEnd_split (s : string) :
  exists w, blank w /\ s = (trimEnd s ++ w)%string.
Proof.
  induction s as [|c r [w [Hw Er]]].
  - exists ""%string. split; [exists []; split; [constructor | reflexivity] | reflexivity].
  - cbn [trimEnd]. cbv zeta.
    destruct (is_white_space (String c (trimEnd r))) eqn:E.
    + exists (String c (trimEnd r) ++ w)%string. split.
      * apply blank_app; [apply blank_character, E | exact Hw].
      * simpl. f_equal. exact Er.
    + exists w. split; [exact Hw|]. simpl. f_equal. exact Er.
Qed.

(** [!userInput.trim()] holds for the texts of white space only. *)
Lemma trim_blank (s : string) : trim s = ""%string <-> blank s.
Proof.
  unfold trim. split.
  - intros E. destruct (trimStart_split s) as [w [Hw Es]].
    destruct (trimEnd_split (trimStart s)) as [w' [Hw' Et]].
    rewrite E in Et. simpl in Et. rewrite Es. apply blank_app; [exact Hw|].
    rewrite Et. exact Hw'.
  - intros H. rewrite (trimStart_blank s H). reflexivity.
Qed.

End Intake.

(** X14.  Whatever the AI service answered, the trade built from it has an
    entry price, a position size and a stop loss that are not NaN, a ticker
    that is not empty and has no lower-case ASCII letter, an account name
    that is not empty, no mark price, and an empty checklist. *)
Theorem new_trade_is_sanitized (parsedTrade : FrameworkData)
    (userInput now : string) (tradesProp : list Trade) (settingsProp : Settings)
    (activeTradesProp : list ActiveTrade) :
  let newTrade :=
    handleConfirm parsedTrade userInput now tradesProp settingsProp activeTradesProp in
  PrimFloat.is_nan (entryPrice newTrade) = false
  /\ PrimFloat.is_nan (positionSize newTrade) = false
  /\ PrimFloat.is_nan (stopLoss newTrade) = false
  /\ ticker newTrade <> ""%string
  /\ noLowerCase (ticker newTrade)
  /\ (exists a, account newTrade = Some a /\ a <> ""%string)
  /\ currentPrice newTrade = None
  /\ getChecklistScore (checklist newTrade) = 0%nat.
Proof.
  cbv zeta. simpl.
  split; [apply or_else_not_nan|]. split; [apply or_else_not_nan|].
  split; [apply or_else_not_nan|]. split; [|split; [|split; [|split; reflexivity]]].
  - destruct (fw_ticker parsedTrade) as [t|]; [|discriminate].
    apply or_else_string_nonempty. discriminate.
  - destruct (fw_ticker parsedTrade) as [t|].
    + unfold or_else_string.
      destruct (String.eqb (toUpperCase t) "");
        [repeat constructor | apply toUpperCase_noLowerCase].
    + repeat constructor.
  - eexists. split; [reflexivity|].
    destruct (fw_account parsedTrade) as [a|]; [|discriminate].
    apply or_else_string_nonempty. discriminate.
Qed.

(** X15.  The checklist score counts the criteria met: it is at most 5, it
    is 5 exactly when all five are met and 0 exactly when none is. *)
Theorem checklist_score_bounds (c : CriteriaChecklist) :
  (getChecklistScore c <= 5)%nat
  /\ (getChecklistScore c = 5%nat
      <-> catalyst45Days c = true /\ analystsCovering c = true
          /\ institutionalOwnership c = true /\ technicalSetup c = true
          /\ explainable c = true)
  /\ (getChecklistScore c = 0%nat
      <-> catalyst45Days c = false /\ analystsCovering c = false
          /\ institutionalOwnership c = false /\ technicalSetup c = false
          /\ explainable c = false).
Proof.
  destruct c as [[] [] [] [] []]; unfold getChecklistScore; simpl;
    (split; [lia|]); split; split; intros H; try discriminate H; try reflexivity;
    try (repeat split; reflexivity);
    try (destruct H as (H1 & H2 & H3 & H4 & H5); discriminate).
Qed.

(** X16.  Processing the text of the dialog does nothing for a text of white
    space only, for which the button is disabled too.  For any other text it
    ends with the loading flag off and the text kept.  After a failure there
    is no draft, so the confirm button is not shown and nothing can be
    confirmed into the journal, and the error shown is not empty, unless
    the value thrown was [null] or [undefined], for which no error is
    shown.  After an answer the draft is the answer and no error is shown:
    an object is shown for confirmation, the answer [null] is not, and the
    dialog goes back to the text field without a message.  Without an API
    key the call fails before the service is reached; a failure of the
    service is passed on; a reply that is not JSON fails, and a reply that
    is JSON is returned as parsed. *)
Theorem intake_failure_leaves_no_draft (m : Views.ModalState) :
  (blank (Views.userInput m) ->
   (forall outcome, Views.handleProcess outcome m = m)
   /\ Views.processDisabled m = true)
  /\ (~ blank (Views.userInput m) ->
      (forall message,
          let after := Views.handleProcess (Views.Thrown (Views.Carrying message)) m in
          Views.isLoading after = false
          /\ Views.userInput after = Views.userInput m
          /\ Views.parsedTrade after = Views.JsonNull
          /\ Views.confirmShown after = false
          /\ Views.error after <> ""%string)
      /\ (let after := Views.handleProcess (Views.Thrown Views.Nullish) m in
          Views.isLoading after = false
          /\ Views.userInput after = Views.userInput m
          /\ Views.parsedTrade after = Views.JsonNull
          /\ Views.confirmShown after = false
          /\ Views.error after = ""%string)
      /\ (forall result,
             let after := Views.handleProcess (Views.Returned result) m in
             Views.isLoading after = false
             /\ Views.userInput after = Views.userInput m
             /\ Views.parsedTrade after = result
             /\ Views.confirmShown after = Views.JsonValue_truthy result
             /\ Views.error after = ""%string)
      /\ (forall answer,
             Views.confirmShown
               (Views.handleProcess (Views.Returned (Views.JsonObject answer)) m) = true)
      /\ Views.confirmShown (Views.handleProcess (Views.Returned Views.JsonNull) m)
         = false)
  /\ (forall JSON_parse reply,
         Views.processTradeWithAI JSON_parse None reply
         = Views.Thrown (Views.Carrying (Some "API_KEY environment variable not set."%string))
         /\ Views.processTradeWithAI JSON_parse (Some ""%string) reply
            = Views.Thrown
                (Views.Carrying (Some "API_KEY environment variable not set."%string)))
  /\ (forall JSON_parse key err,
         key <> ""%string ->
         Views.processTradeWithAI JSON_parse (Some key) (Views.Failed err)
         = Views.Thrown err)
  /\ (forall JSON_parse key text,
         key <> ""%string ->
         (JSON_parse text = None ->
          Views.processTradeWithAI JSON_parse (Some key) (Views.Replied (Some text))
          = Views.Thrown (Views.Carrying (Some "AI response was not valid JSON."%string)))
         /\ (forall value, JSON_parse text = Some value ->
               Views.processTradeWithAI JSON_parse (Some key) (Views.Replied (Some text))
               = Views.Returned value)
         /\ Views.processTradeWithAI JSON_parse (Some key) (Views.Replied None)
            = Views.processTradeWithAI JSON_parse (Some key)
                (Views.Replied (Some "undefined"%string))).
Proof.
  split; [|split; [|split; [|split]]].
  - intros Hblank. apply trim_blank in Hblank.
    unfold Views.handleProcess, Views.handleProcess_start, Views.processDisabled.
    rewrite Hblank. simpl. split; [reflexivity | apply orb_true_r].
  - intros Hnot.
    assert (Htrim : String.eqb (trim (Views.userInput m)) "" = false).
    { apply String.eqb_neq. intros E. apply Hnot, trim_blank, E. }
    unfold Views.handleProcess, Views.handleProcess_start. rewrite Htrim.
    split; [|split; [|split; [|split]]].
    + intros message. cbv zeta. simpl. repeat split.
      destruct message as [text|]; [apply or_else_string_nonempty|]; discriminate.
    + cbv zeta. simpl. repeat split.
    + intros result. cbv zeta. simpl. repeat split.
    + intros answer. reflexivity.
    + reflexivity.
  - intros parse reply. split; reflexivity.
  - intros parse key err Hkey. unfold Views.processTradeWithAI.
    destruct key as [|c key]; [contradiction | reflexivity].
  - intros parse key text Hkey. unfold Views.processTradeWithAI.
    destruct key as [|c key]; [contradiction|].
    split; [intros ->; reflexivity|]. split; [intros value ->; reflexivity | reflexivity].
Qed.

(** X16 on a text of a space and a no-break space, and on the text "bought
    TSM" with a thrown value that has no message and with the answer
    [null]. *)
Lemma intake_failure_leaves_no_draft_witness :
  let typed (text : string) : Views.ModalState :=
    {| Views.userInput := text; Views.isLoading := false; Views.error := "";
       Views.parsedTrade := Views.JsonNull |} in
  let spaces := (" " ++ utf8 0xA0)%string in
  Views.handleProcess (Views.Thrown (Views.Carrying None)) (typed spaces) = typed spaces
  /\ Views.processDisabled (typed spaces) = true
  /\ Views.error
       (Views.handleProcess (Views.Thrown (Views.Carrying None)) (typed "bought TSM"))
     = "An error occurred while processing with AI."%string
  /\ Views.confirmShown
       (Views.handleProcess (Views.Thrown (Views.Carrying None)) (typed "bought TSM"))
     = false
  /\ Views.handleProcess (Views.Returned Views.JsonNull) (typed "bought TSM")
     = typed "bought TSM".
Proof.
  cbv zeta.
  pose (typed := fun text : string =>
          {| Views.userInput := text; Views.isLoading := false; Views.error := "";
             Views.parsedTrade := Views.JsonNull |}).
  assert (Hspaces : blank (" " ++ utf8 0xA0)%string).
  { exists [0x20; 0xA0]%N. split; [|reflexivity].
    repeat constructor; simpl; tauto. }
  assert (Htext : ~ blank "bought TSM"%string).
  { intros H. apply trim_blank in H. vm_compute in H. discriminate H. }
  destruct (intake_failure_leaves_no_draft (typed (" " ++ utf8 0xA0)%string))
    as [Hblank _].
  destruct (Hblank Hspaces) as [Hsame Hdisabled].
  destruct (intake_failure_leaves_no_draft (typed "bought TSM"%string))
    as [_ [Hgo _]].
  destruct (Hgo Htext) as [Hfail _].
  destruct (Hfail None) as [_ [_ [_ [Hshown _]]]].
  split; [apply Hsame|]. split; [exact Hdisabled|].
  split; [reflexivity|]. split; [exact Hshown | reflexivity].
Defined.

(** ** Financial math: Long against Short *)

Section Mirror.

Lemma binary_round_aux_opp (s : bool) (m e : Z) (l : location) :
  binary_round_aux prec emax (negb s) m e l
  = SFopp (binary_round_aux prec emax s m e l).
Proof.
  unfold binary_round_aux.
  destruct (shr_fexp prec emax m e l) as [mrs' e'].
  destruct (shr_fexp prec emax _ e' loc_Exact) as [mrs'' e''].
  destruct (shr_m mrs''); [reflexivity | | reflexivity].
  destruct (Z.leb e'' (Z.sub emax prec)); reflexivity.
Qed.

Lemma binary_round_opp (s : bool) (m : positive) (e : Z) :
  binary_round prec emax (negb s) m e = SFopp (binary_round prec emax s m e).
Proof.
  unfold binary_round. destruct (shl_align m e _) as [mz ez].
  apply binary_round_aux_opp.
Qed.

(** The difference of two numbers the other way round is the opposite, or
    both differences are zeros. *)
Lemma SFsub_mirror (x y : spec_float) :
  SFsub prec emax x y = SFopp (SFsub prec emax y x)
  \/ exists s s', SFsub prec emax x y = S754_zero s
                  /\ SFsub prec emax y x = S754_zero s'.
Proof.
  destruct x as [sx|sx| |sx mx ex], y as [sy|sy| |sy my ey]; simpl;
    try (left; reflexivity);
    try (destruct sx, sy; (left; reflexivity) || (right; eexists; eexists; split; reflexivity)).
  all: try (left; rewrite ?negb_involutive; reflexivity).
  all: try (left; destruct sx; reflexivity).
  all: try (left; destruct sy; reflexivity).
  rewrite (Z.min_comm ey ex).
  set (a := cond_Zopp sx (Zpos (fst (shl_align mx ex (Z.min ex ey))))).
  set (b := cond_Zopp sy (Zpos (fst (shl_align my ey (Z.min ex ey))))).
  replace (Z.sub b a) with (Z.opp (Z.sub a b)) by lia.
  destruct (Z.sub a b) as [|p|p]; simpl.
  - right. eexists; eexists; split; reflexivity.
  - left. apply (binary_round_opp true).
  - left. apply (binary_round_opp false).
Qed.

Lemma SFmul_opp_l (x y : spec_float) :
  SFmul prec emax (SFopp x) y = SFopp (SFmul prec emax x y).
Proof.
  destruct x as [sx|sx| |sx mx ex], y as [sy|sy| |sy my ey]; simpl;
    try reflexivity; try (destruct sx, sy; reflexivity).
  replace (xorb (negb sx) sy) with (negb (xorb sx sy)) by (destruct sx, sy; reflexivity).
  apply binary_round_aux_opp.
Qed.

(** Numbers that are alike order alike. *)
Lemma alike_ltb_l (x y c : number) : alike x y -> (x <? c) = (y <? c).
Proof.
  intros [H|[s [s' [Hx Hy]]]]; rewrite !FloatAxioms.ltb_spec.
  - rewrite H. reflexivity.
  - rewrite Hx, Hy. destruct (Prim2SF c) as [sc|sc| |sc m e]; reflexivity.
Qed.

Lemma alike_ltb_r (x y c : number) : alike x y -> (c <? x) = (c <? y).
Proof.
  intros [H|[s [s' [Hx Hy]]]]; rewrite !FloatAxioms.ltb_spec.
  - rewrite H. reflexivity.
  - rewrite Hx, Hy. destruct (Prim2SF c) as [sc|sc| |sc m e]; reflexivity.
Qed.

(** The opposite of a number is below zero when the number is above, and
    above when it is below. *)
Lemma opp_ltb_zero (x : number) : (- x <? 0) = (0 <? x) /\ (0 <? - x) = (x <? 0).
Proof.
  rewrite !FloatAxioms.ltb_spec, FloatAxioms.opp_spec.
  change (Prim2SF 0) with (S754_zero false).
  destruct (Prim2SF x) as [s|s| |s m e]; try (split; reflexivity);
    destruct s; split; reflexivity.
Qed.

(** The P/L of a Short position is alike the opposite of the Long one's. *)
Lemma calculatePL_mirror (e m s : number) :
  alike (calculatePL e m s Short) (- calculatePL e m s Long).
Proof.
  unfold alike, calculatePL.
  rewrite FloatAxioms.opp_spec, !FloatAxioms.mul_spec, !FloatAxioms.sub_spec.
  unfold SF64mul, SF64sub.
  destruct (SFsub_mirror (Prim2SF e) (Prim2SF m)) as [H|[a [b [H1 H2]]]].
  - left. rewrite H. apply SFmul_opp_l.
  - rewrite H1, H2.
    destruct (Prim2SF s) as [ss|ss| |ss ms es]; simpl;
      try (left; reflexivity);
      right; eexists; eexists; split; reflexivity.
Qed.

End Mirror.

(** X17.  On the same prices and share count the P/L of a Short position is
    the opposite of the Long one's: the two [===] the same numbers, and the
    one is a gain exactly when the other is a loss. *)
Theorem short_mirrors_long (entryPrice markPrice shareCount : number) :
  let long := calculatePL entryPrice markPrice shareCount Long in
  let short := calculatePL entryPrice markPrice shareCount Short in
  (forall x, (short =? x) = (- long =? x))
  /\ (short <? 0) = (0 <? long)
  /\ (0 <? short) = (long <? 0).
Proof.
  cbv zeta.
  pose proof (calculatePL_mirror entryPrice markPrice shareCount) as H.
  destruct (opp_ltb_zero (calculatePL entryPrice markPrice shareCount Long))
    as [Hneg Hpos].
  split; [intros x; apply alike_eqb, H|]. split.
  - rewrite (alike_ltb_l _ _ 0 H). exact Hneg.
  - rewrite (alike_ltb_r _ _ 0 H). exact Hpos.
Qed.

(** ** Dashboards and the source chart over reachable journals *)

Section Listings.

Lemma length_filter_name (p : TradeAccount -> bool) (accs : list AccountState) :
  List.length (filter (fun acc => p (name acc)) accs)
  = List.length (filter p (map name accs)).
Proof.
  induction accs as [|acc accs IH]; simpl; [reflexivity|].
  destruct (p (name acc)); simpl; rewrite IH; reflexivity.
Qed.

(** Every stored trade of a reachable state came from the AI intake. *)
Lemma reachable_source (st : AppState) :
  reachable st -> forall t, In t (trades st) -> source (entry t) = AISuggestion.
Proof.
  intros Hr.
  induction Hr as [s | st p u now Hr IH | st form trade now Hr IH Hin].
  - intros t [].
  - intros t Ht. unfold confirmTrade, handleAddTrade in Ht. simpl in Ht.
    apply in_app_or in Ht. destruct Ht as [Ht|[<-|[]]]; [apply IH, Ht | reflexivity].
  - intros t Ht. unfold submitExitForm in Ht.
    destruct (handleSubmit form trade now) as [msg|c] eqn:Hsubmit; [apply IH, Ht|].
    destruct (handleSubmit_confirmed _ _ _ _ Hsubmit) as [_ [Hentry _]].
    simpl in Ht. unfold handleCloseTrade_newTrades in Ht.
    apply in_map_iff in Ht. destruct Ht as [t0 [Ht0 Hin0]].
    destruct (String.eqb (id (entry t0)) (id c)).
    + subst t. simpl. rewrite Hentry. apply (IH (Active trade) Hin).
    + subst t. apply IH, Hin0.
Qed.

Lemma tradesOfSource_all (k : TradeSource) (closed : list ClosedTrade) :
  (forall t : ClosedTrade, In t closed -> source t = k) ->
  tradesOfSource k closed = closed.
Proof.
  unfold tradesOfSource. induction closed as [|t closed IH]; intros H; simpl;
    [reflexivity|].
  rewrite (H t (or_introl eq_refl)).
  destruct (TradeSource_eqb_spec k k) as [_|E]; [|congruence].
  f_equal. apply IH. intros t' Hin. apply H. right. exact Hin.
Qed.

(** The grouping of trades of one source is one group. *)
Lemma groupedBySource_one (k : TradeSource) (closed : list ClosedTrade) :
  closed <> [] ->
  (forall t : ClosedTrade, In t closed -> source t = k) ->
  groupedBySource closed = [(k, closed)].
Proof.
  intros Hne Hall.
  destruct (grouped_groupedBySource closed) as [Hnd [Hgroups Hkeys]].
  assert (Hkey : forall k' g, In (k', g) (groupedBySource closed) -> k' = k /\ g = closed).
  { intros k' g Hin. destruct (Hgroups _ _ Hin) as [Hg Hnonempty].
    assert (Hk : k' = k).
    { destruct g as [|t g]; [congruence|].
      assert (Hin' : In t (tradesOfSource k' closed)) by (rewrite <- Hg; left; reflexivity).
      unfold tradesOfSource in Hin'. apply filter_In in Hin'. destruct Hin' as [Hc Hs].
      destruct (TradeSource_eqb_spec (source t) k') as [E|]; [|discriminate].
      rewrite <- E. apply Hall, Hc. }
    subst k'. split; [reflexivity|]. rewrite Hg. apply tradesOfSource_all, Hall. }
  destruct (groupedBySource closed) as [|[k1 g1] rest] eqn:E.
  - destruct closed as [|t closed]; [congruence|].
    exfalso. apply (Hkeys t). left. reflexivity.
  - destruct (Hkey k1 g1 (or_introl eq_refl)) as [-> ->].
    destruct rest as [|[k2 g2] rest]; [reflexivity|].
    destruct (Hkey k2 g2 (or_intror (or_introl eq_refl))) as [-> _].
    simpl in Hnd. inversion Hnd as [|? ? Hnotin _]. exfalso. apply Hnotin. left. reflexivity.
Qed.

End Listings.

(** X18.  From the initial settings on, an open position is listed under an
    account exactly when the account has its name; no position is listed
    under two accounts, and one whose account is none of "Income Generator",
    "Speculation" and "Trading Lab" is listed under none. *)
Theorem position_listed_under_one_account (st : AppState) (trade : ActiveTrade) :
  run initialState st ->
  let listings :=
    filter (fun acc => is_account (name acc) (account trade)) (accounts (settings st)) in
  (forall acc,
      In trade (Views.accountTrades acc (activeTrades (trades st)))
      <-> In (Active trade) (trades st) /\ account trade = Some (name acc))
  /\ (List.length listings <= 1)%nat
  /\ (List.length listings = 1%nat
      <-> account trade = Some IncomeGenerator
          \/ account trade = Some Speculation
          \/ account trade = Some TradingLab).
Proof.
  intros Hrun. cbv zeta. split.
  - intros acc. unfold Views.accountTrades. rewrite filter_In, In_activeTrades.
    split; intros [Hin Hacc]; (split; [exact Hin|]).
    + destruct (account trade) as [a|]; [|discriminate].
      simpl in Hacc. apply String.eqb_eq in Hacc. congruence.
    + rewrite Hacc. apply String.eqb_refl.
  - rewrite (length_filter_name (fun n => is_account n (account trade))).
    rewrite (run_names st Hrun).
    destruct (account trade) as [a|]; cbn [filter is_account].
    + destruct (String.eqb_spec IncomeGenerator a) as [E1|E1];
        destruct (String.eqb_spec Speculation a) as [E2|E2];
        destruct (String.eqb_spec TradingLab a) as [E3|E3];
        try (exfalso; subst a; discriminate);
        simpl; (split; [lia|]); split; intros H;
        try discriminate H; try reflexivity; try (subst a; auto; fail).
      destruct H as [H|[H|H]]; congruence.
    + split; [simpl; lia|]. split; [discriminate|].
      intros [H|[H|H]]; discriminate.
Qed.

(** X18 on a journal with a trade of "Speculation" and one of "Crypto". *)
Lemma position_listed_under_one_account_witness :
  let a := Sample.answer Speculation Long 10 300 in
  let b := Sample.answer "Crypto" Long 10 300 in
  let st1 := confirmTrade a "bought TSM" Sample.t0 initialState in
  let st2 := confirmTrade b "bought TSM" Sample.t0 st1 in
  map (fun acc => List.length (Views.accountTrades acc (activeTrades (trades st2))))
    (accounts (settings st2))
  = [0; 1; 0]%nat
  /\ (List.length
        (filter (fun acc => is_account (name acc) (account (Sample.opened st1 b)))
           (accounts (settings st2))) <= 1)%nat.
Proof.
  cbv zeta. split; [reflexivity|].
  apply position_listed_under_one_account.
  apply (run_then _ (confirmTrade (Sample.answer Speculation Long 10 300)
                       "bought TSM" Sample.t0 initialState)).
  - apply (run_then _ initialState); [apply run_here | apply event_confirm].
  - apply event_confirm.
Defined.

(** X19.  Every trade is created by the AI intake, which stamps the source
    "AI Suggestion": in every state reached from an empty journal all stored
    trades have that source, so the source chart has no bar while nothing is
    closed and otherwise the one bar "AI Suggestion", over all closed
    trades. *)
Theorem source_chart_has_one_bar (st : AppState) :
  reachable st ->
  let closed := closedTrades (trades st) in
  (forall t, In t (trades st) -> source (entry t) = AISuggestion)
  /\ (closed = [] -> sourceData closed = [])
  /\ (closed <> [] ->
      sourceData closed = [sourceStats (AISuggestion, closed)]
      /\ map source_name (sourceData closed) = [AISuggestion]
      /\ map source_trades (sourceData closed) = [List.length closed]).
Proof.
  intros Hr. cbv zeta.
  pose proof (reachable_source st Hr) as Hsource.
  split; [exact Hsource|]. split; [intros ->; reflexivity|].
  intros Hne.
  assert (Hall : forall t : ClosedTrade,
             In t (closedTrades (trades st)) -> source t = AISuggestion).
  { intros t Hin. apply In_closedTrades in Hin. apply (Hsource (Closed t) Hin). }
  assert (E : sourceData (closedTrades (trades st))
              = [sourceStats (AISuggestion, closedTrades (trades st))]).
  { unfold sourceData. fold (groupedBySource (closedTrades (trades st))).
    rewrite (groupedBySource_one AISuggestion _ Hne Hall). reflexivity. }
  rewrite E. repeat split.
Qed.

(** X19 after two journal entries and the close of both. *)
Lemma source_chart_has_one_bar_witness :
  let a := Sample.answer Speculation Long 10 300 in
  let st1 := confirmTrade a "bought TSM" Sample.t0 initialState in
  let st2 := confirmTrade a "bought TSM" Sample.t0 st1 in
  let st3 := submitExitForm (Sample.formWith "12") (Sample.opened initialState a)
               Sample.t1 st2 in
  let st4 := submitExitForm (Sample.formWith "9") (Sample.opened st1 a) Sample.t1 st3 in
  map (fun s => (source_name s, source_trades s))
    (sourceData (closedTrades (trades st4)))
  = [(AISuggestion, 2%nat)]
  /\ forall t, In t (trades st4) -> source (entry t) = AISuggestion.
Proof.
  cbv zeta. split; [reflexivity|].
  apply source_chart_has_one_bar.
  apply reachable_submit; [|right; left; reflexivity].
  apply reachable_submit; [|left; reflexivity].
  apply reachable_confirm, reachable_confirm, (reachable_init initialSettings).
Defined.
